(** * w4rp2api: credential lifecycle and stream adaptor

    A shallow embedding of
      - [protobuf2openai/warp_response_handler.py] (the stream adaptor and
        the risk classifier), and
      - [warp2protobuf/core/auth.py] (token codec, account registry,
        anonymous acquirer, refresh coordinator),
    followed by the properties the specification states about them.

    Conventions of the embedding.
      - A Python [str] is a [string] holding its UTF-8 bytes.  Substring
        tests on UTF-8 bytes agree with substring tests on code points.
      - [str.lower()] and [re.IGNORECASE] are modelled on the ASCII
        letters; every pattern and keyword of the source is made of ASCII
        letters and of uncased CJK characters.
      - Decoded JSON documents are values of [json]; numbers are Python
        ints (floating-point leaves are outside the model).
      - A Python exception is a value of [exn]; code that may raise
        returns [result]. *)

From Stdlib Require Import ZArith QArith Qminmax String Ascii List Lia Lqa Numbers.DecimalString.
From stdpp Require Import base strings gmap list.
Import ListNotations.

Set Warnings "-register-all".

Open Scope string_scope.
Open Scope Z_scope.

(* ===================================================================== *)
(** * Python strings                                                      *)
(* ===================================================================== *)

Module PyStr.

(** [c.lower()] on an ASCII letter. *)
Definition lower_ascii (c : ascii) : ascii :=
  let n := nat_of_ascii c in
  if ((65 <=? n) && (n <=? 90))%nat then ascii_of_nat (n + 32) else c.

(** [s.lower()] as far as the letters A to Z go: every other byte is
    left as it is, so this is [str.lower] on ASCII text.  On other text
    [str.lower] lowers further letters; the only ones that give an ASCII
    letter are the Kelvin sign, which gives k, and the dotted capital I,
    which gives i followed by a combining dot. *)
Fixpoint lower (s : string) : string :=
  match s with
  | EmptyString => EmptyString
  | String c s' => String (lower_ascii c) (lower s')
  end.

(** [s.isascii()]. *)
Fixpoint isascii (s : string) : bool :=
  match s with
  | EmptyString => true
  | String c s' => (nat_of_ascii c <? 128)%nat && isascii s'
  end.

(** [strip p s = Some r] when [s = p ++ r]. *)
Fixpoint strip_prefix (p s : string) : option string :=
  match p, s with
  | EmptyString, _ => Some s
  | String a p', String b s' =>
      if Ascii.eqb a b then strip_prefix p' s' else None
  | String _ _, EmptyString => None
  end.

Definition startswith (p s : string) : bool :=
  match strip_prefix p s with Some _ => true | None => false end.

(** [needle in hay]. *)
Fixpoint contains (needle hay : string) : bool :=
  startswith needle hay ||
  match hay with
  | EmptyString => false
  | String _ hay' => contains needle hay'
  end.

(** [s.split(sep)] for a one-character separator. *)
Fixpoint split (sep : ascii) (s : string) : list string :=
  match s with
  | EmptyString => [EmptyString]
  | String c s' =>
      if Ascii.eqb c sep then EmptyString :: split sep s'
      else match split sep s' with
           | [] => [String c EmptyString]
           | p :: ps => String c p :: ps
           end
  end.

(** [c * n]. *)
Fixpoint repeat_char (c : ascii) (n : nat) : string :=
  match n with
  | O => EmptyString
  | S n' => String c (repeat_char c n')
  end.

(** [str(z)] for an int. *)
Definition of_Z (z : Z) : string := NilEmpty.string_of_int (Z.to_int z).

(** ** [s.strip()]

    The characters Python strips are those with [str.isspace()]:
    U+0009..U+000D, U+001C..U+0020, U+0085, U+00A0, U+1680,
    U+2000..U+200A, U+2028, U+2029, U+202F, U+205F and U+3000, here in
    their UTF-8 form. *)

Definition bytes_of (l : list nat) : string :=
  fold_right (fun n s => String (ascii_of_nat n) s) EmptyString l.

Definition whitespace : list string :=
  map bytes_of
    (app [[9]; [10]; [11]; [12]; [13]; [28]; [29]; [30]; [31]; [32];
          [194; 133]; [194; 160]; [225; 154; 128];
          [226; 128; 168]; [226; 128; 169]; [226; 128; 175];
          [226; 129; 159]; [227; 128; 128]]
         (map (fun n => [226; 128; n]) (seq 128 11)))%nat.

Fixpoint rev (s : string) : string :=
  match s with
  | EmptyString => EmptyString
  | String c s' => rev s' ++ String c EmptyString
  end.

(** The rest of [s] after one leading whitespace character taken from
    [ws], if there is one. *)
Fixpoint strip_one (ws : list string) (s : string) : option string :=
  match ws with
  | [] => None
  | w :: ws' =>
      match strip_prefix w s with
      | Some r => Some r
      | None => strip_one ws' s
      end
  end.

Fixpoint lstrip_with (ws : list string) (fuel : nat) (s : string) : string :=
  match fuel with
  | O => s
  | S fuel' =>
      match strip_one ws s with
      | Some r => lstrip_with ws fuel' r
      | None => s
      end
  end.

Definition lstrip (s : string) : string :=
  lstrip_with whitespace (String.length s) s.

Definition rstrip (s : string) : string :=
  rev (lstrip_with (map rev whitespace) (String.length s) (rev s)).

Definition strip (s : string) : string := rstrip (lstrip s).

End PyStr.

(* ===================================================================== *)
(** * The fragment of [re] the source uses                                *)
(* ===================================================================== *)

Module Re.

(** Literals, [.*] (and its lazy form [.*?], which accepts the same
    strings under [re.search]), concatenation and alternation. *)
Inductive regex : Type :=
| Lit (s : string)
| DotStar
| Cat (r1 r2 : regex)
| Alt (r1 r2 : regex).

Definition newline : ascii := ascii_of_nat 10.

(** [.] matches every character but the newline. *)
Fixpoint dot_star (k : string -> bool) (s : string) : bool :=
  k s ||
  match s with
  | EmptyString => false
  | String c s' => if Ascii.eqb c newline then false else dot_star k s'
  end.

(** [accepts r k s]: a prefix of [s] matches [r] and the rest satisfies
    the continuation [k]. *)
Fixpoint accepts (r : regex) (k : string -> bool) (s : string) : bool :=
  match r with
  | Lit p => match PyStr.strip_prefix p s with Some s' => k s' | None => false end
  | DotStar => dot_star k s
  | Cat r1 r2 => accepts r1 (accepts r2 k) s
  | Alt r1 r2 => accepts r1 k s || accepts r2 k s
  end.

Definition match_here (r : regex) (s : string) : bool :=
  accepts r (fun _ => true) s.

(** [re.search(r, s)] is not None. *)
Fixpoint search (r : regex) (s : string) : bool :=
  match_here r s ||
  match s with
  | EmptyString => false
  | String _ s' => search r s'
  end.

Fixpoint lower_re (r : regex) : regex :=
  match r with
  | Lit p => Lit (PyStr.lower p)
  | DotStar => DotStar
  | Cat r1 r2 => Cat (lower_re r1) (lower_re r2)
  | Alt r1 r2 => Alt (lower_re r1) (lower_re r2)
  end.


(** What [re.IGNORECASE] matches with a letter of a pattern besides its
    two cases: the Kelvin sign (U+212A) with k, the long s (U+017F) with
    s, the dotted capital I (U+0130) and the dotless i (U+0131) with i.
    In the UTF-8 text these are the sequences E2 84 AA, C5 BF, C4 B0 and
    C4 B1; they are replaced by the letter they match. *)
Fixpoint fold_special (s : string) : string :=
  match s with
  | EmptyString => EmptyString
  | String a s1 =>
      match s1 with
      | EmptyString => String a EmptyString
      | String b s2 =>
          let x := nat_of_ascii a in
          let y := nat_of_ascii b in
          if ((x =? 196) && ((y =? 176) || (y =? 177)))%nat
          then String "i" (fold_special s2)
          else if ((x =? 197) && (y =? 191))%nat
          then String "s" (fold_special s2)
          else
            match s2 with
            | EmptyString => String a (fold_special s1)
            | String c s3 =>
                if ((x =? 226) && (y =? 132) && (nat_of_ascii c =? 170))%nat
                then String "k" (fold_special s3)
                else String a (fold_special s1)
            end
      end
  end.

(** [re.search(r, s, re.IGNORECASE)] is not None, for the patterns of
    the source: their letters are ASCII letters, and their other
    characters have no case. *)
Definition search_IGNORECASE (r : regex) (s : string) : bool :=
  search (lower_re r) (fold_special (PyStr.lower s)).

End Re.

(* ===================================================================== *)
(** * Python values decoded from JSON                                     *)
(* ===================================================================== *)

Inductive exn : Type :=
| TypeError
| KeyError
| AttributeError
| ValueError
| OSError
| OverflowError
| RuntimeError (msg : string).

Inductive result (A : Type) : Type :=
| Ok (a : A)
| Raise (e : exn).
Arguments Ok {A} a.
Arguments Raise {A} e.

Definition rbind {A B} (r : result A) (f : A -> result B) : result B :=
  match r with Ok a => f a | Raise e => Raise e end.

(** [try: r  except Exception: d]. *)
Definition except_ {A} (r : result A) (d : A) : A :=
  match r with Ok a => a | Raise _ => d end.

Inductive json : Type :=
| JNull
| JBool (b : bool)
| JInt (z : Z)
| JStr (s : string)
| JList (l : list json)
| JDict (m : list (string * json)).

Module Py.

Fixpoint assoc {V} (k : string) (m : list (string * V)) : option V :=
  match m with
  | [] => None
  | (k', v) :: m' => if String.eqb k k' then Some v else assoc k m'
  end.

(** [d[k] = v] on a dict: the value is replaced where the key is, or
    the pair is appended. *)
Fixpoint assoc_set {V} (k : string) (v : V) (m : list (string * V))
  : list (string * V) :=
  match m with
  | [] => [(k, v)]
  | (k', v') :: m' =>
      if String.eqb k k' then (k, v) :: m' else (k', v') :: assoc_set k v m'
  end.

(** [not v]. *)
Definition falsy (v : json) : bool :=
  match v with
  | JNull => true
  | JBool b => negb b
  | JInt z => z =? 0
  | JStr s => String.eqb s ""
  | JList l => match l with [] => true | _ => false end
  | JDict m => match m with [] => true | _ => false end
  end.

Definition is_str (s : string) (v : json) : bool :=
  match v with JStr s' => String.eqb s s' | _ => false end.

(** [k in v] for a string [k]. *)
Definition contains (k : string) (v : json) : result bool :=
  match v with
  | JDict m => Ok (match assoc k m with Some _ => true | None => false end)
  | JList l => Ok (existsb (is_str k) l)
  | JStr s => Ok (PyStr.contains k s)
  | _ => Raise TypeError
  end.

(** [v[k]] for a string [k]. *)
Definition getitem (v : json) (k : string) : result json :=
  match v with
  | JDict m => match assoc k m with Some x => Ok x | None => Raise KeyError end
  | _ => Raise TypeError
  end.

(** [v.get(k, d)]. *)
Definition get (v : json) (k : string) (d : json) : result json :=
  match v with
  | JDict m => Ok (match assoc k m with Some x => x | None => d end)
  | _ => Raise AttributeError
  end.

(** The value of [v] in arithmetic: [bool] is a subclass of [int]. *)
Definition as_int (v : json) : result Z :=
  match v with
  | JInt z => Ok z
  | JBool b => Ok (if b then 1 else 0)
  | _ => Raise TypeError
  end.

(** [float(n)] for an [int], as arithmetic with a [float] operand does it:
    an integer that rounds to no double raises, from [2^1024 - 2^970]
    on. *)
Definition as_float (n : Z) : result Z :=
  if Z.abs n <? 2 ^ 1024 - 2 ^ 970 then Ok n else Raise OverflowError.

(** ** [json.dumps(v, ensure_ascii=False)] *)

Definition hex_digit (n : nat) : ascii :=
  if (n <? 10)%nat then ascii_of_nat (48 + n) else ascii_of_nat (87 + n).

Definition escape_char (c : ascii) : string :=
  let n := nat_of_ascii c in
  if (n =? 34)%nat then String "\" (String c "")
  else if (n =? 92)%nat then String c (String c "")
  else if (n =? 10)%nat then "\n"
  else if (n =? 13)%nat then "\r"
  else if (n =? 9)%nat then "\t"
  else if (n =? 8)%nat then "\b"
  else if (n =? 12)%nat then "\f"
  else if (n <? 32)%nat then
    "\u00" ++ String (hex_digit (n / 16)) (String (hex_digit (n mod 16)) "")
  else String c "".

Fixpoint escape (s : string) : string :=
  match s with
  | EmptyString => ""
  | String c s' => escape_char c ++ escape s'
  end.

Definition quote (s : string) : string :=
  String (ascii_of_nat 34) (escape s ++ String (ascii_of_nat 34) "").

Fixpoint dumps (v : json) : string :=
  match v with
  | JNull => "null"
  | JBool true => "true"
  | JBool false => "false"
  | JInt z => PyStr.of_Z z
  | JStr s => quote s
  | JList l =>
      "[" ++
      (fix items (l : list json) : string :=
         match l with
         | [] => ""
         | x :: l' =>
             dumps x ++ match l' with [] => "" | _ => ", " ++ items l' end
         end) l ++ "]"
  | JDict m =>
      "{" ++
      (fix items (m : list (string * json)) : string :=
         match m with
         | [] => ""
         | (k, x) :: m' =>
             quote k ++ ": " ++ dumps x ++
             match m' with [] => "" | _ => ", " ++ items m' end
         end) m ++ "}"
  end.

End Py.

(* ===================================================================== *)
(** * Stream adaptor: [WarpResponseHandler]                               *)
(* ===================================================================== *)

Module Handler.

Inductive TransactionState : Type := IDLE | ACTIVE | FAILED | RETRYING.

Record WarpResponseHandler : Type := mkHandler {
  transaction_state : TransactionState;
  retry_count : Z;
  max_retries : Z
}.

(** [WarpResponseHandler(max_retries)]. *)
Definition init (max_retries : Z) : WarpResponseHandler :=
  {| transaction_state := IDLE; retry_count := 0; max_retries := max_retries |}.

Definition stuck_indicators : list Re.regex :=
  [ Re.Lit "rollback_transaction";
    Re.Lit "update_task_description";
    Re.Cat (Re.Lit "begin_transaction")
           (Re.Cat Re.DotStar (Re.Lit "rollback_transaction")) ].

Definition file_operation_keywords : list string :=
  [ "创建文件"; "修改代码"; "写代码"; "保存"; "文件";
    "create file"; "write code"; "save"; "implement";
    "apply_file_diffs"; "create_files"; "read_files" ].

(** What one call of [handle_sse_event] hands back: the event itself, or
    one of the payloads the handler builds. *)
Inductive emitted : Type :=
| PassThrough (event_data : json)
| RetryMarker (attempt : Z)
| Fallback.

(** [any(action_type in action for action in actions)]: the scan stops
    at the first hit, and at the first action that does not support
    [in]. *)
Fixpoint any_in (action_type : string) (actions : list json) : result bool :=
  match actions with
  | [] => Ok false
  | action :: rest =>
      rbind (Py.contains action_type action)
            (fun b => if b then Ok true else any_in action_type rest)
  end.

Definition _contains_action (event_data : json) (action_type : string) : bool :=
  except_
    (rbind (Py.get event_data "client_actions" (JDict [])) (fun client_actions =>
     match client_actions with
     | JDict _ =>
         rbind (Py.get client_actions "actions" (JList [])) (fun actions =>
         match actions with
         | JList l => any_in action_type l
         | _ => Ok false
         end)
     | _ => Ok false
     end))
    false.

Definition _is_stuck_response (event_data : json) : bool :=
  except_
    (let event_str := Py.dumps event_data in
     if existsb (fun indicator => Re.search_IGNORECASE indicator event_str)
                stuck_indicators
     then Ok true
     else if PyStr.contains "update_task_description" event_str then
       rbind
         (if PyStr.contains "append_to_message_content" event_str then Ok true
          else if PyStr.contains "agent_output" event_str then Ok true
          else
            rbind (Py.get event_data "message" (JDict [])) (fun message =>
            rbind (Py.get message "agent_output" (JDict [])) (fun agent_output =>
            Py.contains "text" agent_output)))
         (fun has_content => Ok (negb has_content))
     else Ok false)
    false.

Definition retry_messages : list string :=
  [ "让我重新为您处理这个请求...";
    "正在尝试不同的方式来帮助您...";
    "切换到更稳定的处理方式..." ].

Definition choices_delta (content : string) : json :=
  JDict [("choices", JList [JDict [("delta", JDict [("content", JStr content)])]])].

Definition nl : string := String Re.newline "".

(** The payload of [_create_retry_response] when [retry_count] is
    [attempt]. *)
Definition _create_retry_response (attempt : Z) : json :=
  let message :=
    nth (Z.to_nat ((attempt - 1) mod Z.of_nat (length retry_messages)))
        retry_messages "" in
  choices_delta (nl ++ nl ++ "🔄 " ++ message ++ nl ++ nl).

Definition fallback_content : string :=
"
⚠️ 由于技术限制，我无法直接执行文件操作。

不过我可以为您提供以下替代方案：

1. **代码示例和指导**：我可以为您提供完整的代码示例和实现思路
2. **分步骤说明**：详细说明如何在您的环境中实现相关功能
3. **最佳实践建议**：分享相关的最佳实践和技术建议

请告诉我您想要实现什么功能，我会为您提供详细的代码示例和实施指导！
        ".

Definition _create_fallback_response : json :=
  choices_delta (PyStr.strip fallback_content).

Definition _create_error_response (error_msg : string) : json :=
  choices_delta
    (nl ++ nl ++ "❌ 处理过程中出现错误：" ++ error_msg ++ nl ++ nl ++
     "请重新尝试您的请求。").

Definition _process_normal_event (event_data : json) : json := event_data.

(** The dict a call returns. *)
Definition to_event (e : emitted) : json :=
  match e with
  | PassThrough event_data => _process_normal_event event_data
  | RetryMarker attempt => _create_retry_response attempt
  | Fallback => _create_fallback_response
  end.

Definition set_state (st : TransactionState) (h : WarpResponseHandler) :=
  {| transaction_state := st;
     retry_count := retry_count h;
     max_retries := max_retries h |}.

Definition set_retry_count (n : Z) (h : WarpResponseHandler) :=
  {| transaction_state := transaction_state h;
     retry_count := n;
     max_retries := max_retries h |}.

(** [handle_sse_event]: what is emitted and the handler afterwards.
    [_contains_action] and [_is_stuck_response] catch what they raise and
    the other steps raise nothing, so the [except] clause of the source,
    which would emit [_create_error_response], is never entered. *)
Definition handle_sse_event (h : WarpResponseHandler) (event_data : json)
  : emitted * WarpResponseHandler :=
  if _contains_action event_data "begin_transaction" then
    let h := set_state ACTIVE h in
    let h := set_retry_count 0 h in
    (PassThrough event_data, h)
  else if _contains_action event_data "rollback_transaction" then
    let h := set_state FAILED h in
    if retry_count h <? max_retries h then
      let h := set_retry_count (retry_count h + 1) h in
      let h := set_state RETRYING h in
      (RetryMarker (retry_count h), h)
    else
      (Fallback, h)
  else if _contains_action event_data "commit_transaction" then
    let h := set_state IDLE h in
    (PassThrough event_data, h)
  else if _is_stuck_response event_data then
    if retry_count h <? max_retries h then
      let h := set_retry_count (retry_count h + 1) h in
      (RetryMarker (retry_count h), h)
    else
      (Fallback, h)
  else
    (PassThrough event_data, h).

(** Modelled from the spec: the loop that feeds the upstream events to
    the handler is outside [warp_response_handler.py]; section 4.7 has the
    handler see the events one by one, in order, and emit one event for
    each. *)
Fixpoint process_stream (h : WarpResponseHandler) (events : list json)
  : list emitted * WarpResponseHandler :=
  match events with
  | [] => ([], h)
  | e :: rest =>
      let '(out, h1) := handle_sse_event h e in
      let '(outs, h2) := process_stream h1 rest in
      (out :: outs, h2)
  end.

(** An upstream event whose actions list holds the one action [a]. *)
Definition action_event (a : string) : json :=
  JDict [("client_actions", JDict [("actions", JList [JStr a])])].

(** ** Risk classifier *)

Definition risk_patterns : list Re.regex :=
  [ Re.Cat (Re.Lit "创建") (Re.Cat Re.DotStar (Re.Lit "文件"));
    Re.Cat (Re.Lit "写") (Re.Cat Re.DotStar
      (Re.Cat (Re.Lit "到") (Re.Cat Re.DotStar (Re.Lit "文件"))));
    Re.Cat (Re.Lit "保存") (Re.Cat Re.DotStar (Re.Lit "代码"));
    Re.Alt (Re.Cat (Re.Lit "修改") (Re.Cat Re.DotStar (Re.Lit ".py")))
      (Re.Alt (Re.Lit ".js") (Re.Alt (Re.Lit ".html")
        (Re.Alt (Re.Lit ".ts") (Re.Lit ".css"))));
    Re.Cat (Re.Lit "create") (Re.Cat Re.DotStar (Re.Lit "file"));
    Re.Cat (Re.Lit "write") (Re.Cat Re.DotStar
      (Re.Cat (Re.Lit "to") (Re.Cat Re.DotStar (Re.Lit "file"))));
    Re.Cat (Re.Lit "save") (Re.Cat Re.DotStar (Re.Lit "code"));
    Re.Cat (Re.Lit "implement") (Re.Cat Re.DotStar
      (Re.Cat (Re.Lit "in") (Re.Cat Re.DotStar (Re.Lit "file")))) ].

(** The running [risk_score] after the loop over the patterns (one
    point each) and over the keywords (half a point each). *)
Definition pattern_points (user_message : string) : Q :=
  fold_left
    (fun risk_score pattern =>
       if Re.search_IGNORECASE pattern user_message
       then (risk_score + 1)%Q else risk_score)
    risk_patterns 0%Q.

(** The keywords hold no k, and no i at their end, so the two letters
    that [str.lower] turns into ASCII letters outside A to Z make no
    keyword appear: the test on [PyStr.lower] is the test of the
    source. *)
Definition keyword_points (risk_score : Q) (user_message : string) : Q :=
  fold_left
    (fun risk_score keyword =>
       if PyStr.contains (PyStr.lower keyword) (PyStr.lower user_message)
       then (risk_score + (1 # 2))%Q else risk_score)
    file_operation_keywords risk_score.

(** [assess_file_operation_risk].  The score is a multiple of 1/40
    between 0 and 28/40; the float the source computes for it and the
    literals 0.7 = 28/40 and 0.4 = 16/40 it is compared with are the
    correctly rounded doubles of these rationals, so the comparisons on
    the rationals are the comparisons the source makes. *)
Definition assess_file_operation_risk (user_message : string) : Q :=
  if String.eqb user_message "" then 0%Q
  else
    let risk_score := keyword_points (pattern_points user_message) user_message in
    Qmin (risk_score /
            inject_Z (Z.of_nat (length risk_patterns + length file_operation_keywords)))
         1.

Definition Qgtb (x y : Q) : bool := negb (Qle_bool x y).

Definition transform_risky_request (user_message : string) (risk_score : Q)
  : string :=
  if Qgtb risk_score (7 # 10) then
    PyStr.strip ("
请为以下需求提供代码示例和实现建议（以教学方式，不直接创建文件）：

用户需求：" ++ user_message ++ "

请详细解释实现步骤，并提供完整的代码示例。
            ")
  else if Qgtb risk_score (4 # 10) then
    PyStr.strip ("
" ++ user_message ++ "

请注意：我会以代码示例的形式为您提供解决方案。
            ")
  else user_message.

End Handler.

(* ===================================================================== *)
(** * The process and its surroundings                                    *)
(* ===================================================================== *)

(** More of Python's data model, for the values [auth.py] handles. *)
Module PyData.

(** [a == b] on decoded JSON: [True == 1], lists are compared in order
    and dicts key by key. *)
Fixpoint eq (a b : json) : bool :=
  match a, b with
  | JNull, JNull => true
  | JBool x, JBool y => Bool.eqb x y
  | JBool x, JInt y => (if x then 1 else 0) =? y
  | JInt x, JBool y => x =? (if y then 1 else 0)
  | JInt x, JInt y => x =? y
  | JStr x, JStr y => String.eqb x y
  | JList l1, JList l2 =>
      (fix all2 (l1 l2 : list json) : bool :=
         match l1, l2 with
         | [], [] => true
         | x :: l1', y :: l2' => eq x y && all2 l1' l2'
         | _, _ => false
         end) l1 l2
  | JDict m1, JDict m2 =>
      (length m1 =? length m2)%nat &&
      (fix all (m : list (string * json)) : bool :=
         match m with
         | [] => true
         | (k, x) :: m' =>
             match Py.assoc k m2 with
             | Some y => eq x y
             | None => false
             end && all m'
         end) m1
  | _, _ => false
  end.

(** [v[k] = x]. *)
Definition setitem (v : json) (k : string) (x : json) : result json :=
  match v with
  | JDict m => Ok (JDict (Py.assoc_set k x m))
  | _ => Raise TypeError
  end.

(** [len(s)] counts code points: the bytes that do not continue a
    UTF-8 sequence. *)
Fixpoint len (s : string) : nat :=
  match s with
  | EmptyString => O
  | String c s' =>
      let n := nat_of_ascii c in
      if ((128 <=? n) && (n <? 192))%nat then len s' else S (len s')
  end.

End PyData.

(** What [auth.py] imports: the three decoders of the standard library
    and the constants it takes from [config/settings.py]. *)
Class Platform : Type := {
  urlsafe_b64decode : string -> result string;
  utf8_decode : string -> result string;
  json_loads : string -> result json;
(** [base64.b64decode(REFRESH_TOKEN_B64)], the baked-in request body. *)
REFRESH_PAYLOAD : string;
QUOTA_REFRESH_THRESHOLD : Z
}.

(** A file holds a JSON document or something [json.load] rejects. *)
Inductive file : Type :=
| FJson (v : json)
| FGarbage.

(** What the process reads and writes: the [.env] file as its keys and
    values (the one file that [load_dotenv] reads and [set_key] writes),
    [os.environ], the other files by path, whether writing to [.env] and
    to the other files succeeds, and [time.time()]. *)
Record world : Type := mkWorld {
  dotenv : gmap string string;
  dotenv_writable : bool;
  environ : gmap string string;
  files : gmap string file;
  files_writable : bool;
  clock : Q
}.

Definition with_dotenv (d : gmap string string) (w : world) : world :=
  {| dotenv := d; dotenv_writable := dotenv_writable w; environ := environ w;
     files := files w; files_writable := files_writable w; clock := clock w |}.

Definition with_environ (e : gmap string string) (w : world) : world :=
  {| dotenv := dotenv w; dotenv_writable := dotenv_writable w; environ := e;
     files := files w; files_writable := files_writable w; clock := clock w |}.

Definition with_files (f : gmap string file) (w : world) : world :=
  {| dotenv := dotenv w; dotenv_writable := dotenv_writable w; environ := environ w;
     files := f; files_writable := files_writable w; clock := clock w |}.

(** The HTTP calls of [auth.py]. *)
Inductive request : Type :=
| PostRefresh (payload : string)
(** the proxy token endpoint, with the request body *)
| PostRefreshFor (refresh_token : json)
(** the same endpoint, for the refresh token the acquirer just got *)
| PostCreateAnonymousUser
| PostSignIn (id_token : json)
| PostRequestLimitInfo (id_token : string).

Record response : Type := mkResponse {
  status_code : Z;
  text : string;
(** what [response.json()] returns or raises *)
body : result json
}.

(** ** Coroutines

    An [async def] runs until it awaits an HTTP call; it resumes with the
    outcome of the call, in the world as it is by then. *)
Inductive coro (A : Type) : Type :=
| Return (a : A) (w : world)
| Throw (e : exn) (w : world)
| Await (req : request) (w : world) (k : result response -> world -> coro A).
Arguments Return {A} a w.
Arguments Throw {A} e w.
Arguments Await {A} req w k.

Definition task (A : Type) : Type := world -> coro A.

Fixpoint bind_coro {A B} (c : coro A) (f : A -> task B) : coro B :=
  match c with
  | Return a w => f a w
  | Throw e w => Throw e w
  | Await req w k => Await req w (fun r w' => bind_coro (k r w') f)
  end.

Fixpoint catch_coro {A} (c : coro A) (handler : exn -> task A) : coro A :=
  match c with
  | Return a w => Return a w
  | Throw e w => handler e w
  | Await req w k => Await req w (fun r w' => catch_coro (k r w') handler)
  end.

#[global] Instance task_ret : MRet task := fun A a w => Return a w.
#[global] Instance task_bind : MBind task := fun A B f m w => bind_coro (m w) f.

#[global] Instance result_ret : MRet result := fun A a => Ok a.
#[global] Instance result_bind : MBind result := fun A B f r => rbind r f.

(** [raise e]. *)
Definition raise {A} (e : exn) : task A := fun w => Throw e w.

(** [try: m  except Exception as e: handler e]. *)
Definition try_ {A} (m : task A) (handler : exn -> task A) : task A :=
  fun w => catch_coro (m w) handler.

(** A computation without effects, which may raise. *)
Definition lift {A} (r : result A) : task A :=
  fun w => match r with Ok a => Return a w | Raise e => Throw e w end.

Definition gets {A} (f : world -> A) : task A := fun w => Return (f w) w.
Definition modify (f : world -> world) : task unit := fun w => Return tt (f w).

(** [await client.post(...)], with the status and body checks left to
    the caller. *)
Definition post (req : request) : task response :=
  fun w => Await req w (fun r w' =>
    match r with Ok resp => Return resp w' | Raise e => Throw e w' end).

(** A coroutine run alone against an upstream that answers each request
    [req] with [net req]: the value it returns or the exception it lets
    through, and the world it leaves. *)
Fixpoint run {A} (net : request -> result response) (c : coro A)
  : result A * world :=
  match c with
  | Return a w => (Ok a, w)
  | Throw e w => (Raise e, w)
  | Await req w k => run net (k (net req) w)
  end.

(** ** Tasks side by side

    Several coroutines in one event loop: one of them runs at a time, up
    to its next [await]; the calls of the suspended ones are in flight. *)
Inductive thread (A : Type) : Type :=
| Ready (t : task A)
| Suspended (req : request) (k : result response -> world -> coro A)
| Finished (r : result A).
Arguments Ready {A} t.
Arguments Suspended {A} req k.
Arguments Finished {A} r.

Definition settle {A} (c : coro A) : thread A * world :=
  match c with
  | Return a w => (Finished (Ok a), w)
  | Throw e w => (Finished (Raise e), w)
  | Await req w k => (Suspended req k, w)
  end.

Record loop (A : Type) : Type := mkLoop {
  shared : world;
  threads : list (thread A)
}.
Arguments mkLoop {A} shared threads.
Arguments shared {A} l.
Arguments threads {A} l.

Inductive loop_step {A} : loop A -> loop A -> Prop :=
| step_start (l : loop A) (i : nat) (t : task A) :
    threads l !! i = Some (Ready t) ->
    loop_step l
      (mkLoop (settle (t (shared l))).2
              (<[i := (settle (t (shared l))).1]> (threads l)))
| step_resume (l : loop A) (i : nat) req k (r : result response) :
    threads l !! i = Some (Suspended req k) ->
    loop_step l
      (mkLoop (settle (k r (shared l))).2
              (<[i := (settle (k r (shared l))).1]> (threads l))).

Inductive reachable {A} : loop A -> loop A -> Prop :=
| reach_refl l : reachable l l
| reach_step l1 l2 l3 : reachable l1 l2 -> loop_step l2 l3 -> reachable l1 l3.

Definition is_refresh_call (req : request) : bool :=
  match req with
  | PostRefresh _ | PostRefreshFor _ => true
  | _ => false
  end.

(** The refresh calls in flight. *)
Definition refresh_in_flight {A} (l : loop A) : nat :=
  length (List.filter
            (fun th => match th with
                       | Suspended req _ => is_refresh_call req
                       | _ => false
                       end)
            (threads l)).

(* ===================================================================== *)
(** * [warp2protobuf/core/auth.py]                                        *)
(* ===================================================================== *)

Module Auth.
Section WithPlatform.
Context `{Platform}.

(** ** The process environment and the [.env] file *)

(** [os.getenv(key)]. *)
Definition getenv (key : string) : task (option string) :=
  gets (fun w => environ w !! key).

(** [not v] for what [os.getenv] returns. *)
Definition unset (v : option string) : bool :=
  match v with
  | None => true
  | Some s => String.eqb s ""
  end.

(** [load_dotenv(override=True)]: every key of the file replaces the
    key of the environment. *)
Definition load_dotenv : task unit :=
  modify (fun w => with_environ (dotenv w ∪ environ w) w).

(** [set_key(env_path, key, value)] of python-dotenv: the value has to be
    a [str], and the file has to be writable. *)
Definition set_key (key : string) (value : json) : task unit :=
  fun w =>
    match value with
    | JStr s =>
        if dotenv_writable w
        then Return tt (with_dotenv (<[key := s]> (dotenv w)) w)
        else Throw OSError w
    | _ => Throw AttributeError w
    end.

(** [os.environ[key] = value]. *)
Definition setenv (key : string) (value : json) : task unit :=
  fun w =>
    match value with
    | JStr s => Return tt (with_environ (<[key := s]> (environ w)) w)
    | _ => Throw TypeError w
    end.

Definition update_env_file (new_jwt : json) : task bool :=
  try_ (_ ← set_key "WARP_JWT" new_jwt; mret true) (fun _ => mret false).

Definition update_env_id_token (id_token : json) : task bool :=
  try_ (_ ← set_key "WARP_ID_TOKEN" id_token; mret true) (fun _ => mret false).

Definition update_env_refresh_token (refresh_token : json) : task bool :=
  try_ (_ ← set_key "WARP_REFRESH_TOKEN" refresh_token; mret true)
       (fun _ => mret false).

(** ** Token codec *)

Definition decode_jwt_payload (token : json) : json :=
  except_
    (match token with
     | JStr token =>
         let parts := PyStr.split "." token in
         if negb (length parts =? 3)%nat then Ok (JDict [])
         else
           let payload_b64 := nth 1 parts "" in
           let padding := (4 - PyData.len payload_b64 mod 4)%nat in
           let payload_b64 :=
             if negb (padding =? 4)%nat
             then payload_b64 ++ PyStr.repeat_char "=" padding
             else payload_b64 in
           payload_bytes ← urlsafe_b64decode payload_b64;
           payload_text ← utf8_decode payload_bytes;
           json_loads payload_text
     | _ => Raise AttributeError
     end)
    (JDict []).

(** [is_token_expired] when [time.time()] is [now].  The subtraction
    has a [float] operand, so [exp] is converted first, and an [exp]
    beyond the range of a double raises [OverflowError]; the difference
    itself is taken exactly. *)
Definition is_token_expired_at (now : Q) (token : json) (buffer_minutes : Z)
  : result bool :=
  let payload := decode_jwt_payload token in
  if Py.falsy payload then Ok true
  else
    has_exp ← Py.contains "exp" payload;
    if negb has_exp then Ok true
    else
      expiry_time ← Py.getitem payload "exp";
      expiry_time ← Py.as_int expiry_time;
      expiry_time ← Py.as_float expiry_time;
      let buffer_time := buffer_minutes * 60 in
      Ok (Qle_bool (inject_Z expiry_time - now) (inject_Z buffer_time)).

Definition is_token_expired (token : json) (buffer_minutes : Z) : task bool :=
  now ← gets clock;
  lift (is_token_expired_at now token buffer_minutes).

(** ** Refresh-token refresh *)

(** The [error_type] the source derives from a response whose status is
    not 200. *)
Definition error_type (resp : response) : string :=
  let response_text := PyStr.lower (text resp) in
  if status_code resp =? 401 then "invalid_token"
  else if status_code resp =? 429 then
    if PyStr.contains "no remaining quota" response_text
       || PyStr.contains "no ai requests remaining" response_text
    then "quota_exhausted" else "refresh_failed"
  else if PyStr.contains "invalid_grant" response_text
          || PyStr.contains "invalid_token" response_text
  then "invalid_token"
  else if PyStr.contains "refresh token is invalid" response_text
  then "invalid_token"
  else "refresh_failed".

Definition error_dict (kind : string) : json := JDict [("error_type", JStr kind)].

(** The request body of [refresh_jwt_token], as the text that is
    encoded; the encoding itself, which a refresh token with undecodable
    bytes makes fail before the request, is not part of it. *)
Definition refresh_payload (env_refresh : option string) : string :=
  match env_refresh with
  | Some r =>
      if String.eqb r "" then REFRESH_PAYLOAD
      else "grant_type=refresh_token&refresh_token=" ++ r
  | None => REFRESH_PAYLOAD
  end.

Definition refresh_jwt_token : task json :=
  env_refresh ← getenv "WARP_REFRESH_TOKEN";
  let payload := refresh_payload env_refresh in
  try_
    (response ← post (PostRefresh payload);
     if status_code response =? 200 then
       token_data ← lift (body response);
       has_id ← lift (Py.contains "id_token" token_data);
       _ ← (if has_id : bool then
              id_token ← lift (Py.getitem token_data "id_token");
              update_env_id_token id_token
            else mret false);
       mret token_data
     else mret (error_dict (error_type response)))
    (fun _ => mret (error_dict "refresh_failed")).

(** ** Account registry *)

(** [os.path.dirname(p)] for a POSIX path. *)
Fixpoint up_to_last_slash (p : string) : string :=
  match p with
  | EmptyString => EmptyString
  | String c p' =>
      if PyStr.contains "/" p' then String c (up_to_last_slash p')
      else if Ascii.eqb c "/" then "/" else EmptyString
  end.

Fixpoint all_slashes (p : string) : bool :=
  match p with
  | EmptyString => true
  | String c p' => Ascii.eqb c "/" && all_slashes p'
  end.

Fixpoint drop_slashes (p : string) : string :=
  match p with
  | String c p' => if Ascii.eqb c "/" then drop_slashes p' else p
  | EmptyString => EmptyString
  end.

Definition dirname (p : string) : string :=
  let head := up_to_last_slash p in
  if all_slashes head then head
  else PyStr.rev (drop_slashes (PyStr.rev head)).

(** [os.makedirs(d, exist_ok=True)]: there is no directory of the
    empty name to make. *)
Definition makedirs (d : string) : task unit :=
  fun w =>
    if String.eqb d "" then Throw OSError w
    else if files_writable w then Return tt w else Throw OSError w.

(** The file is taken as the JSON document it holds, and a save that
    gets past [os.makedirs] on writable files as one that writes it: a
    path that names a directory, and a dump that fails after the file was
    truncated, are left out. *)
Definition save_accounts_to_file (file_path : string) (accounts : list json)
  : task bool :=
  try_
    (_ ← makedirs (dirname file_path);
     writable ← gets files_writable;
     if writable : bool then
       _ ← modify (fun w =>
              with_files (<[file_path := FJson (JList accounts)]> (files w)) w);
       mret true
     else raise OSError)
    (fun _ => mret false).

(** The loop of [load_accounts_from_file]: the accounts with the status
    filled in, and whether one was filled in. *)
Fixpoint init_account_status (accounts : list json)
  : result (list json * bool) :=
  match accounts with
  | [] => Ok ([], false)
  | account :: rest =>
      has_status ← Py.contains "account_status" account;
      first ← (if has_status : bool then Ok (account, false)
               else account' ← PyData.setitem account "account_status"
                                              (JStr "available");
                    Ok (account', true));
      others ← init_account_status rest;
      Ok (first.1 :: others.1, first.2 || others.2)
  end.

Definition load_accounts_from_file (file_path : string) : task (list json) :=
  try_
    (fs ← gets files;
     match fs !! file_path with
     | None => mret []
     | Some FGarbage => raise ValueError
     | Some (FJson (JList accounts)) =>
         loaded ← lift (init_account_status accounts);
         _ ← (if loaded.2 : bool then save_accounts_to_file file_path loaded.1
              else mret false);
         mret loaded.1
     | Some (FJson _) => mret []
     end)
    (fun _ => mret []).

(** The loop of [get_current_account_from_file]. *)
Fixpoint first_available (accounts : list json) : result (option json) :=
  match accounts with
  | [] => Ok None
  | account :: rest =>
      refresh_token ← Py.get account "refresh_token" JNull;
      if Py.falsy refresh_token then first_available rest
      else
        status ← Py.get account "account_status" (JStr "available");
        if PyData.eq status (JStr "available") then Ok (Some account)
        else first_available rest
  end.

(** The counts the source logs when no account is available read
    accounts that the loop has already read, and raise nothing. *)
Definition get_current_account_from_file (file_path : string) : task json :=
  accounts ← load_accounts_from_file file_path;
  match accounts with
  | [] => mret (JDict [])
  | _ =>
      found ← lift (first_available accounts);
      match found with
      | Some account => mret account
      | None => mret (JDict [])
      end
  end.

(** The loop of [update_account_status]: the accounts after the first
    one with this email got the status, if there is one. *)
Fixpoint set_first_status (accounts : list json) (email status : json)
  : result (option (list json)) :=
  match accounts with
  | [] => Ok None
  | account :: rest =>
      account_email ← Py.get account "email" JNull;
      if PyData.eq account_email email then
        account' ← PyData.setitem account "account_status" status;
        Ok (Some (account' :: rest))
      else
        rest' ← set_first_status rest email status;
        Ok (option_map (cons account) rest')
  end.

Definition update_account_status (file_path : string) (email status : json)
  : task bool :=
  try_
    (accounts ← load_accounts_from_file file_path;
     match accounts with
     | [] => mret false
     | _ =>
         updated ← lift (set_first_status accounts email status);
         match updated with
         | Some accounts' => save_accounts_to_file file_path accounts'
         | None => mret false
         end
     end)
    (fun _ => mret false).

(** [token_data and key in token_data]. *)
Definition nonempty_with (key : string) (token_data : json) : result bool :=
  if Py.falsy token_data then Ok false else Py.contains key token_data.

Definition refresh_from_file (file_path : string) : task bool :=
  account ← get_current_account_from_file file_path;
  no_token ← (if Py.falsy account then mret true
              else r ← lift (Py.get account "refresh_token" JNull);
                   mret (Py.falsy r));
  if no_token : bool then mret false
  else
    refresh_token ← lift (Py.getitem account "refresh_token");
    email ← lift (Py.get account "email" (JStr "unknown"));
    _ ← setenv "WARP_REFRESH_TOKEN" refresh_token;
    try_
      (token_data ← refresh_jwt_token;
       has_access ← lift (nonempty_with "access_token" token_data);
       if has_access : bool then
         new_jwt ← lift (Py.getitem token_data "access_token");
         expired ← is_token_expired new_jwt 0;
         if negb expired then
           _ ← update_env_refresh_token refresh_token;
           _ ← update_account_status file_path email (JStr "available");
           update_env_file new_jwt
         else
           _ ← update_account_status file_path email (JStr "invalid_token");
           mret false
       else
         has_error ← lift (nonempty_with "error_type" token_data);
         if has_error : bool then
           kind ← lift (Py.getitem token_data "error_type");
           _ ← update_account_status file_path email kind;
           mret false
         else
           _ ← update_account_status file_path email (JStr "refresh_failed");
           mret false)
      (fun _ =>
         _ ← update_account_status file_path email (JStr "refresh_failed");
         mret false).

(** The loop of [mark_current_account_quota_exhausted]: the email of
    the first account with this refresh token. *)
Fixpoint find_by_refresh_token (accounts : list json) (current : string)
  : result (option json) :=
  match accounts with
  | [] => Ok None
  | account :: rest =>
      refresh_token ← Py.get account "refresh_token" JNull;
      if PyData.eq refresh_token (JStr current) then
        email ← Py.get account "email" (JStr "unknown");
        Ok (Some email)
      else find_by_refresh_token rest current
  end.

Definition mark_current_account_quota_exhausted : task bool :=
  local_jwt_filepath ← getenv "LOCAL_JWT_FILEPATH";
  match local_jwt_filepath with
  | Some file_path =>
      if String.eqb file_path "" then mret false
      else
        current_refresh_token ← getenv "WARP_REFRESH_TOKEN";
        match current_refresh_token with
        | Some current =>
            if String.eqb current "" then mret false
            else
              try_
                (accounts ← load_accounts_from_file file_path;
                 match accounts with
                 | [] => mret false
                 | _ =>
                     found ← lift (find_by_refresh_token accounts current);
                     match found with
                     | Some email =>
                         update_account_status file_path email
                                               (JStr "quota_exhausted")
                     | None => mret false
                     end
                 end)
                (fun _ => mret false)
        | None => mret false
        end
  | None => mret false
  end.

(** ** Anonymous acquirer *)

Definition _create_anonymous_user : task json :=
  resp ← post PostCreateAnonymousUser;
  if negb (status_code resp =? 200)
  then raise (RuntimeError "CreateAnonymousUser failed")
  else lift (body resp).

Definition _exchange_id_token_for_refresh_token (id_token : json) : task json :=
  resp ← post (PostSignIn id_token);
  if negb (status_code resp =? 200)
  then raise (RuntimeError "signInWithCustomToken failed")
  else lift (body resp).

Definition acquire_anonymous_access_token : task json :=
  data ← _create_anonymous_user;
  let id_token :=
    except_ (d ← Py.getitem data "data";
             user ← Py.getitem d "createAnonymousUser";
             Py.get user "idToken" JNull)
            JNull in
  if Py.falsy id_token
  then raise (RuntimeError "CreateAnonymousUser did not return idToken")
  else
    signin ← _exchange_id_token_for_refresh_token id_token;
    refresh_token ← lift (Py.get signin "refreshToken" JNull);
    if Py.falsy refresh_token
    then raise (RuntimeError "signInWithCustomToken did not return refreshToken")
    else
      _ ← update_env_refresh_token refresh_token;
      resp ← post (PostRefreshFor refresh_token);
      if negb (status_code resp =? 200)
      then raise (RuntimeError "Acquire access_token failed")
      else
        token_data ← lift (body resp);
        access ← lift (Py.get token_data "access_token" JNull);
        if Py.falsy access
        then raise (RuntimeError "No access_token in response")
        else
          _ ← update_env_file access;
          mret access.

(** ** Quota oracle *)

Definition or_empty (v : option string) : string :=
  match v with Some s => s | None => "" end.

Definition get_valid_id_token : task string :=
  _ ← load_dotenv;
  id_token ← getenv "WARP_ID_TOKEN";
  id_token ← (if unset id_token then
                token_data ← refresh_jwt_token;
                if negb (Py.falsy token_data)
                then _ ← load_dotenv; getenv "WARP_ID_TOKEN"
                else mret id_token
              else mret id_token);
  if unset id_token then mret ""
  else
    expired ← is_token_expired (JStr (or_empty id_token)) 2;
    if expired : bool then
      token_data ← refresh_jwt_token;
      if negb (Py.falsy token_data) then
        _ ← load_dotenv;
        id_token ← getenv "WARP_ID_TOKEN";
        _ ← (if unset id_token then mret true
             else is_token_expired (JStr (or_empty id_token)) 0);
        mret (or_empty id_token)
      else mret (or_empty id_token)
    else mret (or_empty id_token).

Definition get_quota_info : task json :=
  id_token ← get_valid_id_token;
  if String.eqb id_token "" then mret (JDict [])
  else
    try_
      (response ← post (PostRequestLimitInfo id_token);
       if status_code response =? 200 then
         data ← lift (body response);
         mret (except_
                 (d ← Py.getitem data "data";
                  u ← Py.getitem d "user";
                  u ← Py.getitem u "user";
                  quota_info ← Py.getitem u "requestLimitInfo";
                  _ ← Py.getitem quota_info "requestLimit";
                  _ ← Py.getitem quota_info "requestsUsedSinceLastRefresh";
                  Ok quota_info)
                 (JDict []))
       else mret (JDict []))
      (fun _ => mret (JDict [])).

Definition should_refresh_for_quota (threshold : Z) : task bool :=
  if threshold =? 0 then mret false
  else
    try_
      (quota_info ← get_quota_info;
       if Py.falsy quota_info then mret false
       else
         request_limit ← lift (Py.get quota_info "requestLimit" (JInt 0));
         requests_used ← lift (Py.get quota_info "requestsUsedSinceLastRefresh"
                                      (JInt 0));
         request_limit ← lift (Py.as_int request_limit);
         requests_used ← lift (Py.as_int requests_used);
         let remaining := request_limit - requests_used in
         mret (remaining <=? threshold))
      (fun _ => mret false).

(** ** Refresh coordinator *)

(** The last strategy of [check_and_refresh_token], when a token is at
    hand already: the refreshed token is kept only if it is not expired. *)
Definition plain_refresh : task bool :=
  token_data ← refresh_jwt_token;
  has_access ← lift (nonempty_with "access_token" token_data);
  if has_access : bool then
    new_jwt ← lift (Py.getitem token_data "access_token");
    expired ← is_token_expired new_jwt 0;
    if negb expired then update_env_file new_jwt else mret false
  else mret false.

Definition check_and_refresh_token (force_refresh : bool) : task bool :=
  _ ← load_dotenv;
  current_jwt ← getenv "WARP_JWT";
  if unset current_jwt then
    local_jwt_filepath ← getenv "LOCAL_JWT_FILEPATH";
    refreshed ← (if unset local_jwt_filepath then mret false
                 else refresh_from_file (or_empty local_jwt_filepath));
    if refreshed : bool then mret true
    else
      token_data ← refresh_jwt_token;
      has_access ← lift (nonempty_with "access_token" token_data);
      if has_access : bool then
        new_jwt ← lift (Py.getitem token_data "access_token");
        update_env_file new_jwt
      else mret false
  else
    token_expired ← is_token_expired (JStr (or_empty current_jwt)) 15;
    quota_low ← should_refresh_for_quota QUOTA_REFRESH_THRESHOLD;
    let quota_low := if force_refresh && negb quota_low then true else quota_low in
    if token_expired || quota_low then
      refreshed ←
        (if quota_low then
           local_jwt_filepath ← getenv "LOCAL_JWT_FILEPATH";
           from_file ←
             (if unset local_jwt_filepath then mret false
              else
                _ ← mark_current_account_quota_exhausted;
                try_ (refresh_from_file (or_empty local_jwt_filepath))
                     (fun _ => mret false));
           if from_file : bool then mret true
           else
             try_
               (new_jwt ← acquire_anonymous_access_token;
                if Py.falsy new_jwt then mret false
                else
                  expired ← is_token_expired new_jwt 0;
                  mret (negb expired))
               (fun _ => mret false)
         else mret false);
      if refreshed : bool then mret true else plain_refresh
    else mret true.

End WithPlatform.
End Auth.

(* ===================================================================== *)
(** * A reference platform                                                *)
(* ===================================================================== *)

(** The three decoders on the inputs tokens are made of: canonical
    base64, well-formed UTF-8, and JSON documents built from objects,
    arrays, strings without escapes, integers and the three literals.
    It serves to run the codec on sample tokens; the general statements
    below hold for every platform. *)
Module Reference.

Definition sextet (c : ascii) : option nat :=
  let n := nat_of_ascii c in
  (if (65 <=? n) && (n <=? 90) then Some (n - 65)
   else if (97 <=? n) && (n <=? 122) then Some (n - 71)
   else if (48 <=? n) && (n <=? 57) then Some (n + 4)
   else if (n =? 45) || (n =? 43) then Some 62
   else if (n =? 95) || (n =? 47) then Some 63
   else None)%nat.

Definition is_pad (c : ascii) : bool := Ascii.eqb c "=".

Definition byte (n : nat) : ascii := ascii_of_nat (n mod 256).

Fixpoint b64decode (s : string) : result string :=
  match s with
  | EmptyString => Ok EmptyString
  | String a (String b (String c (String d rest))) =>
      match sextet a, sextet b with
      | Some x, Some y =>
          let b1 := byte (x * 4 + y / 16) in
          if is_pad c then
            if is_pad d && String.eqb rest "" then Ok (String b1 "")
            else Raise ValueError
          else
            match sextet c with
            | Some z =>
                let b2 := byte (y mod 16 * 16 + z / 4) in
                if is_pad d then
                  if String.eqb rest "" then Ok (String b1 (String b2 ""))
                  else Raise ValueError
                else
                  match sextet d with
                  | Some u =>
                      let b3 := byte (z mod 4 * 64 + u) in
                      match b64decode rest with
                      | Ok r => Ok (String b1 (String b2 (String b3 r)))
                      | Raise e => Raise e
                      end
                  | None => Raise ValueError
                  end
            | None => Raise ValueError
            end
      | _, _ => Raise ValueError
      end
  | _ => Raise ValueError
  end.

(** The bytes after a lead byte have to be continuation bytes. *)
Fixpoint utf8_ok (pending : nat) (s : string) : bool :=
  match s with
  | EmptyString => (pending =? 0)%nat
  | String c s' =>
      let n := nat_of_ascii c in
      match pending with
      | S p => ((128 <=? n) && (n <? 192))%nat && utf8_ok p s'
      | O =>
          (if n <? 128 then utf8_ok 0 s'
           else if (194 <=? n) && (n <? 224) then utf8_ok 1 s'
           else if (224 <=? n) && (n <? 240) then utf8_ok 2 s'
           else if (240 <=? n) && (n <? 245) then utf8_ok 3 s'
           else false)%nat
      end
  end.

Definition decode_utf8 (s : string) : result string :=
  if utf8_ok 0 s then Ok s else Raise ValueError.

(** ** JSON *)

Definition is_ws (c : ascii) : bool :=
  let n := nat_of_ascii c in
  ((n =? 32) || (n =? 9) || (n =? 10) || (n =? 13))%nat.

Fixpoint skip_ws (s : string) : string :=
  match s with
  | String c s' => if is_ws c then skip_ws s' else s
  | EmptyString => EmptyString
  end.

Definition digit (c : ascii) : option Z :=
  let n := nat_of_ascii c in
  if ((48 <=? n) && (n <=? 57))%nat then Some (Z.of_nat n - 48) else None.

Fixpoint digits (acc : Z) (s : string) : Z * string :=
  match s with
  | String c s' =>
      match digit c with
      | Some d => digits (10 * acc + d) s'
      | None => (acc, s)
      end
  | EmptyString => (acc, s)
  end.

(** A number of the fragment is an integer: a fraction or an exponent
    after the digits is refused. *)
Definition ends_number (s : string) : bool :=
  match s with
  | String c _ =>
      negb (Ascii.eqb c "." || Ascii.eqb c "e" || Ascii.eqb c "E")
  | EmptyString => true
  end.

Definition natural (s : string) : option (Z * string) :=
  match s with
  | String c s' =>
      match digit c with
      | Some d =>
          let '(n, rest) := if d =? 0 then (0, s') else digits d s' in
          if ends_number rest then Some (n, rest) else None
      | None => None
      end
  | EmptyString => None
  end.

Definition quote_char : ascii := ascii_of_nat 34.

(** The characters up to the closing quote. *)
Fixpoint string_body (s : string) : option (string * string) :=
  match s with
  | EmptyString => None
  | String c s' =>
      if Ascii.eqb c quote_char then Some (EmptyString, s')
      else if Ascii.eqb c "\" || (nat_of_ascii c <? 32)%nat then None
      else match string_body s' with
           | Some (body, rest) => Some (String c body, rest)
           | None => None
           end
  end.

Definition literal (word : string) (v : json) (s : string)
  : option (json * string) :=
  match PyStr.strip_prefix word s with
  | Some rest => Some (v, rest)
  | None => None
  end.

Fixpoint value (fuel : nat) (s : string) : option (json * string) :=
  match fuel with
  | O => None
  | S fuel' =>
      match skip_ws s with
      | EmptyString => None
      | String c s' as s0 =>
          if Ascii.eqb c "n" then literal "null" JNull s0
          else if Ascii.eqb c "t" then literal "true" (JBool true) s0
          else if Ascii.eqb c "f" then literal "false" (JBool false) s0
          else if Ascii.eqb c quote_char then
            match string_body s' with
            | Some (body, rest) => Some (JStr body, rest)
            | None => None
            end
          else if Ascii.eqb c "-" then
            match natural s' with
            | Some (n, rest) => Some (JInt (- n), rest)
            | None => None
            end
          else if Ascii.eqb c "[" then
            match skip_ws s' with
            | String c' rest =>
                if Ascii.eqb c' "]" then Some (JList [], rest)
                else match elements fuel' s' with
                     | Some (l, rest) => Some (JList l, rest)
                     | None => None
                     end
            | EmptyString => None
            end
          else if Ascii.eqb c "{" then
            match skip_ws s' with
            | String c' rest =>
                if Ascii.eqb c' "}" then Some (JDict [], rest)
                else match members fuel' s' with
                     | Some (m, rest) =>
                         Some (JDict (fold_left
                                        (fun d kv => Py.assoc_set kv.1 kv.2 d)
                                        m []), rest)
                     | None => None
                     end
            | EmptyString => None
            end
          else
            match natural s0 with
            | Some (n, rest) => Some (JInt n, rest)
            | None => None
            end
      end
  end
with elements (fuel : nat) (s : string) : option (list json * string) :=
  match fuel with
  | O => None
  | S fuel' =>
      match value fuel' s with
      | Some (v, rest) =>
          match skip_ws rest with
          | String c rest' =>
              if Ascii.eqb c "," then
                match elements fuel' rest' with
                | Some (l, rest'') => Some (v :: l, rest'')
                | None => None
                end
              else if Ascii.eqb c "]" then Some ([v], rest')
              else None
          | EmptyString => None
          end
      | None => None
      end
  end
with members (fuel : nat) (s : string)
  : option (list (string * json) * string) :=
  match fuel with
  | O => None
  | S fuel' =>
      match skip_ws s with
      | String q s1 =>
          if Ascii.eqb q quote_char then
            match string_body s1 with
            | Some (key, s2) =>
                match skip_ws s2 with
                | String colon s3 =>
                    if Ascii.eqb colon ":" then
                      match value fuel' s3 with
                      | Some (v, s4) =>
                          match skip_ws s4 with
                          | String c s5 =>
                              if Ascii.eqb c "," then
                                match members fuel' s5 with
                                | Some (m, rest) => Some ((key, v) :: m, rest)
                                | None => None
                                end
                              else if Ascii.eqb c "}" then Some ([(key, v)], s5)
                              else None
                          | EmptyString => None
                          end
                      | None => None
                      end
                    else None
                | EmptyString => None
                end
            | None => None
            end
          else None
      | EmptyString => None
      end
  end.

Definition loads (s : string) : result json :=
  match value (S (String.length s)) s with
  | Some (v, rest) =>
      if String.eqb (skip_ws rest) "" then Ok v else Raise ValueError
  | None => Raise ValueError
  end.

#[local] Instance platform : Platform := {|
  urlsafe_b64decode := b64decode;
  utf8_decode := decode_utf8;
  json_loads := loads;
  REFRESH_PAYLOAD := "grant_type=refresh_token&refresh_token=default";
  QUOTA_REFRESH_THRESHOLD := 0
|}.

End Reference.

(* ===================================================================== *)
(** * [ContextAwarePromptGenerator]                                       *)
(* ===================================================================== *)

Module Generator.

(** The keywords of the generator: the first nine of the handler's. *)
Definition file_operation_keywords : list string :=
  [ "创建文件"; "修改代码"; "写代码"; "保存"; "文件";
    "create file"; "write code"; "save"; "implement" ].

Definition _generate_no_file_ops_prompt : string :=
  PyStr.strip "
<CRITICAL_CONSTRAINTS>
你是一个代码助手，但你不能创建、修改或操作文件。
你只能：
1. 提供代码建议和示例
2. 解释技术概念
3. 分析现有代码
4. 给出最佳实践建议

当用户要求文件操作时，请明确告知限制并提供替代方案。
</CRITICAL_CONSTRAINTS>
        ".

Definition _generate_standard_prompt : string :=
  PyStr.strip "
你是一个AI编程助手，可以帮助解答技术问题。
请提供准确、有用的建议。
        ".

(** The request is lowered, the keywords are taken as they are. *)
Definition contains_file_ops (user_request : string) : bool :=
  existsb (fun keyword => PyStr.contains keyword (PyStr.lower user_request))
          file_operation_keywords.

Definition generate_system_prompt (user_request : string) : string :=
  if contains_file_ops user_request
  then _generate_no_file_ops_prompt
  else _generate_standard_prompt.

End Generator.

(* ===================================================================== *)
(** * The callers of the refresh coordinator in [auth.py]                 *)
(* ===================================================================== *)

Module Callers.
Import Auth.
Section WithPlatform.
Context `{Platform}.


(** What it returns is what [os.getenv] gave last, which is [None] when
    the key is not set. *)
Definition get_valid_jwt : task (option string) :=
  _ ← load_dotenv;
  jwt ← getenv "WARP_JWT";
  jwt ← (if unset jwt then
           refreshed ← check_and_refresh_token false;
           jwt ← (if refreshed : bool
                  then _ ← load_dotenv; getenv "WARP_JWT"
                  else mret jwt);
           if unset jwt
           then raise (RuntimeError "WARP_JWT is not set and refresh failed")
           else mret jwt
         else mret jwt);
  expired ← is_token_expired (JStr (or_empty jwt)) 2;
  if expired : bool then
    refreshed ← check_and_refresh_token false;
    if refreshed : bool then
      _ ← load_dotenv;
      jwt ← getenv "WARP_JWT";
      _ ← (if unset jwt then mret true
           else is_token_expired (JStr (or_empty jwt)) 0);
      mret jwt
    else mret jwt
  else mret jwt.


Definition refresh_jwt_if_needed : task bool :=
  try_ (check_and_refresh_token false) (fun _ => mret false).

End WithPlatform.
End Callers.

(* ===================================================================== *)
(** * Properties of the stream adaptor                                    *)
(* ===================================================================== *)

Module HandlerFacts.
Import Handler.

(** The branch of [handle_sse_event] an event takes. *)
Definition is_begin (e : json) : bool := _contains_action e "begin_transaction".

Definition is_rollback (e : json) : bool :=
  negb (is_begin e) && _contains_action e "rollback_transaction".

Definition is_commit (e : json) : bool :=
  negb (is_begin e) && negb (_contains_action e "rollback_transaction")
  && _contains_action e "commit_transaction".

(** The event matches the stuck signature and holds none of the three
    transaction actions. *)
Definition is_stuck_only (e : json) : bool :=
  negb (is_begin e) && negb (_contains_action e "rollback_transaction")
  && negb (_contains_action e "commit_transaction")
  && _is_stuck_response e.

Definition is_retry (o : emitted) : bool :=
  match o with RetryMarker _ => true | _ => false end.

Definition is_pass_through (o : emitted) : bool :=
  match o with PassThrough _ => true | _ => false end.

Definition is_synthesized (o : emitted) : bool :=
  match o with PassThrough _ => false | _ => true end.

Definition count {A} (p : A -> bool) (l : list A) : Z :=
  Z.of_nat (length (List.filter p l)).

(** Step 2 of section 4.7, as the specification words it. *)
Definition spec_rollback_step (h : WarpResponseHandler)
  : emitted * WarpResponseHandler :=
  if retry_count h <? max_retries h then
    (RetryMarker (retry_count h + 1),
     {| transaction_state := RETRYING;
        retry_count := retry_count h + 1;
        max_retries := max_retries h |})
  else
    (Fallback,
     {| transaction_state := FAILED;
        retry_count := retry_count h;
        max_retries := max_retries h |}).

(** C5 as the specification states it. *)
Definition stuck_branch_as_stated : Prop :=
  forall h e, is_stuck_only e = true ->
    handle_sse_event h e = spec_rollback_step h.

(** C4 as the specification states it. *)
Definition retry_bound_as_stated : Prop :=
  forall m events, 0 <= m ->
    count is_retry (fst (process_stream (init m) events)) <= m.

(** An upstream event that only updates the task description. *)
Definition task_description_event : json :=
  JDict [("client_actions",
          JDict [("actions", JList [JDict [("update_task_description", JDict [])]])])].

(** C10 as the specification states it: a rollback event is one that
    holds a rollback action, a stuck-signature event one that matches the
    signature. *)
Definition fallback_as_stated : Prop :=
  forall h e, max_retries h <= retry_count h ->
    _contains_action e "rollback_transaction" = true
    \/ _is_stuck_response e = true ->
    fst (handle_sse_event h e) = Fallback.

(** An upstream event that commits and updates the task description. *)
Definition commit_and_describe_event : json :=
  JDict [("client_actions",
          JDict [("actions", JList [JDict [("commit_transaction", JDict [])];
                                    JDict [("update_task_description", JDict [])]])])].

(** An upstream event that begins a transaction and rolls one back. *)
Definition begin_and_rollback_event : json :=
  JDict [("client_actions",
          JDict [("actions", JList [JDict [("begin_transaction", JDict [])];
                                    JDict [("rollback_transaction", JDict [])]])])].

(** ** Branch equations *)

Lemma handle_begin h e :
  is_begin e = true ->
  handle_sse_event h e =
    (PassThrough e,
     {| transaction_state := ACTIVE; retry_count := 0;
        max_retries := max_retries h |}).
Proof. unfold is_begin, handle_sse_event. intros ->. reflexivity. Qed.

Lemma handle_rollback h e :
  is_rollback e = true ->
  handle_sse_event h e = spec_rollback_step h.
Proof.
  unfold is_rollback, is_begin, handle_sse_event, spec_rollback_step.
  intros [Hb Hr]%andb_prop. apply negb_true_iff in Hb.
  rewrite Hb, Hr. cbn.
  destruct (retry_count h <? max_retries h); reflexivity.
Qed.

Lemma handle_commit h e :
  is_commit e = true ->
  handle_sse_event h e = (PassThrough e, set_state IDLE h).
Proof.
  unfold is_commit, is_begin, handle_sse_event.
  intros [[Hb Hr]%andb_prop Hc]%andb_prop.
  apply negb_true_iff in Hb, Hr. rewrite Hb, Hr, Hc. reflexivity.
Qed.

Lemma handle_stuck h e :
  is_stuck_only e = true ->
  handle_sse_event h e =
    if retry_count h <? max_retries h
    then (RetryMarker (retry_count h + 1), set_retry_count (retry_count h + 1) h)
    else (Fallback, h).
Proof.
  unfold is_stuck_only, is_begin, handle_sse_event.
  intros [[[Hb Hr]%andb_prop Hc]%andb_prop Hs]%andb_prop.
  apply negb_true_iff in Hb, Hr, Hc. rewrite Hb, Hr, Hc, Hs.
  destruct (retry_count h <? max_retries h); reflexivity.
Qed.

Lemma handle_other h e :
  is_begin e = false -> is_rollback e = false ->
  is_commit e = false -> is_stuck_only e = false ->
  handle_sse_event h e = (PassThrough e, h).
Proof.
  unfold is_rollback, is_commit, is_stuck_only, is_begin, handle_sse_event.
  intros ->. cbn.
  destruct (_contains_action e "rollback_transaction"); [discriminate|]. cbn.
  destruct (_contains_action e "commit_transaction"); [discriminate|]. cbn.
  intros _ _ ->. reflexivity.
Qed.

Lemma handle_max_retries h e :
  max_retries (snd (handle_sse_event h e)) = max_retries h.
Proof.
  unfold handle_sse_event.
  repeat match goal with
         | |- context [if ?b then _ else _] => destruct b
         end; reflexivity.
Qed.

Lemma process_stream_cons h e events :
  process_stream h (e :: events) =
    (fst (handle_sse_event h e)
       :: fst (process_stream (snd (handle_sse_event h e)) events),
     snd (process_stream (snd (handle_sse_event h e)) events)).
Proof.
  cbn [process_stream]. destruct (handle_sse_event h e) as [o h1].
  cbn [fst snd]. destruct (process_stream h1 events) as [os h2]. reflexivity.
Qed.

Lemma process_stream_length events : forall h,
  length (fst (process_stream h events)) = length events.
Proof.
  induction events as [|e events IH]; intros h; [reflexivity|].
  rewrite process_stream_cons. cbn. now rewrite IH.
Qed.

(** Each emitted event stands where the input event that produced it
    stood, and a pass-through is that input event. *)
Lemma process_stream_positions events : forall h i e,
  fst (process_stream h events) !! i = Some (PassThrough e) ->
  events !! i = Some e.
Proof.
  induction events as [|e0 events IH]; intros h i e.
  - cbn. now rewrite lookup_nil.
  - rewrite process_stream_cons. cbn [fst]. destruct i as [|i]; cbn.
    + unfold handle_sse_event.
      repeat match goal with
             | |- context [if ?b then _ else _] => destruct b
             end; cbn; congruence.
    + apply IH.
Qed.

Lemma count_cons {A} (p : A -> bool) x l :
  count p (x :: l) = (if p x then 1 else 0) + count p l.
Proof. unfold count. cbn [List.filter]. destruct (p x); cbn [length]; lia. Qed.

Lemma count_split (l : list emitted) :
  count is_pass_through l + count is_synthesized l = Z.of_nat (length l).
Proof.
  induction l as [|o l IH]; [reflexivity|].
  rewrite !count_cons. cbn [length]. destruct o; cbn; lia.
Qed.

(** From any handler state: the retries still allowed now, and
    [max_retries] more after every [begin_transaction]. *)
Lemma retry_markers_bound events : forall h,
  count is_retry (fst (process_stream h events))
  <= Z.max 0 (max_retries h - retry_count h)
     + Z.max 0 (max_retries h) * count is_begin events.
Proof.
  induction events as [|e events IH]; intros h.
  - unfold count. cbn. lia.
  - rewrite process_stream_cons. cbn [fst]. rewrite !count_cons.
    specialize (IH (snd (handle_sse_event h e))).
    rewrite handle_max_retries in IH.
    destruct (is_begin e) eqn:Hb.
    + rewrite (handle_begin _ _ Hb) in *. cbn in *. lia.
    + assert (Hstep :
        (is_retry (fst (handle_sse_event h e)) = true /\
         retry_count h < max_retries h /\
         retry_count (snd (handle_sse_event h e)) = retry_count h + 1) \/
        (is_retry (fst (handle_sse_event h e)) = false /\
         retry_count (snd (handle_sse_event h e)) = retry_count h)).
      { unfold is_begin in Hb. unfold handle_sse_event. rewrite Hb.
        repeat match goal with
               | |- context [if ?b then _ else _] => destruct b eqn:?
               end; cbn; try (right; split; reflexivity);
          left; repeat split; try reflexivity; apply Z.ltb_lt; assumption. }
      destruct Hstep as [(-> & Hlt & Hrc) | (-> & Hrc)];
        rewrite Hrc in IH; lia.
Qed.

(** ** The claims *)

(** Scenario S5: a healthy stream passes through and ends [IDLE]. *)
Example healthy_stream :
  let events :=
    [ action_event "begin_transaction";
      JDict [("message", JDict [("agent_output", JDict [("text", JStr "hi")])])];
      action_event "commit_transaction" ] in
  process_stream (init 2) events
  = (map PassThrough events,
     {| transaction_state := IDLE; retry_count := 0; max_retries := 2 |}).
Proof. reflexivity. Qed.

(** C1 (scenario S4).  A fresh handler with [max_retries = 2] that
    receives a [begin_transaction] event and then three
    [rollback_transaction] events emits the first event unchanged, the
    first retry message, the second retry message and the fallback
    message, and ends in the state [FAILED]. *)
Theorem stuck_stream_retry_exhaustion (b r1 r2 r3 : json) :
  is_begin b = true ->
  is_rollback r1 = true -> is_rollback r2 = true -> is_rollback r3 = true ->
  let '(out, h) := process_stream (init 2) [b; r1; r2; r3] in
  out = [PassThrough b; RetryMarker 1; RetryMarker 2; Fallback]
  /\ map to_event out =
       [ b;
         choices_delta (nl ++ nl ++ "🔄 让我重新为您处理这个请求..." ++ nl ++ nl);
         choices_delta (nl ++ nl ++ "🔄 正在尝试不同的方式来帮助您..." ++ nl ++ nl);
         _create_fallback_response ]
  /\ transaction_state h = FAILED
  /\ retry_count h = 2.
Proof.
  intros Hb H1 H2 H3.
  rewrite !process_stream_cons.
  rewrite (handle_begin _ _ Hb). cbn [fst snd].
  rewrite (handle_rollback _ _ H1). cbn.
  rewrite (handle_rollback _ _ H2). cbn.
  rewrite (handle_rollback _ _ H3). cbn.
  repeat split; reflexivity.
Qed.

Lemma stuck_stream_retry_exhaustion_witness :
  let '(out, h) :=
    process_stream (init 2)
      [ action_event "begin_transaction"; action_event "rollback_transaction";
        action_event "rollback_transaction"; action_event "rollback_transaction" ] in
  out = [ PassThrough (action_event "begin_transaction");
          RetryMarker 1; RetryMarker 2; Fallback ]
  /\ map to_event out =
       [ action_event "begin_transaction";
         choices_delta (nl ++ nl ++ "🔄 让我重新为您处理这个请求..." ++ nl ++ nl);
         choices_delta (nl ++ nl ++ "🔄 正在尝试不同的方式来帮助您..." ++ nl ++ nl);
         _create_fallback_response ]
  /\ transaction_state h = FAILED
  /\ retry_count h = 2.
Proof.
  apply (stuck_stream_retry_exhaustion
           (action_event "begin_transaction")
           (action_event "rollback_transaction")
           (action_event "rollback_transaction")
           (action_event "rollback_transaction")); reflexivity.
Defined.

(** C4, refuted as stated: [begin_transaction] resets [retry_count], so
    a stream with two transactions that each roll back twice carries four
    retry markers under [max_retries = 2]. *)
Lemma retry_bound_as_stated_fails : ~ retry_bound_as_stated.
Proof.
  intros H.
  specialize (H 2
    (map action_event
       [ "begin_transaction"; "rollback_transaction"; "rollback_transaction";
         "begin_transaction"; "rollback_transaction"; "rollback_transaction" ])).
  vm_compute in H. apply H; [discriminate | reflexivity].
Qed.

(** C4, amended.  A fresh handler emits one event for each input event,
    in order; each is the input event itself or a synthesized payload;
    and the retry markers of the whole stream number at most
    [max(0, max_retries)] for the stretch before the first
    [begin_transaction] and for the stretch after each
    [begin_transaction], which resets the counter. *)
Theorem retry_markers_bounded_per_transaction (m : Z) (events : list json) :
  let out := fst (process_stream (init m) events) in
  length out = length events
  /\ (forall i e, out !! i = Some (PassThrough e) -> events !! i = Some e)
  /\ count is_pass_through out + count is_synthesized out = Z.of_nat (length out)
  /\ count is_retry out <= Z.max 0 m * (1 + count is_begin events).
Proof.
  cbn zeta. split; [apply process_stream_length|].
  split; [apply process_stream_positions|].
  split; [apply count_split|].
  pose proof (retry_markers_bound events (init m)) as H. cbn in H.
  rewrite Z.sub_0_r in H. lia.
Qed.

(** C5, refuted as stated: the stuck branch leaves [transaction_state]
    alone.  A fresh handler that meets a task-description update emits a
    retry marker and stays [IDLE], where the rollback branch would have
    moved to [RETRYING]. *)
Lemma stuck_branch_as_stated_fails : ~ stuck_branch_as_stated.
Proof.
  intros H. specialize (H (init 2) task_description_event eq_refl).
  vm_compute in H. discriminate H.
Qed.

(** C5, amended.  For an event that matches the stuck signature and
    holds none of the begin, rollback and commit actions, the handler
    leaves the transaction state as it was; if [retry_count < max_retries]
    it increments [retry_count] and emits a retry marker in place of the
    event, otherwise it emits the fallback message and changes nothing. *)
Theorem stuck_branch_keeps_state (h : WarpResponseHandler) (e : json) :
  is_stuck_only e = true ->
  let '(out, h') := handle_sse_event h e in
  transaction_state h' = transaction_state h
  /\ max_retries h' = max_retries h
  /\ (out, retry_count h') =
       if retry_count h <? max_retries h
       then (RetryMarker (retry_count h + 1), retry_count h + 1)
       else (Fallback, retry_count h).
Proof.
  intros Hs. rewrite (handle_stuck _ _ Hs).
  destruct (retry_count h <? max_retries h); cbn; repeat split; reflexivity.
Qed.

Lemma stuck_branch_keeps_state_witness :
  let '(out, h') := handle_sse_event (init 2) task_description_event in
  transaction_state h' = IDLE
  /\ max_retries h' = 2
  /\ (out, retry_count h') = (RetryMarker 1, 1).
Proof.
  apply (stuck_branch_keeps_state (init 2) task_description_event).
  reflexivity.
Defined.

(** C10, refuted as stated: the branches are tried in the order begin,
    rollback, commit, stuck signature, and only the rollback and the stuck
    branch synthesize.  With the retries used up, an event that commits and
    matches the stuck signature takes the commit branch and is forwarded
    as it came. *)
Lemma fallback_as_stated_fails : ~ fallback_as_stated.
Proof.
  intros Hspec.
  specialize (Hspec {| transaction_state := RETRYING; retry_count := 2;
                       max_retries := 2 |}
                    commit_and_describe_event).
  cbn [max_retries retry_count] in Hspec.
  specialize (Hspec ltac:(lia) (or_intror eq_refl)).
  vm_compute in Hspec. discriminate Hspec.
Qed.

(** So is an event that holds a rollback action next to a begin action:
    it takes the begin branch, is forwarded, and resets the counter. *)
Example begin_and_rollback_forwarded :
  _contains_action begin_and_rollback_event "rollback_transaction" = true
  /\ handle_sse_event
       {| transaction_state := RETRYING; retry_count := 2; max_retries := 2 |}
       begin_and_rollback_event
     = (PassThrough begin_and_rollback_event,
        {| transaction_state := ACTIVE; retry_count := 0; max_retries := 2 |}).
Proof. split; reflexivity. Qed.

(** C10, amended.  When [retry_count] has reached [max_retries], an event
    that takes the rollback branch (it holds a rollback action and no
    begin action) and an event that takes the stuck branch (it matches the
    stuck signature and holds none of the begin, rollback and commit
    actions) are answered with the fallback message alone: the one event
    emitted for them is the synthesized fallback, not the upstream
    event. *)
Theorem fallback_replaces_event (h : WarpResponseHandler) (e : json) :
  max_retries h <= retry_count h ->
  is_rollback e = true \/ is_stuck_only e = true ->
  fst (handle_sse_event h e) = Fallback
  /\ fst (process_stream h [e]) = [Fallback]
  /\ map to_event (fst (process_stream h [e])) = [_create_fallback_response]
  /\ retry_count (snd (handle_sse_event h e)) = retry_count h.
Proof.
  intros Hge He.
  assert (Hh : fst (handle_sse_event h e) = Fallback /\
               retry_count (snd (handle_sse_event h e)) = retry_count h).
  { destruct He as [Hr | Hs].
    - rewrite (handle_rollback _ _ Hr). unfold spec_rollback_step.
      destruct (Z.ltb_spec (retry_count h) (max_retries h)); [lia|].
      split; reflexivity.
    - rewrite (handle_stuck _ _ Hs).
      destruct (Z.ltb_spec (retry_count h) (max_retries h)); [lia|].
      split; reflexivity. }
  destruct Hh as [Hf Hc].
  rewrite process_stream_cons. cbn. rewrite Hf. repeat split; auto.
Qed.

Lemma fallback_replaces_event_witness :
  let h := {| transaction_state := RETRYING; retry_count := 2; max_retries := 2 |} in
  let e := action_event "rollback_transaction" in
  fst (handle_sse_event h e) = Fallback
  /\ fst (process_stream h [e]) = [Fallback]
  /\ map to_event (fst (process_stream h [e])) = [_create_fallback_response]
  /\ retry_count (snd (handle_sse_event h e)) = 2.
Proof.
  apply (fallback_replaces_event
           {| transaction_state := RETRYING; retry_count := 2; max_retries := 2 |}
           (action_event "rollback_transaction")).
  - cbn. lia.
  - left. reflexivity.
Defined.

End HandlerFacts.

(* ===================================================================== *)
(** * Properties of the risk classifier                                   *)
(* ===================================================================== *)

Module RiskFacts.
Import Handler.

Definition points {A} (hit : A -> bool) (c : Q) (l : list A) (start : Q) : Q :=
  fold_left (fun risk_score x => if hit x then (risk_score + c)%Q else risk_score)
            l start.

Lemma points_le {A} (hit : A -> bool) (c : Q) (l : list A) : forall start,
  (0 <= c)%Q ->
  (points hit c l start <= start + c * inject_Z (Z.of_nat (length l)))%Q.
Proof.
  unfold points. induction l as [|x l IH]; intros start Hc.
  - cbn [fold_left length]. change (inject_Z (Z.of_nat 0)) with 0%Q. lra.
  - cbn [fold_left length]. rewrite Nat2Z.inj_succ, <- Z.add_1_r, inject_Z_plus.
    change (inject_Z 1) with 1%Q.
    destruct (hit x).
    + specialize (IH (start + c)%Q Hc). lra.
    + specialize (IH start Hc). lra.
Qed.

Lemma points_ge {A} (hit : A -> bool) (c : Q) (l : list A) : forall start,
  (0 <= c)%Q -> (start <= points hit c l start)%Q.
Proof.
  unfold points. induction l as [|x l IH]; intros start Hc.
  - cbn [fold_left]. lra.
  - cbn [fold_left]. destruct (hit x).
    + specialize (IH (start + c)%Q Hc). lra.
    + apply IH, Hc.
Qed.

(** The score never goes beyond 0.7: eight patterns at one point and
    twelve keywords at half a point, over twenty. *)
Lemma risk_score_at_most_seven_tenths (user_message : string) :
  (assess_file_operation_risk user_message <= 7 # 10)%Q.
Proof.
  unfold assess_file_operation_risk.
  destruct (String.eqb user_message ""); [lra|].
  eapply Qle_trans; [apply Q.le_min_l|].
  pose proof (points_le
    (fun pattern => Re.search_IGNORECASE pattern user_message) 1
    risk_patterns 0%Q ltac:(lra)) as Hp.
  pose proof (points_le
    (fun keyword => PyStr.contains (PyStr.lower keyword) (PyStr.lower user_message))
    (1 # 2) file_operation_keywords (pattern_points user_message) ltac:(lra)) as Hk.
  change (points _ 1 risk_patterns 0%Q) with (pattern_points user_message) in Hp.
  change (points _ (1 # 2) file_operation_keywords (pattern_points user_message))
    with (keyword_points (pattern_points user_message) user_message) in Hk.
  cbn [length risk_patterns file_operation_keywords] in *.
  set (s := keyword_points (pattern_points user_message) user_message) in *.
  set (p := pattern_points user_message) in *.
  change (inject_Z (Z.of_nat 8)) with (8 # 1)%Q in Hp.
  change (inject_Z (Z.of_nat 12)) with (12 # 1)%Q in Hk.
  change (inject_Z (Z.of_nat (8 + 12))) with (20 # 1)%Q.
  unfold Qdiv. change (/ (20 # 1))%Q with (1 # 20)%Q. lra.
Qed.

(** So the first branch of [transform_risky_request] is never taken on
    a score that [assess_file_operation_risk] computed. *)
Lemma wrapper_never_selected (user_message : string) :
  Qgtb (assess_file_operation_risk user_message) (7 # 10) = false.
Proof.
  unfold Qgtb. apply negb_false_iff, Qle_bool_iff,
    risk_score_at_most_seven_tenths.
Qed.

Definition file_request : string := "请创建文件 foo.py 并写入代码".

(** C6 (scenario S6), evaluated on the code.  The file-creation
    request matches one pattern and two keywords, which is 2 points over
    20: its score is 0.1, below both thresholds, and
    [transform_risky_request] returns it unchanged instead of the wrapped
    instruction.  The second half of the scenario holds: [explain big-O]
    scores 0 and is returned unchanged. *)
Theorem risk_scenario_on_the_code :
  (assess_file_operation_risk file_request == 1 # 10)%Q
  /\ Qgtb (assess_file_operation_risk file_request) (7 # 10) = false
  /\ transform_risky_request file_request
       (assess_file_operation_risk file_request) = file_request
  /\ (assess_file_operation_risk "explain big-O" == 0)%Q
  /\ transform_risky_request "explain big-O"
       (assess_file_operation_risk "explain big-O") = "explain big-O".
Proof. repeat split; vm_compute; reflexivity. Qed.

End RiskFacts.

(* ===================================================================== *)
(** * Properties of the credential lifecycle                              *)
(* ===================================================================== *)

Module AuthFacts.
Import Auth.

(** ** Running composed coroutines *)

Lemma run_bind_coro {A B} net (c : coro A) (f : A -> task B) :
  run net (bind_coro c f) =
    match run net c with
    | (Ok a, w) => run net (f a w)
    | (Raise e, w) => (Raise e, w)
    end.
Proof.
  induction c as [a w | e w | req w k IH]; cbn; [reflexivity .. | apply IH].
Qed.

Lemma run_catch_coro {A} net (c : coro A) (handler : exn -> task A) :
  run net (catch_coro c handler) =
    match run net c with
    | (Ok a, w) => (Ok a, w)
    | (Raise e, w) => run net (handler e w)
    end.
Proof.
  induction c as [a w | e w | req w k IH]; cbn; [reflexivity .. | apply IH].
Qed.

Lemma run_bind {A B} net (m : task A) (f : A -> task B) w :
  run net ((m ≫= f) w) =
    match run net (m w) with
    | (Ok a, w') => run net (f a w')
    | (Raise e, w') => (Raise e, w')
    end.
Proof. apply run_bind_coro. Qed.

Lemma run_try {A} net (m : task A) handler w :
  run net (try_ m handler w) =
    match run net (m w) with
    | (Ok a, w') => (Ok a, w')
    | (Raise e, w') => run net (handler e w')
    end.
Proof. apply run_catch_coro. Qed.

Lemma run_ret {A} net (a : A) w : run net ((mret a : task A) w) = (Ok a, w).
Proof. reflexivity. Qed.

Lemma run_lift {A} net (r : result A) w : run net (lift r w) = (r, w).
Proof. destruct r; reflexivity. Qed.

Lemma run_post net req w : run net (post req w) = (net req, w).
Proof. cbn. destruct (net req); reflexivity. Qed.

(** ** Token codec *)

Section Codec.
Context `{Platform}.

(** A token that does not split into three parts decodes to the
    empty payload. *)
Lemma decode_wrong_part_count (token : string) :
  length (PyStr.split "." token) <> 3%nat ->
  decode_jwt_payload (JStr token) = JDict [].
Proof.
  intros Hn. unfold decode_jwt_payload.
  destruct (Nat.eqb_spec (length (PyStr.split "." token)) 3);
    [contradiction | reflexivity].
Qed.

(** The middle segment as it is handed to the base64 decoder. *)
Definition padded (payload_b64 : string) : string :=
  let padding := (4 - PyData.len payload_b64 mod 4)%nat in
  if negb (padding =? 4)%nat
  then payload_b64 ++ PyStr.repeat_char "=" padding
  else payload_b64.

(** What the three decoders make of the middle segment. *)
Definition decoded (payload_b64 : string) : result json :=
  payload_bytes ← urlsafe_b64decode (padded payload_b64);
  payload_text ← utf8_decode payload_bytes;
  json_loads payload_text.

Lemma split_app (a b : string) :
  PyStr.split "." a = [a] ->
  PyStr.split "." (a ++ "." ++ b) = a :: PyStr.split "." b.
Proof.
  induction a as [|c a IH]; intros Ha; [reflexivity|].
  cbn [PyStr.split] in Ha.
  change (String c a ++ "." ++ b) with (String c (a ++ "." ++ b)).
  cbn [PyStr.split].
  destruct (Ascii.eqb c "."); [discriminate|].
  destruct (PyStr.split "." a) as [|x xs] eqn:Hx.
  - injection Ha as <-. discriminate Hx.
  - injection Ha as -> ->. rewrite (IH eq_refl). reflexivity.
Qed.

Lemma decode_three_parts (h p s : string) :
  PyStr.split "." h = [h] -> PyStr.split "." p = [p] ->
  PyStr.split "." s = [s] ->
  decode_jwt_payload (JStr (h ++ "." ++ p ++ "." ++ s)) =
    except_ (decoded p) (JDict []).
Proof.
  intros Hh Hp Hs. unfold decode_jwt_payload.
  rewrite (split_app h _ Hh), (split_app p _ Hp), Hs. reflexivity.
Qed.

(** A segment the decoders reject gives the empty payload. *)
Lemma decode_rejected (h p s : string) e :
  PyStr.split "." h = [h] -> PyStr.split "." p = [p] ->
  PyStr.split "." s = [s] ->
  decoded p = Raise e ->
  decode_jwt_payload (JStr (h ++ "." ++ p ++ "." ++ s)) = JDict [].
Proof.
  intros Hh Hp Hs Hd. rewrite decode_three_parts by assumption.
  now rewrite Hd.
Qed.

(** Where the payload is a JSON object, [is_token_expired] is the
    test the specification gives, for an [exp] in the range of a
    double. *)
Lemma expired_on_object now token buffer_minutes m :
  decode_jwt_payload token = JDict m ->
  is_token_expired_at now token buffer_minutes =
    match m with
    | [] => Ok true
    | _ =>
        match Py.assoc "exp" m with
        | None => Ok true
        | Some v =>
            match Py.as_int v with
            | Ok expiry_time =>
                if Z.abs expiry_time <? 2 ^ 1024 - 2 ^ 970
                then Ok (Qle_bool (inject_Z expiry_time - now)
                                  (inject_Z (buffer_minutes * 60)))
                else Raise OverflowError
            | Raise e => Raise e
            end
        end
    end.
Proof.
  intros Hd. unfold is_token_expired_at. rewrite Hd.
  destruct m as [|kv m]; [reflexivity|]. cbn [Py.falsy Py.contains Py.getitem].
  cbn [mbind result_bind rbind].
  destruct (Py.assoc "exp" (kv :: m)) as [v|]; [|reflexivity].
  cbn [negb Py.getitem]. cbn [mbind result_bind rbind].
  destruct (Py.as_int v) as [expiry_time|e]; [|reflexivity].
  unfold Py.as_float. cbn [mbind result_bind rbind].
  destruct (Z.abs expiry_time <? 2 ^ 1024 - 2 ^ 970); reflexivity.
Qed.

End Codec.

(** C8, evaluated on the code.  [decode_jwt_payload] never raises, and
    the payload is empty when the token has not three parts or its middle
    segment does not decode.  But [is_token_expired] does not return
    [True] for every payload without [exp]: the middle segment [NQ]
    decodes to the JSON number 5, which is not empty, and the test
    ['exp' not in payload] raises [TypeError] on it. *)
Theorem scalar_payload_raises :
  @decode_jwt_payload Reference.platform (JStr "h.NQ.s") = JInt 5
  /\ forall now buffer_minutes,
       @is_token_expired_at Reference.platform now (JStr "h.NQ.s") buffer_minutes
       = Raise TypeError.
Proof. split; [|intros now buffer_minutes]; reflexivity. Qed.

(** A token of three parts whose payload is the object with [exp] at
    2000000000 is not expired at time 1700000000 with a buffer of five minutes, and is
    expired with a buffer of ten million minutes. *)
Example sample_token_expiry :
  @is_token_expired_at Reference.platform 1700000000
     (JStr "h.eyJleHAiOjIwMDAwMDAwMDB9.s") 5 = Ok false
  /\ @is_token_expired_at Reference.platform 1700000000
       (JStr "h.eyJleHAiOjIwMDAwMDAwMDB9.s") 10000000 = Ok true
  /\ @is_token_expired_at Reference.platform 1700000000 (JStr "not a token") 5
     = Ok true.
Proof. repeat split; reflexivity. Qed.

(** ** Account registry *)

Definition is_record (account : json) : bool :=
  match account with JDict _ => true | _ => false end.

Definition has_status (account : json) : bool :=
  match account with
  | JDict m => match Py.assoc "account_status" m with Some _ => true | None => false end
  | _ => false
  end.

(** The materialization of section 4.3: a record without a status gets
    the status [available]. *)
Definition with_default_status (account : json) : json :=
  match account with
  | JDict m =>
      match Py.assoc "account_status" m with
      | Some _ => account
      | None => JDict (m ++ [("account_status", JStr "available")])%list
      end
  | _ => account
  end.

Lemma assoc_set_fresh {V} k (v : V) m :
  Py.assoc k m = None -> Py.assoc_set k v m = (m ++ [(k, v)])%list.
Proof.
  induction m as [|[k' v'] m IH]; cbn; [reflexivity|].
  destruct (String.eqb k k'); [discriminate|]. intros Hm. now rewrite IH.
Qed.

Lemma assoc_app_l {V} k (m m' : list (string * V)) v :
  Py.assoc k m = Some v -> Py.assoc k (m ++ m')%list = Some v.
Proof.
  induction m as [|[k' v'] m IH]; cbn; [discriminate|].
  destruct (String.eqb k k'); [trivial | apply IH].
Qed.

Lemma assoc_app_r {V} k (m m' : list (string * V)) :
  Py.assoc k m = None -> Py.assoc k (m ++ m')%list = Py.assoc k m'.
Proof.
  induction m as [|[k' v'] m IH]; cbn; [reflexivity|].
  destruct (String.eqb k k'); [discriminate | apply IH].
Qed.

Lemma with_default_status_has_status account :
  is_record account = true -> has_status (with_default_status account) = true.
Proof.
  destruct account as [| | | | |m]; try discriminate. intros _. cbn.
  destruct (Py.assoc "account_status" m) eqn:Hm; cbn.
  - now rewrite Hm.
  - rewrite (assoc_app_r _ _ _ Hm). reflexivity.
Qed.

Lemma with_default_status_idem account :
  has_status account = true -> with_default_status account = account.
Proof.
  destruct account as [| | | | |m]; try reflexivity. cbn.
  destruct (Py.assoc "account_status" m); [reflexivity | discriminate].
Qed.

Lemma init_account_status_records accounts :
  forallb is_record accounts = true ->
  init_account_status accounts =
    Ok (map with_default_status accounts,
        existsb (fun a => negb (has_status a)) accounts).
Proof.
  induction accounts as [|a accounts IH]; [reflexivity|].
  cbn [forallb]. intros [Ha Hrest]%andb_prop.
  cbn [init_account_status]. rewrite (IH Hrest).
  destruct a as [| | | | |m]; try discriminate. cbn.
  destruct (Py.assoc "account_status" m) eqn:Hm; cbn; [reflexivity|].
  now rewrite (assoc_set_fresh _ _ _ Hm).
Qed.

Lemma map_default_status_fixed accounts :
  existsb (fun a => negb (has_status a)) accounts = false ->
  map with_default_status accounts = accounts.
Proof.
  induction accounts as [|a accounts IH]; [reflexivity|].
  cbn. intros [Ha Hrest]%orb_false_elim. apply negb_false_iff in Ha.
  now rewrite (with_default_status_idem _ Ha), (IH Hrest).
Qed.

Definition saved (file_path : string) (accounts : list json) (w : world) : world :=
  with_files (<[file_path := FJson (JList accounts)]> (files w)) w.

Lemma run_save net file_path accounts w :
  run net (save_accounts_to_file file_path accounts w) =
    if negb (String.eqb (dirname file_path) "") && files_writable w
    then (Ok true, saved file_path accounts w)
    else (Ok false, w).
Proof.
  unfold save_accounts_to_file. rewrite run_try, run_bind.
  unfold makedirs at 1.
  destruct (String.eqb (dirname file_path) ""); [reflexivity|].
  destruct (files_writable w) eqn:Hw; [|reflexivity].
  cbn [run negb andb]. rewrite run_bind. cbn [gets run]. rewrite Hw.
  reflexivity.
Qed.

Lemma run_load_records net file_path accounts w :
  files w !! file_path = Some (FJson (JList accounts)) ->
  forallb is_record accounts = true ->
  negb (String.eqb (dirname file_path) "") && files_writable w = true ->
  run net (load_accounts_from_file file_path w) =
    (Ok (map with_default_status accounts),
     saved file_path (map with_default_status accounts) w).
Proof.
  intros Hf Hrec Hok. unfold load_accounts_from_file.
  rewrite run_try, run_bind. cbn [gets run]. rewrite Hf.
  rewrite run_bind, run_lift, (init_account_status_records _ Hrec).
  rewrite run_bind. cbn [fst snd].
  destruct (existsb (fun a => negb (has_status a)) accounts) eqn:Hex.
  - rewrite run_save, Hok. reflexivity.
  - rewrite run_ret, run_ret. rewrite (map_default_status_fixed _ Hex).
    f_equal. unfold saved. destruct w; cbn in *. unfold with_files; cbn.
    f_equal. symmetry. apply insert_id. assumption.
Qed.

(** The round trip where the save reports success, with the file taken
    as the JSON document it holds: saving a list of account records and
    loading it back returns
    the records in their order, each as it was saved except that a
    missing status is filled in as [available]; every loaded record has
    a status, the file then holds the loaded list, and loading once more
    returns the same. *)
Theorem accounts_round_trip net file_path (accounts : list json) w w1 :
  forallb is_record accounts = true ->
  run net (save_accounts_to_file file_path accounts w) = (Ok true, w1) ->
  let loaded := map with_default_status accounts in
  exists w2,
    run net (load_accounts_from_file file_path w1) = (Ok loaded, w2)
    /\ forallb has_status loaded = true
    /\ files w2 !! file_path = Some (FJson (JList loaded))
    /\ run net (load_accounts_from_file file_path w2) = (Ok loaded, w2).
Proof.
  intros Hrec Hsave loaded. rewrite run_save in Hsave.
  destruct (negb (String.eqb (dirname file_path) "") && files_writable w) eqn:Hok;
    [|discriminate].
  injection Hsave as <-.
  assert (Hst : forallb has_status loaded = true).
  { subst loaded. clear -Hrec. induction accounts as [|a l IH]; [reflexivity|].
    cbn in *. apply andb_prop in Hrec as [Ha Hl].
    now rewrite (with_default_status_has_status _ Ha), (IH Hl). }
  assert (Hrec' : forallb is_record loaded = true).
  { clear -Hst. induction loaded as [|a l IH]; [reflexivity|].
    cbn in *. apply andb_prop in Hst as [Ha Hl]. rewrite (IH Hl).
    destruct a; try discriminate. reflexivity. }
  assert (Hfix : map with_default_status loaded = loaded).
  { clear -Hst. induction loaded as [|a l IH]; [reflexivity|].
    cbn in *. apply andb_prop in Hst as [Ha Hl].
    now rewrite (with_default_status_idem _ Ha), (IH Hl). }
  exists (saved file_path loaded (saved file_path accounts w)).
  split; [|split; [exact Hst|split]].
  - apply run_load_records; [apply lookup_insert_eq | exact Hrec | exact Hok].
  - apply lookup_insert_eq.
  - rewrite (run_load_records net file_path loaded);
      [| apply lookup_insert_eq | exact Hrec' | exact Hok].
    rewrite Hfix. f_equal. unfold saved, with_files. cbn.
    f_equal. apply insert_insert_eq.
Qed.

(** A world with nothing in it and an upstream that is down. *)
Definition empty_world : world :=
  {| dotenv := ∅; dotenv_writable := true; environ := ∅;
     files := ∅; files_writable := true; clock := 1700000000 |}.

Definition offline : request -> result response := fun _ => Raise OSError.

Definition sample_accounts : list json :=
  [ JDict [("email", JStr "a@example.com"); ("refresh_token", JStr "ra")];
    JDict [("email", JStr "b@example.com"); ("refresh_token", JStr "rb");
           ("account_status", JStr "quota_exhausted")] ].

Lemma accounts_round_trip_witness :
  let loaded := map with_default_status sample_accounts in
  exists w2,
    run offline (load_accounts_from_file "data/accounts.json"
                   (saved "data/accounts.json" sample_accounts empty_world))
    = (Ok loaded, w2)
    /\ forallb has_status loaded = true
    /\ files w2 !! "data/accounts.json" = Some (FJson (JList loaded))
    /\ run offline (load_accounts_from_file "data/accounts.json" w2) = (Ok loaded, w2).
Proof.
  apply (accounts_round_trip offline "data/accounts.json" sample_accounts
           empty_world (saved "data/accounts.json" sample_accounts empty_world));
    reflexivity.
Defined.

(** ** Refresh-token refresh *)

Inductive kind : Type := invalid_token | quota_exhausted | refresh_failed.









(** [set_key(env_path, key, value)] under the [try] of the three
    [update_env_...] functions: whether the value is kept, and the world
    afterwards. *)
Definition keeps (value : json) (w : world) : bool :=
  match value with
  | JStr _ => dotenv_writable w
  | _ => false
  end.

Definition kept (key : string) (value : json) (w : world) : world :=
  match value with
  | JStr s =>
      if dotenv_writable w then with_dotenv (<[key := s]> (dotenv w)) w else w
  | _ => w
  end.

(** The world after [refresh_jwt_token] got the object [m]. *)
Definition with_id_token (m : list (string * json)) (w : world) : world :=
  match Py.assoc "id_token" m with
  | Some id_token => kept "WARP_ID_TOKEN" id_token w
  | None => w
  end.


Lemma search_lit p s : Re.search (Re.Lit p) s = PyStr.contains p s.
Proof.
  induction s as [|c s IH]; cbn.
  - unfold Re.match_here, PyStr.startswith. cbn.
    destruct (PyStr.strip_prefix p ""); reflexivity.
  - rewrite IH. unfold Re.match_here, PyStr.startswith. cbn.
    destruct (PyStr.strip_prefix p (String c s)); reflexivity.
Qed.




Section Refresh.
Context `{Platform}.

Lemma run_getenv net key w :
  run net (getenv key w) = (Ok (environ w !! key), w).
Proof. reflexivity. Qed.

Lemma run_set_key net key value w :
  run net (set_key key value w) =
    match value with
    | JStr s =>
        if dotenv_writable w
        then (Ok tt, with_dotenv (<[key := s]> (dotenv w)) w)
        else (Raise OSError, w)
    | _ => (Raise AttributeError, w)
    end.
Proof.
  unfold set_key. destruct value; try reflexivity.
  destruct (dotenv_writable w); reflexivity.
Qed.

Lemma run_update_env key value w net (update : json -> task bool) :
  (forall v, update v = try_ (_ ← set_key key v; mret true) (fun _ => mret false)) ->
  run net (update value w) = (Ok (keeps value w), kept key value w).
Proof.
  intros ->. rewrite run_try, run_bind, run_set_key. unfold keeps, kept.
  destruct value; try reflexivity. destruct (dotenv_writable w); reflexivity.
Qed.

Lemma run_update_env_file net value w :
  run net (update_env_file value w) = (Ok (keeps value w), kept "WARP_JWT" value w).
Proof. apply run_update_env. reflexivity. Qed.

Lemma run_update_env_id_token net value w :
  run net (update_env_id_token value w)
  = (Ok (keeps value w), kept "WARP_ID_TOKEN" value w).
Proof. apply run_update_env. reflexivity. Qed.

Lemma run_update_env_refresh_token net value w :
  run net (update_env_refresh_token value w)
  = (Ok (keeps value w), kept "WARP_REFRESH_TOKEN" value w).
Proof. apply run_update_env. reflexivity. Qed.

Lemma kept_writable key value w :
  dotenv_writable (kept key value w) = dotenv_writable w.
Proof.
  unfold kept. destruct value; try reflexivity.
  destruct (dotenv_writable w) eqn:Hw; exact Hw.
Qed.

Lemma kept_environ key value w : environ (kept key value w) = environ w.
Proof.
  unfold kept. destruct value; try reflexivity.
  destruct (dotenv_writable w); reflexivity.
Qed.

Lemma kept_lookup key s w :
  dotenv_writable w = true -> dotenv (kept key (JStr s) w) !! key = Some s.
Proof. intros Hw. unfold kept. rewrite Hw. apply lookup_insert_eq. Qed.

Lemma kept_lookup_ne key key' value w :
  key <> key' -> dotenv (kept key value w) !! key' = dotenv w !! key'.
Proof.
  intros Hne. unfold kept. destruct value; try reflexivity.
  destruct (dotenv_writable w); [|reflexivity]. now apply lookup_insert_ne.
Qed.

(** What [refresh_jwt_token] returns, by the answer of the upstream. *)
Definition returned (answer : result response) : json :=
  match answer with
  | Raise _ => error_dict "refresh_failed"
  | Ok resp =>
      if status_code resp =? 200 then
        match body resp with
        | Ok (JDict m) => JDict m
        | Ok (JList l) =>
            if existsb (Py.is_str "id_token") l
            then error_dict "refresh_failed" else JList l
        | Ok (JStr s) =>
            if PyStr.contains "id_token" s
            then error_dict "refresh_failed" else JStr s
        | _ => error_dict "refresh_failed"
        end
      else error_dict (error_type resp)
  end.

(** The world it leaves: the only write is that of the [id_token]. *)
Definition id_token_kept (answer : result response) (w : world) : world :=
  match answer with
  | Ok resp =>
      if status_code resp =? 200 then
        match body resp with
        | Ok (JDict m) => with_id_token m w
        | _ => w
        end
      else w
  | Raise _ => w
  end.

Definition refresh_request (w : world) : request :=
  PostRefresh (refresh_payload (environ w !! "WARP_REFRESH_TOKEN")).

Lemma run_refresh_jwt_token net w :
  run net (refresh_jwt_token w) =
    (Ok (returned (net (refresh_request w))),
     id_token_kept (net (refresh_request w)) w).
Proof.
  unfold refresh_jwt_token, refresh_request. rewrite run_bind, run_getenv.
  rewrite run_try, run_bind, run_post. unfold returned, id_token_kept.
  destruct (net _) as [resp|e]; [|reflexivity].
  destruct (status_code resp =? 200); [|reflexivity].
  rewrite run_bind, run_lift.
  destruct (body resp) as [token_data|e]; [|reflexivity].
  rewrite run_bind, run_lift.
  destruct token_data as [| b | z | s | l | m]; try reflexivity.
  - cbn [Py.contains]. rewrite run_bind.
    destruct (PyStr.contains "id_token" s); reflexivity.
  - cbn [Py.contains]. rewrite run_bind.
    destruct (existsb (Py.is_str "id_token") l); reflexivity.
  - cbn [Py.contains]. rewrite run_bind. unfold with_id_token.
    destruct (Py.assoc "id_token" m) as [v|] eqn:Hm; [|reflexivity].
    rewrite run_bind, run_lift. cbn [Py.getitem]. rewrite Hm.
    rewrite run_update_env_id_token. reflexivity.
Qed.

Lemma id_token_kept_frame answer w :
  environ (id_token_kept answer w) = environ w
  /\ dotenv_writable (id_token_kept answer w) = dotenv_writable w
  /\ forall key, key <> "WARP_ID_TOKEN" ->
       dotenv (id_token_kept answer w) !! key = dotenv w !! key.
Proof.
  unfold id_token_kept.
  destruct answer as [resp|e]; [|auto].
  destruct (status_code resp =? 200); [|auto].
  destruct (body resp) as [[| b | z | s | l | m]|e]; auto.
  unfold with_id_token. destruct (Py.assoc "id_token" m); [|auto].
  rewrite kept_environ, kept_writable. repeat split.
  intros key Hk. apply kept_lookup_ne. congruence.
Qed.

Lemma run_raise {A} net e w : run net (@raise A e w) = (Raise e, w).
Proof. reflexivity. Qed.

Lemma run_setenv net key value w :
  run net (setenv key value w) =
    (match value with JStr _ => Ok tt | _ => Raise TypeError end,
     match value with
     | JStr s => with_environ (<[key := s]> (environ w)) w
     | _ => w
     end).
Proof. destruct value; reflexivity. Qed.

Lemma run_is_token_expired net token buffer_minutes w :
  run net (is_token_expired token buffer_minutes w) =
    (is_token_expired_at (clock w) token buffer_minutes, w).
Proof.
  unfold is_token_expired. rewrite run_bind. cbn [gets run]. apply run_lift.
Qed.

(** [load_dotenv(override=True)]. *)
Definition reloaded (w : world) : world :=
  with_environ (dotenv w ∪ environ w) w.

(** The first branch of [check_and_refresh_token]: no token at hand and
    no accounts file configured. *)
Lemma run_check_fresh_start net force w :
  unset (environ (reloaded w) !! "WARP_JWT") = true ->
  unset (environ (reloaded w) !! "LOCAL_JWT_FILEPATH") = true ->
  run net (check_and_refresh_token force w) =
    let answer := net (refresh_request (reloaded w)) in
    let w1 := id_token_kept answer (reloaded w) in
    match nonempty_with "access_token" (returned answer) with
    | Ok true =>
        match Py.getitem (returned answer) "access_token" with
        | Ok new_jwt => run net (update_env_file new_jwt w1)
        | Raise e => (Raise e, w1)
        end
    | Ok false => (Ok false, w1)
    | Raise e => (Raise e, w1)
    end.
Proof.
  intros Hjwt Hfile. unfold check_and_refresh_token.
  rewrite run_bind. cbn [load_dotenv modify run]. fold (reloaded w).
  rewrite run_bind, run_getenv, Hjwt. cbv beta iota.
  rewrite run_bind, run_getenv, Hfile. cbv beta iota.
  rewrite run_bind, run_ret. cbv beta iota.
  rewrite run_bind, run_refresh_jwt_token.
  cbv beta iota zeta. rewrite run_bind, run_lift.
  destruct (nonempty_with "access_token" _) as [[|]|e]; [|reflexivity..].
  rewrite run_bind, run_lift.
  destruct (Py.getitem _ "access_token"); reflexivity.
Qed.

End Refresh.

(** ** What the registry leaves alone *)

(** Everything of the world but the files. *)
Definition env_part (w : world) :=
  (dotenv w, dotenv_writable w, environ w, clock w).

Lemma env_part_eq w w' :
  env_part w = env_part w' ->
  dotenv w = dotenv w' /\ dotenv_writable w = dotenv_writable w'
  /\ environ w = environ w'.
Proof. unfold env_part. intros [= ? ? ? ?]. auto. Qed.

Section Registry.
Context `{Platform}.

Definition can_save (file_path : string) (w : world) : bool :=
  negb (String.eqb (dirname file_path) "") && files_writable w.

(** [load_accounts_from_file] raises nothing. *)
Definition load_result (file_path : string) (w : world) : list json * world :=
  match files w !! file_path with
  | Some (FJson (JList accounts)) =>
      match init_account_status accounts with
      | Ok loaded =>
          (loaded.1,
           if loaded.2 && can_save file_path w
           then saved file_path loaded.1 w else w)
      | Raise _ => ([], w)
      end
  | _ => ([], w)
  end.

Lemma run_load net file_path w :
  run net (load_accounts_from_file file_path w) =
    (Ok (load_result file_path w).1, (load_result file_path w).2).
Proof.
  unfold load_accounts_from_file, load_result.
  rewrite run_try, run_bind. cbn [gets run].
  destruct (files w !! file_path) as [[v|]|]; try reflexivity.
  destruct v; try reflexivity.
  rewrite run_bind, run_lift.
  destruct (init_account_status l) as [[accounts updated]|e]; [|reflexivity].
  rewrite run_bind. cbn [fst snd]. destruct updated; [|reflexivity].
  rewrite run_save. fold (can_save file_path w).
  destruct (can_save file_path w); reflexivity.
Qed.

Lemma load_frame file_path w :
  env_part (load_result file_path w).2 = env_part w.
Proof.
  unfold load_result.
  destruct (files w !! file_path) as [[v|]|]; try reflexivity.
  destruct v; try reflexivity.
  destruct (init_account_status l) as [[accounts updated]|e]; [|reflexivity].
  cbn [fst snd]. destruct (updated && can_save file_path w); reflexivity.
Qed.

Lemma save_frame net file_path accounts w :
  env_part (run net (save_accounts_to_file file_path accounts w)).2 = env_part w.
Proof. rewrite run_save. destruct (_ && _); reflexivity. Qed.

Lemma save_no_raise net file_path accounts w :
  exists b, (run net (save_accounts_to_file file_path accounts w)).1 = Ok b.
Proof. rewrite run_save. destruct (_ && _); eexists; reflexivity. Qed.

Lemma update_account_status_frame net file_path email status w :
  (exists b, (run net (update_account_status file_path email status w)).1 = Ok b)
  /\ env_part (run net (update_account_status file_path email status w)).2
     = env_part w.
Proof.
  unfold update_account_status. rewrite run_try, run_bind, run_load.
  pose proof (load_frame file_path w) as Hload.
  destruct (load_result file_path w) as [accounts w1]. cbn [fst snd] in *.
  destruct accounts as [|a accounts]; [split; [eexists; reflexivity | exact Hload]|].
  rewrite run_bind, run_lift.
  destruct (set_first_status (a :: accounts) email status) as [[accounts'|]|e];
    try (split; [eexists; reflexivity | exact Hload]).
  pose proof (save_frame net file_path accounts' w1) as Hsave.
  destruct (save_no_raise net file_path accounts' w1) as [b Hb].
  destruct (run net (save_accounts_to_file file_path accounts' w1)) as [r w2].
  cbn [fst snd] in *. subst r. cbn [fst snd].
  split; [eexists; reflexivity|]. now rewrite Hsave.
Qed.

Lemma get_current_account_frame net file_path w :
  env_part (run net (get_current_account_from_file file_path w)).2 = env_part w.
Proof.
  unfold get_current_account_from_file. rewrite run_bind, run_load.
  pose proof (load_frame file_path w) as Hload.
  destruct (load_result file_path w) as [accounts w1]. cbn [fst snd] in *.
  destruct accounts as [|a accounts]; [exact Hload|].
  rewrite run_bind, run_lift.
  destruct (first_available (a :: accounts)) as [[account|]|e]; exact Hload.
Qed.

End Registry.





(** ** What a refresh has persisted *)

Ltac run_step :=
  first [ rewrite run_bind | rewrite run_try | rewrite run_post
        | rewrite run_lift | rewrite run_ret | rewrite run_raise
        | rewrite run_getenv | rewrite run_setenv
        | rewrite run_is_token_expired
        | rewrite run_update_env_file | rewrite run_update_env_id_token
        | rewrite run_update_env_refresh_token ];
  cbv beta iota.

(** The calls whose effect is known by a frame lemma are replaced by
    their outcome. *)
Ltac frame_step :=
  match goal with
  | |- context [run ?net (update_account_status ?p ?e ?s ?w)] =>
      let Hb := fresh "Hb" in
      let Hf := fresh "Hf" in
      let b := fresh "b" in
      destruct (update_account_status_frame net p e s w) as [[b Hb] Hf];
      destruct (run net (update_account_status p e s w)) as [? ?];
      cbn [fst snd] in Hb, Hf; subst
  | |- context [run ?net (get_current_account_from_file ?p ?w)] =>
      let Hf := fresh "Hf" in
      pose proof (get_current_account_frame net p w) as Hf;
      destruct (run net (get_current_account_from_file p w)) as [? ?];
      cbn [fst snd] in Hf
  | |- context [run ?net (refresh_jwt_token ?w)] =>
      rewrite (run_refresh_jwt_token net w)
  end.

(** A case analysis on what the run branches on. *)
Ltac case_step :=
  match goal with
  | |- ?lhs = _ -> _ =>
      match lhs with
      | context [match ?x with _ => _ end] =>
          lazymatch x with
          | context [run] => fail
          | _ => destruct x eqn:?
          end
      end
  end.

Ltac crunch := repeat (first [ frame_step | run_step | case_step ]).

(** The token set of section 3, as [.env] holds it. *)
Definition persisted_tokens (w : world) :=
  (dotenv w !! "WARP_JWT", dotenv w !! "WARP_REFRESH_TOKEN",
   dotenv w !! "WARP_ID_TOKEN").

(** C2 as the specification states it, for the anonymous acquisition: a
    run that fails leaves the three persisted tokens as they were. *)
Definition atomic_refresh_as_stated : Prop :=
  forall (P : Platform) net w r w',
    run net (acquire_anonymous_access_token w) = (r, w') ->
    match r with
    | Ok _ => True
    | Raise _ => persisted_tokens w' = persisted_tokens w
    end.

Section Persistence.
Context `{Platform}.

Lemma acquire_cases net w r w' :
  run net (acquire_anonymous_access_token w) = (r, w') ->
  exists refresh_token,
    match r with
    | Ok access =>
        (exists resp token_data,
           net (PostRefreshFor refresh_token) = Ok resp
           /\ body resp = Ok token_data
           /\ Py.get token_data "access_token" JNull = Ok access)
        /\ w' = kept "WARP_JWT" access (kept "WARP_REFRESH_TOKEN" refresh_token w)
    | Raise _ => w' = w \/ w' = kept "WARP_REFRESH_TOKEN" refresh_token w
    end.
Proof.
  unfold acquire_anonymous_access_token, _create_anonymous_user,
    _exchange_id_token_for_refresh_token.
  crunch.
  all: intros [= <- <-].
  all: try (exists JNull; left; reflexivity).
  all: try (eexists; right; reflexivity).
  eexists. split; [|reflexivity]. eauto.
Qed.

Lemma file_refresh_cases net file_path w w' :
  run net (refresh_from_file file_path w) = (Ok true, w') ->
  exists access refresh_token,
    Py.getitem
      (returned (net (PostRefresh
                        ("grant_type=refresh_token&refresh_token=" ++ refresh_token))))
      "access_token" = Ok (JStr access)
    /\ dotenv w' !! "WARP_JWT" = Some access
    /\ dotenv w' !! "WARP_REFRESH_TOKEN" = Some refresh_token
    /\ environ w' !! "WARP_REFRESH_TOKEN" = Some refresh_token.
Proof.
  unfold refresh_from_file.
  crunch.
  all: try discriminate.
  all: intros [= ? ?]; subst; try discriminate.
  destruct a1 as [| | | refresh_token | |]; try discriminate.
  destruct a5 as [| | | access | |]; try discriminate.
  cbn [keeps] in H1.
  assert (Hsame : a0 = JStr refresh_token).
  { destruct a; try discriminate. cbn in Heqr1, Heqr2.
    destruct (Py.assoc "refresh_token" m); congruence. }
  subst a0. cbn [Py.falsy] in Heqb0.
  set (w2 := with_environ (<["WARP_REFRESH_TOKEN" := refresh_token]> (environ w0)) w0)
    in *.
  assert (Hreq : refresh_request w2
                 = PostRefresh ("grant_type=refresh_token&refresh_token="
                                ++ refresh_token)).
  { unfold refresh_request, w2. cbn [environ with_environ].
    rewrite lookup_insert_eq. unfold refresh_payload. now rewrite Heqb0. }
  rewrite Hreq in *.
  destruct (id_token_kept_frame
              (net (PostRefresh ("grant_type=refresh_token&refresh_token="
                                 ++ refresh_token))) w2) as (He & Hw & Hd).
  set (w3 := id_token_kept _ w2) in *.
  apply env_part_eq in Hf0 as (Hd1 & Hw1 & He1).
  rewrite kept_writable in Hw1. rewrite kept_environ in He1.
  exists access, refresh_token. split; [exact Heqr6|]. split; [|split].
  - now apply kept_lookup.
  - rewrite kept_lookup_ne by discriminate. rewrite Hd1.
    apply kept_lookup. congruence.
  - rewrite kept_environ, He1, He. apply lookup_insert_eq.
Qed.

Lemma plain_refresh_cases net w r w' :
  run net (plain_refresh w) = (r, w') ->
  let answer := net (refresh_request w) in
  match r with
  | Ok true =>
      exists access,
        Py.getitem (returned answer) "access_token" = Ok (JStr access)
        /\ w' = kept "WARP_JWT" (JStr access) (id_token_kept answer w)
        /\ dotenv w' !! "WARP_JWT" = Some access
  | _ => w' = id_token_kept answer w
  end.
Proof.
  unfold plain_refresh. crunch.
  all: intros [= <- <-]; cbv zeta; try reflexivity.
  destruct a0 as [| | | access | |]; try reflexivity. cbn [keeps].
  destruct (dotenv_writable _) eqn:Hw.
  - exists access. split; [reflexivity|]. split; [reflexivity|].
    now apply kept_lookup.
  - unfold kept. now rewrite Hw.
Qed.

Lemma persisted_after_anonymous access refresh_token w :
  dotenv_writable w = true ->
  persisted_tokens
    (kept "WARP_JWT" (JStr access)
       (kept "WARP_REFRESH_TOKEN" (JStr refresh_token) w))
  = (Some access, Some refresh_token, dotenv w !! "WARP_ID_TOKEN").
Proof.
  intros Hw. unfold persisted_tokens.
  rewrite kept_lookup by now rewrite kept_writable.
  rewrite !(kept_lookup_ne "WARP_JWT") by discriminate.
  rewrite kept_lookup by exact Hw.
  now rewrite kept_lookup_ne by discriminate.
Qed.

(** C2, amended.  The tokens are written to [.env] one key at a time,
    each where it is obtained, and nothing is taken back.
    Anonymous acquisition writes the refresh token it got from the
    sign-in, then asks for the access token with it: when it returns, it
    has also written that access token and has left the identity token as
    it was; when it fails, it has written nothing or the new refresh token
    alone.  File refresh that returns [True] has written the access token
    the upstream gave for the refresh token of the account, and that
    refresh token.  Refresh-token refresh writes the identity token of the
    answer, if any, and then, only when it returns [True], the access
    token of the answer; it never writes the refresh token. *)
Theorem refresh_persists_key_by_key net w :
  (forall r w',
     run net (acquire_anonymous_access_token w) = (r, w') ->
     exists refresh_token,
       match r with
       | Ok access =>
           (exists resp token_data,
              net (PostRefreshFor refresh_token) = Ok resp
              /\ body resp = Ok token_data
              /\ Py.get token_data "access_token" JNull = Ok access)
           /\ w' = kept "WARP_JWT" access
                       (kept "WARP_REFRESH_TOKEN" refresh_token w)
       | Raise _ => w' = w \/ w' = kept "WARP_REFRESH_TOKEN" refresh_token w
       end)
  /\ (forall file_path w',
        run net (refresh_from_file file_path w) = (Ok true, w') ->
        exists access refresh_token,
          Py.getitem
            (returned
               (net (PostRefresh
                       ("grant_type=refresh_token&refresh_token=" ++ refresh_token))))
            "access_token" = Ok (JStr access)
          /\ dotenv w' !! "WARP_JWT" = Some access
          /\ dotenv w' !! "WARP_REFRESH_TOKEN" = Some refresh_token
          /\ environ w' !! "WARP_REFRESH_TOKEN" = Some refresh_token)
  /\ (forall r w',
        run net (plain_refresh w) = (r, w') ->
        let answer := net (refresh_request w) in
        match r with
        | Ok true =>
            exists access,
              Py.getitem (returned answer) "access_token" = Ok (JStr access)
              /\ w' = kept "WARP_JWT" (JStr access) (id_token_kept answer w)
              /\ dotenv w' !! "WARP_JWT" = Some access
        | _ => w' = id_token_kept answer w
        end).
Proof.
  split; [|split].
  - intros r w'. apply acquire_cases.
  - intros file_path w'. apply file_refresh_cases.
  - intros r w'. apply plain_refresh_cases.
Qed.

End Persistence.

Definition json_answer (v : json) : result response :=
  Ok {| status_code := 200; text := ""; body := Ok v |}.

Definition server_error : result response :=
  Ok {| status_code := 500; text := "internal error"; body := Raise ValueError |}.

(** A [.env] that holds the tokens of an earlier session. *)
Definition earlier_session : world :=
  {| dotenv := <["WARP_JWT" := "A0"]>
                 (<["WARP_REFRESH_TOKEN" := "R0"]>
                    (<["WARP_ID_TOKEN" := "I0"]> ∅));
     dotenv_writable := true; environ := ∅;
     files := ∅; files_writable := true; clock := 1700000000 |}.

(** An upstream that creates the anonymous user and signs it in, and
    whose token endpoint answers [token]. *)
Definition anonymous_upstream (token : result response) (req : request)
  : result response :=
  match req with
  | PostCreateAnonymousUser =>
      json_answer
        (JDict [("data",
                 JDict [("createAnonymousUser", JDict [("idToken", JStr "T9")])])])
  | PostSignIn _ => json_answer (JDict [("refreshToken", JStr "R9")])
  | _ => token
  end.

(** C2, refuted as stated: when the token endpoint fails after the
    sign-in, the acquisition raises, and [.env] holds the new refresh token
    beside the access token and the identity token of the earlier
    session. *)
Lemma atomic_refresh_as_stated_fails : ~ atomic_refresh_as_stated.
Proof.
  intros Hatomic.
  pose proof (Hatomic Reference.platform (anonymous_upstream server_error)
                earlier_session) as Hrun.
  specialize (Hrun (Raise (RuntimeError "Acquire access_token failed"))
                (kept "WARP_REFRESH_TOKEN" (JStr "R9") earlier_session) eq_refl).
  vm_compute in Hrun. discriminate Hrun.
Qed.

Lemma refresh_persists_key_by_key_witness :
  exists refresh_token,
    (exists resp token_data,
       anonymous_upstream (json_answer (JDict [("access_token", JStr "A9")]))
         (PostRefreshFor refresh_token) = Ok resp
       /\ body resp = Ok token_data
       /\ Py.get token_data "access_token" JNull = Ok (JStr "A9"))
    /\ kept "WARP_JWT" (JStr "A9")
         (kept "WARP_REFRESH_TOKEN" (JStr "R9") earlier_session)
       = kept "WARP_JWT" (JStr "A9")
           (kept "WARP_REFRESH_TOKEN" refresh_token earlier_session).
Proof.
  exact (proj1 (@refresh_persists_key_by_key Reference.platform
                  (anonymous_upstream (json_answer (JDict [("access_token", JStr "A9")])))
                  earlier_session)
           (Ok (JStr "A9"))
           (kept "WARP_JWT" (JStr "A9")
              (kept "WARP_REFRESH_TOKEN" (JStr "R9") earlier_session))
           eq_refl).
Defined.

(** ** Concurrent callers *)

(** C7 as the specification states it. *)
Definition single_flight_as_stated : Prop :=
  forall (P : Platform) (n : nat) force w l,
    reachable (mkLoop w (replicate n (Ready (check_and_refresh_token force)))) l ->
    (refresh_in_flight l <= 1)%nat.

Lemma reachable_trans {A} (l1 l2 l3 : loop A) :
  reachable l1 l2 -> reachable l2 l3 -> reachable l1 l3.
Proof.
  intros H12 H23. induction H23 as [|l2 l3 l4 _ IH Hstep]; [exact H12|].
  eapply reach_step; [apply IH, H12 | exact Hstep].
Qed.

Lemma reachable_one {A} (l1 l2 : loop A) : loop_step l1 l2 -> reachable l1 l2.
Proof. intros Hstep. eapply reach_step; [apply reach_refl | exact Hstep]. Qed.

(** A thread that is not scheduled stays as it is. *)
Lemma reachable_cons {A} (th : thread A) (l l' : loop A) :
  reachable l l' ->
  reachable (mkLoop (shared l) (th :: threads l))
            (mkLoop (shared l') (th :: threads l')).
Proof.
  induction 1 as [|l1 l2 l3 _ IH Hstep]; [apply reach_refl|].
  eapply reach_step; [exact IH|].
  destruct Hstep as [l2 i t Hi | l2 i req k r Hi].
  - apply (step_start (mkLoop (shared l2) (th :: threads l2)) (S i) t Hi).
  - apply (step_resume (mkLoop (shared l2) (th :: threads l2)) (S i) req k r Hi).
Qed.

Section Callers.
Context `{Platform}.

(** No token at hand and no accounts file configured, once [.env] is
    loaded. *)
Definition needs_refresh (w : world) : Prop :=
  unset (environ (reloaded w) !! "WARP_JWT") = true
  /\ unset (environ (reloaded w) !! "LOCAL_JWT_FILEPATH") = true.

Lemma reloaded_idem w : reloaded (reloaded w) = reloaded w.
Proof.
  unfold reloaded, with_environ. cbn. f_equal.
  now rewrite (assoc_L (∪)), (idemp_L (∪)).
Qed.

Lemma needs_refresh_reloaded w : needs_refresh w -> needs_refresh (reloaded w).
Proof. unfold needs_refresh. now rewrite reloaded_idem. Qed.

(** Such a caller runs straight into the refresh call. *)
Lemma first_await force w :
  needs_refresh w ->
  exists k,
    check_and_refresh_token force w
    = Await (refresh_request (reloaded w)) (reloaded w) k.
Proof.
  intros [Hjwt Hfile]. unfold check_and_refresh_token.
  unfold mbind, task_bind, load_dotenv, modify. cbn [bind_coro].
  fold (reloaded w). unfold getenv at 1, gets. cbn [bind_coro].
  rewrite Hjwt. unfold getenv at 1, gets. cbn [bind_coro]. rewrite Hfile.
  unfold mret, task_ret. cbn [bind_coro].
  unfold refresh_jwt_token, getenv, gets, mbind, task_bind, try_, post.
  cbn [bind_coro catch_coro]. eexists. reflexivity.
Qed.

Lemma all_in_flight force (n : nat) : forall w,
  needs_refresh w ->
  exists ks,
    length ks = n
    /\ reachable
         (mkLoop w (replicate n (Ready (check_and_refresh_token force))))
         (mkLoop (match n with O => w | S _ => reloaded w end)
                 (map (Suspended (refresh_request (reloaded w))) ks)).
Proof.
  induction n as [|n IH]; intros w Hw.
  - exists []. split; [reflexivity | apply reach_refl].
  - destruct (first_await force w Hw) as [k Hk].
    destruct (IH (reloaded w) (needs_refresh_reloaded w Hw)) as (ks & Hlen & Hreach).
    rewrite reloaded_idem in Hreach.
    assert (Hsame : match n with O => reloaded w | S _ => reloaded w end = reloaded w)
      by (destruct n; reflexivity).
    rewrite Hsame in Hreach.
    exists (k :: ks). split; [cbn; now rewrite Hlen|].
    eapply reachable_trans.
    + apply reachable_one.
      apply (step_start
               (mkLoop w (replicate (S n) (Ready (check_and_refresh_token force))))
               0 (check_and_refresh_token force) eq_refl).
    + cbn [shared threads]. rewrite Hk. cbn [settle fst snd].
      apply (reachable_cons (Suspended (refresh_request (reloaded w)) k) _ _ Hreach).
Qed.

Lemma refresh_in_flight_suspended {A} req (ks : list (result response -> world -> coro A)) w :
  is_refresh_call req = true ->
  refresh_in_flight (mkLoop w (map (Suspended req) ks)) = length ks.
Proof.
  intros Hreq. unfold refresh_in_flight. cbn [threads].
  induction ks as [|k ks IH]; [reflexivity|]. cbn. rewrite Hreq. cbn.
  now rewrite IH.
Qed.

(** C7, amended.  [check_and_refresh_token] takes no lock and keeps no
    record of a refresh in flight; reloading [.env] at entry only shows a
    caller what earlier refreshes have already written.  So of [n] callers
    started side by side without a token at hand and without an accounts
    file, each sends its own refresh request, and there is a schedule in
    which all [n] requests are in flight at once. *)
Theorem every_caller_refreshes force (n : nat) w :
  needs_refresh w ->
  exists l,
    reachable (mkLoop w (replicate n (Ready (check_and_refresh_token force)))) l
    /\ refresh_in_flight l = n
    /\ Forall (fun th => exists k, th = Suspended (refresh_request (reloaded w)) k)
              (threads l).
Proof.
  intros Hw. destruct (all_in_flight force n w Hw) as (ks & Hlen & Hreach).
  eexists. split; [exact Hreach|]. split.
  - rewrite refresh_in_flight_suspended by reflexivity. exact Hlen.
  - cbn [threads]. apply Forall_forall. intros th Hin.
    apply list_elem_of_In, in_map_iff in Hin as (k & <- & _). now exists k.
Qed.

End Callers.

(** C7, refuted as stated: two callers started in an empty world are
    both suspended on their refresh request. *)
Lemma single_flight_as_stated_fails : ~ single_flight_as_stated.
Proof.
  intros Hsingle.
  destruct (@all_in_flight Reference.platform false 2 empty_world)
    as (ks & Hlen & Hreach); [split; reflexivity|].
  apply (Hsingle Reference.platform) in Hreach.
  rewrite refresh_in_flight_suspended in Hreach by reflexivity. lia.
Qed.

Lemma every_caller_refreshes_witness :
  exists l,
    reachable
      (mkLoop empty_world
         (replicate 3 (Ready (@check_and_refresh_token Reference.platform true))))
      l
    /\ refresh_in_flight l = 3%nat
    /\ Forall (fun th => exists k,
                 th = Suspended (@refresh_request Reference.platform
                                   (reloaded empty_world)) k)
              (threads l).
Proof.
  apply (@every_caller_refreshes Reference.platform true 3 empty_world).
  split; reflexivity.
Defined.

End AuthFacts.

(* ===================================================================== *)
(** * More on the stream adaptor                                          *)
(* ===================================================================== *)

Module ReFacts.

Lemma strip_prefix_app p : forall s r,
  PyStr.strip_prefix p s = Some r -> s = p ++ r.
Proof.
  induction p as [|a p IH]; intros s r; cbn.
  - now intros [= ->].
  - destruct s as [|b s]; [discriminate|].
    destruct (Ascii.eqb_spec a b) as [->|]; [|discriminate].
    intros Hs. now rewrite (IH _ _ Hs).
Qed.

Lemma strip_prefix_lower p : forall s r,
  PyStr.strip_prefix p s = Some r ->
  PyStr.strip_prefix (PyStr.lower p) (PyStr.lower s) = Some (PyStr.lower r).
Proof.
  induction p as [|a p IH]; intros s r; cbn.
  - now intros [= ->].
  - destruct s as [|b s]; [discriminate|]. cbn.
    destruct (Ascii.eqb_spec a b) as [->|]; [|discriminate].
    rewrite Ascii.eqb_refl. apply IH.
Qed.

Lemma startswith_lower p s :
  PyStr.startswith p s = true ->
  PyStr.startswith (PyStr.lower p) (PyStr.lower s) = true.
Proof.
  unfold PyStr.startswith.
  destruct (PyStr.strip_prefix p s) eqn:Hp; [|discriminate].
  now rewrite (strip_prefix_lower _ _ _ Hp).
Qed.

Lemma contains_lower p s :
  PyStr.contains p s = true ->
  PyStr.contains (PyStr.lower p) (PyStr.lower s) = true.
Proof.
  induction s as [|c s IH].
  - cbn [PyStr.contains]. rewrite orb_false_r. intros Hp.
    apply startswith_lower in Hp. cbn [PyStr.lower PyStr.contains] in *.
    now rewrite Hp.
  - cbn [PyStr.contains]. intros [Hp | Hs]%orb_prop.
    + apply startswith_lower in Hp. cbn [PyStr.lower PyStr.contains] in *.
      now rewrite Hp.
    + cbn [PyStr.lower PyStr.contains]. rewrite (IH Hs). apply orb_true_r.
Qed.

(** *** Folding leaves an ASCII needle where it is *)

Lemma fold_special_ascii c s :
  (nat_of_ascii c <? 128)%nat = true ->
  Re.fold_special (String c s) = String c (Re.fold_special s).
Proof.
  intros Hc%Nat.ltb_lt. cbn [Re.fold_special].
  destruct s as [|b s2]; [reflexivity|]. cbv zeta.
  destruct (Nat.eqb_spec (nat_of_ascii c) 196) as [E|_]; [lia|].
  destruct (Nat.eqb_spec (nat_of_ascii c) 197) as [E|_]; [lia|].
  destruct (Nat.eqb_spec (nat_of_ascii c) 226) as [E|_]; [lia|].
  cbn [andb]. destruct s2; reflexivity.
Qed.

Lemma fold_special_app p : forall s,
  PyStr.isascii p = true -> Re.fold_special (p ++ s) = p ++ Re.fold_special s.
Proof.
  induction p as [|c p IH]; intros s; [reflexivity|].
  cbn [PyStr.isascii]. intros [Hc Hp]%andb_prop.
  change (String c p ++ s) with (String c (p ++ s)).
  rewrite (fold_special_ascii _ _ Hc), (IH _ Hp). reflexivity.
Qed.

Lemma strip_prefix_self p : forall s, PyStr.strip_prefix p (p ++ s) = Some s.
Proof.
  induction p as [|c p IH]; intros s; [reflexivity|].
  change (String c p ++ s) with (String c (p ++ s)). cbn [PyStr.strip_prefix].
  now rewrite Ascii.eqb_refl.
Qed.

Lemma startswith_other c p b s :
  nat_of_ascii c <> nat_of_ascii b ->
  PyStr.startswith (String c p) (String b s) = false.
Proof.
  intros Hne. unfold PyStr.startswith. cbn [PyStr.strip_prefix].
  destruct (Ascii.eqb_spec c b) as [->|_]; [contradiction | reflexivity].
Qed.

Lemma contains_cons p c s :
  PyStr.contains p s = true -> PyStr.contains p (String c s) = true.
Proof. intros Hs. cbn [PyStr.contains]. rewrite Hs. apply orb_true_r. Qed.

Lemma contains_fold_bounded c p (n : nat) : forall s,
  PyStr.isascii (String c p) = true ->
  (String.length s <= n)%nat ->
  PyStr.contains (String c p) s = true ->
  PyStr.contains (String c p) (Re.fold_special s) = true.
Proof.
  induction n as [|n IH]; intros s Hp Hlen.
  - destruct s; [|cbn in Hlen; lia]. intros Hs. exact Hs.
  - destruct s as [|a s1]; [intros Hs; exact Hs|].
    cbn [String.length] in Hlen. cbn [PyStr.contains].
    intros [Hhere | Hs1]%orb_prop.
    + unfold PyStr.startswith in Hhere.
      destruct (PyStr.strip_prefix (String c p) (String a s1)) as [r|] eqn:Hr;
        [|discriminate].
      apply strip_prefix_app in Hr. rewrite Hr, (fold_special_app _ _ Hp).
      change (String c p ++ Re.fold_special r)
        with (String c (p ++ Re.fold_special r)).
      cbn [PyStr.contains]. unfold PyStr.startswith.
      change (String c (p ++ Re.fold_special r))
        with (String c p ++ Re.fold_special r).
      now rewrite strip_prefix_self.
    + assert (Hc : (nat_of_ascii c < 128)%nat).
      { cbn [PyStr.isascii] in Hp. apply andb_prop in Hp as [Hc _].
        now apply Nat.ltb_lt. }
      destruct s1 as [|b s2]; [discriminate Hs1|].
      cbn [PyStr.contains] in Hs1. cbn [String.length] in Hlen.
      cbn [Re.fold_special]. cbv zeta.
      destruct ((nat_of_ascii a =? 196)%nat
                && ((nat_of_ascii b =? 176)%nat || (nat_of_ascii b =? 177)%nat))
        eqn:Hi.
      { apply contains_cons, IH; [exact Hp | lia |].
        rewrite startswith_other in Hs1; [exact Hs1|].
        apply andb_prop in Hi as [_ [Hb%Nat.eqb_eq | Hb%Nat.eqb_eq]%orb_prop]; lia. }
      destruct ((nat_of_ascii a =? 197)%nat && (nat_of_ascii b =? 191)%nat) eqn:Hl.
      { apply contains_cons, IH; [exact Hp | lia |].
        rewrite startswith_other in Hs1; [exact Hs1|].
        apply andb_prop in Hl as [_ Hb%Nat.eqb_eq]. lia. }
      assert (Hrest : PyStr.contains (String c p)
                        (String a (Re.fold_special (String b s2))) = true).
      { apply contains_cons, IH; [exact Hp | cbn [String.length]; lia |].
        cbn [PyStr.contains]. exact Hs1. }
      destruct s2 as [|d s3]; [exact Hrest|].
      destruct ((nat_of_ascii a =? 226)%nat && (nat_of_ascii b =? 132)%nat
                && (nat_of_ascii d =? 170)%nat) eqn:Hk; [|exact Hrest].
      apply andb_prop in Hk as [[_ Hb%Nat.eqb_eq]%andb_prop Hd%Nat.eqb_eq].
      cbn [String.length] in Hlen.
      apply contains_cons, IH; [exact Hp | lia |].
      rewrite startswith_other in Hs1 by lia. cbn [orb PyStr.contains] in Hs1.
      rewrite startswith_other in Hs1 by lia. exact Hs1.
Qed.

Lemma contains_fold c p s :
  PyStr.isascii (String c p) = true ->
  PyStr.contains (String c p) s = true ->
  PyStr.contains (String c p) (Re.fold_special s) = true.
Proof. intros Hp. now apply (contains_fold_bounded c p (String.length s)). Qed.

Lemma search_here r s : Re.match_here r s = true -> Re.search r s = true.
Proof. intros Hm. destruct s; cbn; now rewrite Hm. Qed.

Lemma search_app_r r p : forall s,
  Re.search r s = true -> Re.search r (p ++ s) = true.
Proof.
  induction p as [|c p IH]; intros s Hs; [exact Hs|].
  change (String c p ++ s) with (String c (p ++ s)). cbn [Re.search].
  rewrite (IH _ Hs). apply orb_true_r.
Qed.

Lemma search_inv r : forall s,
  Re.search r s = true -> exists p s', s = p ++ s' /\ Re.match_here r s' = true.
Proof.
  induction s as [|c s IH]; cbn.
  - rewrite orb_false_r. intros Hm. now exists "", "".
  - intros [Hm | Hs]%orb_prop.
    + now exists "", (String c s).
    + destruct (IH Hs) as (p & s' & -> & Hm). now exists (String c p), s'.
Qed.

Lemma dot_star_inv k : forall s,
  Re.dot_star k s = true -> exists p s', s = p ++ s' /\ k s' = true.
Proof.
  induction s as [|c s IH]; cbn.
  - rewrite orb_false_r. intros Hk. now exists "", "".
  - intros [Hk | Hs]%orb_prop.
    + now exists "", (String c s).
    + destruct (Ascii.eqb c Re.newline); [discriminate|].
      destruct (IH Hs) as (p & s' & -> & Hk). now exists (String c p), s'.
Qed.

(** A match of [a.*b] holds a match of [b]. *)
Lemma search_chain a b s :
  Re.search (Re.Cat (Re.Lit a) (Re.Cat Re.DotStar (Re.Lit b))) s = true ->
  Re.search (Re.Lit b) s = true.
Proof.
  intros (p & s1 & -> & Hm)%search_inv. apply search_app_r.
  unfold Re.match_here in Hm. cbn in Hm.
  destruct (PyStr.strip_prefix a s1) as [s2|] eqn:Ha; [|discriminate].
  apply strip_prefix_app in Ha as ->. apply search_app_r.
  apply dot_star_inv in Hm as (q & s3 & -> & Hb). apply search_app_r.
  apply search_here. exact Hb.
Qed.

End ReFacts.

Module HandlerMore.
Import Handler HandlerFacts.

Lemma emitted_by_branch (h : WarpResponseHandler) (e : json) :
  fst (handle_sse_event h e) =
    if is_rollback e || is_stuck_only e then
      if retry_count h <? max_retries h
      then RetryMarker (retry_count h + 1) else Fallback
    else PassThrough e.
Proof.
  destruct (is_begin e) eqn:Hb.
  - rewrite (handle_begin _ _ Hb). unfold is_rollback, is_stuck_only.
    now rewrite Hb.
  - destruct (is_rollback e) eqn:Hr.
    + rewrite (handle_rollback _ _ Hr). unfold spec_rollback_step. cbn.
      destruct (retry_count h <? max_retries h); reflexivity.
    + destruct (is_commit e) eqn:Hc.
      * rewrite (handle_commit _ _ Hc). unfold is_commit, is_stuck_only in *.
        apply andb_prop in Hc as [_ Hc]. now rewrite Hc, andb_false_r.
      * destruct (is_stuck_only e) eqn:Hs.
        -- rewrite (handle_stuck _ _ Hs). cbn.
           destruct (retry_count h <? max_retries h); reflexivity.
        -- now rewrite (handle_other _ _ Hb Hr Hc Hs).
Qed.

Lemma handle_retry_range h e :
  0 <= retry_count h <= max_retries h ->
  0 <= retry_count (snd (handle_sse_event h e)) <= max_retries h.
Proof.
  intros Hrange. unfold handle_sse_event.
  repeat match goal with
         | |- context [if ?b then _ else _] => destruct b eqn:?
         end; cbn in *; try lia;
    match goal with H : (_ <? _) = true |- _ => apply Z.ltb_lt in H end; lia.
Qed.

(** X2.  The retry counter starts in range and stays in range: with a
    non-negative [max_retries], after any stream of events
    [0 <= retry_count <= max_retries], and [max_retries] is what it
    was. *)
Theorem retry_count_in_range (events : list json) : forall h,
  0 <= retry_count h <= max_retries h ->
  let h' := snd (process_stream h events) in
  0 <= retry_count h' <= max_retries h' /\ max_retries h' = max_retries h.
Proof.
  induction events as [|e events IH]; intros h Hrange; [cbn; lia|].
  rewrite process_stream_cons. cbn [snd].
  pose proof (handle_retry_range h e Hrange) as Hstep.
  pose proof (handle_max_retries h e) as Hmax. rewrite <- Hmax in Hstep.
  destruct (IH _ Hstep) as [Hr Hm]. cbn zeta in *. split; [exact Hr | congruence].
Qed.

Lemma retry_count_in_range_witness :
  let h' :=
    snd (process_stream (init 2)
           (map action_event
              [ "begin_transaction"; "rollback_transaction"; "commit_transaction";
                "rollback_transaction"; "rollback_transaction" ])) in
  0 <= retry_count h' <= max_retries h' /\ max_retries h' = 2.
Proof.
  apply (retry_count_in_range
           (map action_event
              [ "begin_transaction"; "rollback_transaction"; "commit_transaction";
                "rollback_transaction"; "rollback_transaction" ])
           (init 2)).
  cbn. lia.
Defined.

(** X3.  Exhaustion lasts until the next [begin_transaction]: once
    [retry_count] has reached [max_retries], a stream in which no event
    holds a begin action gets no retry marker at all and leaves the
    counter where it is.  Every event in it that holds a rollback action
    is answered with the fallback message; every event that holds a
    commit action and no rollback action is forwarded as it came, and
    does not give the retries back; every other event is forwarded as it
    came or answered with the fallback message. *)
Theorem exhausted_until_begin (events : list json) : forall h,
  max_retries h <= retry_count h ->
  count is_begin events = 0 ->
  let '(out, h') := process_stream h events in
  count is_retry out = 0
  /\ retry_count h' = retry_count h
  /\ forall i e, events !! i = Some e ->
       (out !! i = Some Fallback \/ out !! i = Some (PassThrough e))
       /\ (_contains_action e "rollback_transaction" = true ->
           out !! i = Some Fallback)
       /\ (_contains_action e "rollback_transaction" = false ->
           _contains_action e "commit_transaction" = true ->
           out !! i = Some (PassThrough e)).
Proof.
  induction events as [|e events IH]; intros h Hex Hnb.
  - cbn. split; [reflexivity|]. split; [reflexivity|].
    intros i e. now rewrite lookup_nil.
  - rewrite count_cons in Hnb.
    assert (Hb : is_begin e = false).
    { destruct (is_begin e); [|reflexivity]. unfold count in Hnb. lia. }
    rewrite Hb in Hnb. cbn in Hnb.
    rewrite process_stream_cons.
    pose proof (emitted_by_branch h e) as Hout.
    assert (Hlt : (retry_count h <? max_retries h) = false) by (apply Z.ltb_ge; lia).
    rewrite Hlt in Hout.
    assert (Hrc : retry_count (snd (handle_sse_event h e)) = retry_count h).
    { unfold handle_sse_event. unfold is_begin in Hb. rewrite Hb.
      cbn. rewrite Hlt.
      repeat match goal with
             | |- context [if ?b then _ else _] => destruct b
             end; reflexivity. }
    pose proof (handle_max_retries h e) as Hmax.
    specialize (IH (snd (handle_sse_event h e))).
    rewrite Hrc, Hmax in IH. specialize (IH Hex Hnb).
    destruct (process_stream (snd (handle_sse_event h e)) events) as [out h'].
    cbn [fst snd]. destruct IH as (Hcount & Hsame & Hfall).
    rewrite count_cons, Hcount. split; [|split; [exact Hsame|]].
    + rewrite Hout. destruct (is_rollback e || is_stuck_only e); reflexivity.
    + intros [|i] e'; cbn; [|apply Hfall].
      intros [= <-]. rewrite Hout. unfold is_rollback, is_stuck_only.
      rewrite Hb. cbn [negb andb].
      destruct (_contains_action e "rollback_transaction");
        [repeat split; auto; discriminate|].
      destruct (_contains_action e "commit_transaction"); cbn [negb andb orb].
      * repeat split; auto; discriminate.
      * destruct (_is_stuck_response e); repeat split; auto; discriminate.
Qed.

Lemma exhausted_until_begin_witness :
  let '(out, h') :=
    process_stream
      {| transaction_state := FAILED; retry_count := 2; max_retries := 2 |}
      (map action_event ["rollback_transaction"; "commit_transaction";
                         "rollback_transaction"]) in
  count is_retry out = 0
  /\ retry_count h' = 2
  /\ forall i e,
       map action_event ["rollback_transaction"; "commit_transaction";
                         "rollback_transaction"] !! i = Some e ->
       (out !! i = Some Fallback \/ out !! i = Some (PassThrough e))
       /\ (_contains_action e "rollback_transaction" = true ->
           out !! i = Some Fallback)
       /\ (_contains_action e "rollback_transaction" = false ->
           _contains_action e "commit_transaction" = true ->
           out !! i = Some (PassThrough e)).
Proof.
  apply (exhausted_until_begin
           (map action_event ["rollback_transaction"; "commit_transaction";
                              "rollback_transaction"])
           {| transaction_state := FAILED; retry_count := 2; max_retries := 2 |}).
  - cbn. lia.
  - reflexivity.
Defined.

(** X5.  Of the three indicators of the stuck signature the first two
    decide: [_is_stuck_response] is true exactly when the case-insensitive
    search for [rollback_transaction] or the one for
    [update_task_description] finds a match in the serialized event.  The
    third indicator matches only where the first does, and the test for
    content that follows the loop is reached only with the second
    indicator unmatched, where it finds nothing. *)
Theorem stuck_signature_two_indicators (e : json) :
  _is_stuck_response e =
    Re.search_IGNORECASE (Re.Lit "rollback_transaction") (Py.dumps e)
    || Re.search_IGNORECASE (Re.Lit "update_task_description") (Py.dumps e).
Proof.
  unfold _is_stuck_response. cbn [existsb stuck_indicators].
  unfold Re.search_IGNORECASE. cbn [Re.lower_re].
  change (PyStr.lower "rollback_transaction") with "rollback_transaction".
  change (PyStr.lower "update_task_description") with "update_task_description".
  change (PyStr.lower "begin_transaction") with "begin_transaction".
  rewrite !AuthFacts.search_lit.
  set (s := Py.dumps e). set (folded := Re.fold_special (PyStr.lower s)).
  destruct (PyStr.contains "rollback_transaction" folded) eqn:Hr; [reflexivity|].
  destruct (PyStr.contains "update_task_description" folded) eqn:Hu; [reflexivity|].
  destruct (Re.search _ folded) eqn:Hc.
  - apply ReFacts.search_chain in Hc. rewrite AuthFacts.search_lit in Hc.
    congruence.
  - cbn [orb]. destruct (PyStr.contains "update_task_description" s) eqn:Hu';
      [|reflexivity].
    apply ReFacts.contains_lower in Hu'.
    change (PyStr.lower "update_task_description")
      with "update_task_description" in Hu'.
    apply ReFacts.contains_fold in Hu'; [|reflexivity].
    fold folded in Hu'. congruence.
Qed.

(** X6.  The retry messages come round in a cycle of three: the marker
    of attempt [n + 3] is the marker of attempt [n], for every integer
    [n]. *)
Theorem retry_marker_cycle (attempt : Z) :
  to_event (RetryMarker (attempt + 3)) = to_event (RetryMarker attempt).
Proof.
  cbn [to_event]. unfold _create_retry_response. cbn [length retry_messages].
  replace (attempt + 3 - 1) with (attempt - 1 + 1 * 3) by lia.
  now rewrite Z_mod_plus_full.
Qed.

End HandlerMore.

(* ===================================================================== *)
(** * More on the risk classifier and the prompt generator                *)
(* ===================================================================== *)

Module RiskMore.
Import Handler RiskFacts.

(** The message with the advisory appended, as the second branch of
    [transform_risky_request] builds it. *)
Definition advised (user_message : string) : string :=
  PyStr.strip ("
" ++ user_message ++ "

请注意：我会以代码示例的形式为您提供解决方案。
            ").

Lemma risk_score_nonnegative (user_message : string) :
  (0 <= assess_file_operation_risk user_message)%Q.
Proof.
  unfold assess_file_operation_risk.
  destruct (String.eqb user_message ""); [lra|].
  apply Q.min_glb; [|lra].
  pose proof (points_ge
    (fun pattern => Re.search_IGNORECASE pattern user_message) 1
    risk_patterns 0%Q ltac:(lra)) as Hp.
  pose proof (points_ge
    (fun keyword => PyStr.contains (PyStr.lower keyword) (PyStr.lower user_message))
    (1 # 2) file_operation_keywords (pattern_points user_message) ltac:(lra)) as Hk.
  change (points _ 1 risk_patterns 0%Q) with (pattern_points user_message) in Hp.
  change (points _ (1 # 2) file_operation_keywords (pattern_points user_message))
    with (keyword_points (pattern_points user_message) user_message) in Hk.
  cbn [length risk_patterns file_operation_keywords].
  change (inject_Z (Z.of_nat (8 + 12))) with (20 # 1)%Q.
  unfold Qdiv. change (/ (20 # 1))%Q with (1 # 20)%Q. lra.
Qed.

(** X7.  The score of every message lies between 0 and 0.7, so a
    request that is scored and then transformed is never wrapped into the
    teaching instruction: it comes back unchanged or with the advisory
    appended. *)
Theorem scored_request_never_wrapped (user_message : string) :
  let risk_score := assess_file_operation_risk user_message in
  (0 <= risk_score)%Q /\ (risk_score <= 7 # 10)%Q
  /\ transform_risky_request user_message risk_score =
       if Qgtb risk_score (4 # 10) then advised user_message else user_message.
Proof.
  cbn zeta. split; [apply risk_score_nonnegative|].
  split; [apply risk_score_at_most_seven_tenths|].
  unfold transform_risky_request. rewrite wrapper_never_selected. reflexivity.
Qed.

Lemma lower_empty s : PyStr.lower s = "" -> s = "".
Proof. destruct s; [reflexivity | discriminate]. Qed.

(** X8.  The score does not see the case of the letters A to Z: two
    messages that are equal once these letters are lowered, every other
    byte left as it is, have the same score. *)
Theorem risk_score_ignores_case (m1 m2 : string) :
  PyStr.lower m1 = PyStr.lower m2 ->
  assess_file_operation_risk m1 = assess_file_operation_risk m2.
Proof.
  intros Hlow. unfold assess_file_operation_risk.
  assert (Hempty : String.eqb m1 "" = String.eqb m2 "").
  { destruct (String.eqb_spec m1 ""), (String.eqb_spec m2 ""); subst;
      try reflexivity; cbn in Hlow.
    - symmetry in Hlow. now apply lower_empty in Hlow.
    - now apply lower_empty in Hlow. }
  rewrite Hempty.
  unfold keyword_points, pattern_points, Re.search_IGNORECASE.
  now rewrite Hlow.
Qed.

Lemma risk_score_ignores_case_witness :
  assess_file_operation_risk "Create A FILE" = assess_file_operation_risk "create a file".
Proof.
  apply (risk_score_ignores_case "Create A FILE" "create a file"). reflexivity.
Defined.

Lemma points_hit {A} (hit : A -> bool) (c : Q) (l : list A) : forall start,
  (0 <= c)%Q -> existsb hit l = true -> (start + c <= points hit c l start)%Q.
Proof.
  unfold points. induction l as [|x l IH]; intros start Hc; [discriminate|].
  cbn [existsb fold_left]. destruct (hit x) eqn:Hx.
  - intros _.
    pose proof (points_ge hit c l (start + c)%Q Hc) as Hge. exact Hge.
  - cbn [orb]. intros Hl. apply (IH start Hc Hl).
Qed.

Lemma existsb_lowered (s : string) (l : list string) :
  existsb (fun keyword => PyStr.contains (PyStr.lower keyword) s) l
  = existsb (fun keyword => PyStr.contains keyword s) (map PyStr.lower l).
Proof. induction l as [|k l IH]; cbn; [reflexivity | now rewrite IH]. Qed.

(** X9.  The prompt generator and the classifier agree on the requests
    the generator restricts: a request that holds one of the generator's
    keywords gets the prompt without file operations, and its risk score
    is at least 1/40 (half a point over twenty). *)
Theorem restricted_prompt_has_risk (user_request : string) :
  Generator.contains_file_ops user_request = true ->
  Generator.generate_system_prompt user_request
    = Generator._generate_no_file_ops_prompt
  /\ (1 # 40 <= assess_file_operation_risk user_request)%Q.
Proof.
  intros Hops. split.
  - unfold Generator.generate_system_prompt. now rewrite Hops.
  - unfold assess_file_operation_risk.
    destruct (String.eqb_spec user_request "") as [->|_];
      [vm_compute in Hops; discriminate|].
    assert (Hhit : existsb
              (fun keyword =>
                 PyStr.contains (PyStr.lower keyword) (PyStr.lower user_request))
              file_operation_keywords = true).
    { rewrite existsb_lowered.
      change (map PyStr.lower file_operation_keywords)
        with (Generator.file_operation_keywords
                ++ ["apply_file_diffs"; "create_files"; "read_files"])%list.
      rewrite existsb_app. unfold Generator.contains_file_ops in Hops.
      now rewrite Hops. }
    pose proof (points_hit _ (1 # 2) file_operation_keywords
                  (pattern_points user_request) ltac:(lra) Hhit) as Hk.
    change (points _ (1 # 2) file_operation_keywords (pattern_points user_request))
      with (keyword_points (pattern_points user_request) user_request) in Hk.
    pose proof (points_ge
      (fun pattern => Re.search_IGNORECASE pattern user_request) 1
      risk_patterns 0%Q ltac:(lra)) as Hp.
    change (points _ 1 risk_patterns 0%Q) with (pattern_points user_request) in Hp.
    apply Q.min_glb; [|lra].
    cbn [length risk_patterns file_operation_keywords].
    change (inject_Z (Z.of_nat (8 + 12))) with (20 # 1)%Q.
    unfold Qdiv. change (/ (20 # 1))%Q with (1 # 20)%Q. lra.
Qed.

Lemma restricted_prompt_has_risk_witness :
  Generator.generate_system_prompt "Please SAVE the result"
    = Generator._generate_no_file_ops_prompt
  /\ (1 # 40 <= assess_file_operation_risk "Please SAVE the result")%Q.
Proof.
  apply (restricted_prompt_has_risk "Please SAVE the result"). reflexivity.
Defined.

End RiskMore.

(* ===================================================================== *)
(** * More on the token codec                                             *)
(* ===================================================================== *)

Module CodecMore.
Import Auth AuthFacts.

Lemma len_app s : forall t, PyData.len (s ++ t) = (PyData.len s + PyData.len t)%nat.
Proof.
  induction s as [|c s IH]; intros t; [reflexivity|].
  change (String c s ++ t) with (String c (s ++ t)). cbn [PyData.len].
  rewrite IH. destruct (_ && _); reflexivity.
Qed.

Lemma len_pad (n : nat) : PyData.len (PyStr.repeat_char "=" n) = n.
Proof. induction n as [|n IH]; [reflexivity|]. cbn [PyStr.repeat_char]. 
  change (PyData.len (String "=" (PyStr.repeat_char "=" n)))
    with (S (PyData.len (PyStr.repeat_char "=" n))). now rewrite IH.
Qed.

(** X10.  Whatever the middle segment of a token, what goes to the
    base64 decoder has a number of characters that is a multiple of four,
    and starts with the segment: between none and three padding
    characters are appended. *)
Theorem padded_to_multiple_of_four (payload_b64 : string) :
  (PyData.len (padded payload_b64) mod 4 = 0)%nat
  /\ exists n : nat,
       (n <= 3)%nat /\ padded payload_b64 = payload_b64 ++ PyStr.repeat_char "=" n.
Proof.
  unfold padded.
  pose proof (Nat.mod_upper_bound (PyData.len payload_b64) 4 ltac:(lia)) as Hlt.
  pose proof (Nat.div_mod_eq (PyData.len payload_b64) 4) as Hdiv.
  destruct (Nat.eqb_spec (4 - PyData.len payload_b64 mod 4) 4) as [Heq|Hne]; cbn [negb].
  - split; [lia|]. exists 0%nat. split; [lia|].
    cbn [PyStr.repeat_char]. clear.
    induction payload_b64 as [|c s IH]; [reflexivity|].
    change (String c s ++ "") with (String c (s ++ "")). now rewrite <- IH.
  - split.
    + rewrite len_app, len_pad.
      replace (PyData.len payload_b64 + (4 - PyData.len payload_b64 mod 4))%nat
        with (0 + (PyData.len payload_b64 / 4 + 1) * 4)%nat by lia.
      now rewrite Nat.Div0.mod_add.
    + exists (4 - PyData.len payload_b64 mod 4)%nat. split; [lia | reflexivity].
Qed.

Section Expiry.
Context `{Platform}.

(** X11.  Expiry is monotone: a token that is not expired at some time
    with some buffer is not expired at any earlier time nor with any
    smaller buffer. *)
Theorem not_expired_earlier (now now' : Q) (token : json) (buffer buffer' : Z) :
  is_token_expired_at now token buffer = Ok false ->
  (now' <= now)%Q -> buffer' <= buffer ->
  is_token_expired_at now' token buffer' = Ok false.
Proof.
  unfold is_token_expired_at. intros Hnot Hnow Hbuf.
  destruct (Py.falsy (decode_jwt_payload token)); [discriminate|].
  destruct (Py.contains "exp" (decode_jwt_payload token)) as [has|e];
    [|discriminate]. cbn in *.
  destruct has; [|discriminate]. cbn in *.
  destruct (Py.getitem (decode_jwt_payload token) "exp") as [v|e]; [|discriminate].
  cbn in *. destruct (Py.as_int v) as [n|e]; [|discriminate].
  cbn [mbind result_bind rbind] in *.
  destruct (Py.as_float n) as [expiry|e]; [|discriminate].
  cbn [mbind result_bind rbind] in *.
  injection Hnot as Hnot. f_equal.
  destruct (Qle_bool (inject_Z expiry - now') (inject_Z (buffer' * 60))) eqn:Hle;
    [|reflexivity].
  apply Qle_bool_iff in Hle.
  assert (Hb : (inject_Z (buffer' * 60) <= inject_Z (buffer * 60))%Q)
    by (rewrite <- Zle_Qle; lia).
  assert (Hle' : (inject_Z expiry - now <= inject_Z (buffer * 60))%Q) by lra.
  apply Qle_bool_iff in Hle'. congruence.
Qed.

(** X12.  A token that is not a string of exactly three dot-separated
    parts counts as expired at every time and with every buffer. *)
Theorem malformed_token_is_expired (now : Q) (token : json) (buffer : Z) :
  (forall s, token = JStr s -> length (PyStr.split "." s) <> 3%nat) ->
  is_token_expired_at now token buffer = Ok true.
Proof.
  intros Hparts. unfold is_token_expired_at.
  assert (Hd : decode_jwt_payload token = JDict []).
  { destruct token; try reflexivity. apply decode_wrong_part_count.
    now apply Hparts. }
  now rewrite Hd.
Qed.

End Expiry.

Lemma not_expired_earlier_witness :
  @is_token_expired_at Reference.platform 1600000000
    (JStr "h.eyJleHAiOjIwMDAwMDAwMDB9.s") 2 = Ok false.
Proof.
  apply (@not_expired_earlier Reference.platform 1700000000 1600000000
           (JStr "h.eyJleHAiOjIwMDAwMDAwMDB9.s") 5 2).
  - reflexivity.
  - vm_compute. discriminate.
  - lia.
Defined.

Lemma malformed_token_is_expired_witness :
  @is_token_expired_at Reference.platform 1700000000 (JStr "a.b") 5 = Ok true.
Proof.
  apply (@malformed_token_is_expired Reference.platform).
  intros s [= <-]. vm_compute. discriminate.
Defined.

End CodecMore.

(* ===================================================================== *)
(** * More on the account registry                                        *)
(* ===================================================================== *)

Module RegistryMore.
Import Auth AuthFacts.

Lemma startswith_slash c p :
  PyStr.startswith "/" (String c p) = Ascii.eqb c "/".
Proof.
  unfold PyStr.startswith. cbn [PyStr.strip_prefix].
  rewrite Ascii.eqb_sym. now destruct (Ascii.eqb c "/").
Qed.

Lemma up_to_last_slash_none p :
  PyStr.contains "/" p = false -> up_to_last_slash p = "".
Proof.
  induction p as [|c p IH]; [reflexivity|].
  cbn [PyStr.contains up_to_last_slash]. rewrite startswith_slash.
  intros [-> ->]%orb_false_elim. reflexivity.
Qed.

Lemma dirname_bare p :
  PyStr.contains "/" p = false -> dirname p = "".
Proof.
  intros Hp. unfold dirname. now rewrite (up_to_last_slash_none p Hp).
Qed.

(** With a bare file name there is no directory to make:
    [os.makedirs] of the empty name fails, and the save with it, before
    the file is opened. *)
Lemma save_bare net file_path accounts w :
  PyStr.contains "/" file_path = false ->
  run net (save_accounts_to_file file_path accounts w) = (Ok false, w).
Proof. intros Hp. now rewrite run_save, (dirname_bare _ Hp). Qed.

Lemma load_result_bare file_path w :
  PyStr.contains "/" file_path = false ->
  (load_result file_path w).2 = w.
Proof.
  intros Hp. unfold load_result, can_save. rewrite (dirname_bare _ Hp).
  destruct (files w !! file_path) as [[v|]|]; try reflexivity.
  destruct v; try reflexivity.
  destruct (init_account_status l) as [[accounts updated]|e]; [|reflexivity].
  cbn [fst snd String.eqb negb andb]. now rewrite andb_false_r.
Qed.

(** C9, evaluated on the code.  The round trip fails for an accounts file
    given by its bare name.  [save_accounts_to_file] makes the directory
    of the path before it opens the file, and for a path without a
    directory part that is [os.makedirs] of the empty name, which raises:
    the save returns [False] and writes nothing, whatever the accounts and
    the state of the files, and a load from a file that was not there
    before returns the empty list, not the accounts. *)
Theorem bare_name_round_trip_fails net accounts w :
  run net (save_accounts_to_file "accounts.json" accounts w) = (Ok false, w)
  /\ (files w !! "accounts.json" = None ->
      run net (load_accounts_from_file "accounts.json" w) = (Ok [], w)).
Proof.
  split.
  - now apply save_bare.
  - intros Hnone. rewrite run_load. unfold load_result. now rewrite Hnone.
Qed.

(** X13.  An accounts file given by its bare name is read-only for the
    registry: with a path that has no directory part,
    [load_accounts_from_file] writes no status it fills in, and
    [update_account_status] returns [False] for every email and status and
    leaves the world as it was, so the selection after it is the selection
    before it. *)
Theorem bare_name_blocks_updates net file_path email status w :
  PyStr.contains "/" file_path = false ->
  (run net (load_accounts_from_file file_path w)).2 = w
  /\ run net (update_account_status file_path email status w) = (Ok false, w)
  /\ run net (get_current_account_from_file file_path
                (run net (update_account_status file_path email status w)).2)
     = run net (get_current_account_from_file file_path w).
Proof.
  intros Hp.
  assert (Hload : (load_result file_path w).2 = w) by now apply load_result_bare.
  assert (Hupd : run net (update_account_status file_path email status w)
                 = (Ok false, w)).
  { unfold update_account_status. rewrite run_try, run_bind, run_load.
    destruct (load_result file_path w) as [accounts w1]. cbn [fst snd] in *.
    subst w1. destruct accounts as [|a accounts]; [reflexivity|].
    rewrite run_bind, run_lift.
    destruct (set_first_status (a :: accounts) email status) as [[accounts'|]|e];
      try reflexivity.
    now rewrite (save_bare _ _ _ _ Hp). }
  split; [now rewrite run_load|]. split; [exact Hupd|]. now rewrite Hupd.
Qed.

(** X14.  Loading raises nothing and touches nothing but the accounts
    file: the environment, [.env], the clock and every other file are left
    as they were, and unless the file holds a JSON array the result is the
    empty list and nothing is written at all. *)
Theorem load_is_contained net file_path w :
  exists accounts w',
    run net (load_accounts_from_file file_path w) = (Ok accounts, w')
    /\ env_part w' = env_part w
    /\ files_writable w' = files_writable w
    /\ (forall other, other <> file_path -> files w' !! other = files w !! other)
    /\ match files w !! file_path with
       | Some (FJson (JList _)) => True
       | _ => accounts = [] /\ w' = w
       end.
Proof.
  rewrite run_load. eexists _, _. split; [reflexivity|].
  split; [apply load_frame|]. unfold load_result.
  destruct (files w !! file_path) as [[v|]|]; try (repeat split; reflexivity).
  destruct v; try (repeat split; reflexivity).
  destruct (init_account_status l) as [[accounts updated]|e];
    [|repeat split; reflexivity].
  cbn [fst snd]. destruct (updated && can_save file_path w);
    [|repeat split; reflexivity].
  repeat split. intros other Hne. cbn. now apply lookup_insert_ne.
Qed.

Lemma assoc_set_lookup {V} k (v : V) m : Py.assoc k (Py.assoc_set k v m) = Some v.
Proof.
  induction m as [|[k' v'] m IH]; cbn.
  - now rewrite String.eqb_refl.
  - destruct (String.eqb k k') eqn:Hk; cbn; rewrite ?String.eqb_refl, ?Hk; auto.
Qed.

(** An account the selection takes: it has a refresh token, and its
    status, [available] if it has none, is [available]. *)
Definition eligible (account : json) : bool :=
  match Py.get account "refresh_token" JNull,
        Py.get account "account_status" (JStr "available") with
  | Ok refresh_token, Ok status =>
      negb (Py.falsy refresh_token) && PyData.eq status (JStr "available")
  | _, _ => false
  end.

Lemma first_available_some accounts : forall account,
  first_available accounts = Ok (Some account) ->
  exists before after,
    accounts = (before ++ account :: after)%list
    /\ eligible account = true
    /\ Forall (fun a => eligible a = false) before.
Proof.
  induction accounts as [|a accounts IH]; intros account; [discriminate|].
  cbn [first_available]. cbn [mbind result_bind rbind].
  destruct (Py.get a "refresh_token" JNull) as [rt|e] eqn:Hrt; [|discriminate].
  cbn. destruct (Py.falsy rt) eqn:Hf.
  - intros Hrest. destruct (IH _ Hrest) as (before & after & -> & He & Hb).
    exists (a :: before), after. repeat split; auto.
    constructor; [|exact Hb]. unfold eligible. rewrite Hrt.
    destruct (Py.get a "account_status" _); [|reflexivity]. now rewrite Hf.
  - destruct (Py.get a "account_status" (JStr "available")) as [st|e] eqn:Hst;
      [|discriminate].
    cbn. destruct (PyData.eq st (JStr "available")) eqn:Heq.
    + intros [= <-]. exists [], accounts. repeat split; auto.
      unfold eligible. now rewrite Hrt, Hst, Hf, Heq.
    + intros Hrest. destruct (IH _ Hrest) as (before & after & -> & He & Hb).
      exists (a :: before), after. repeat split; auto.
      constructor; [|exact Hb]. unfold eligible. now rewrite Hrt, Hst, Hf, Heq.
Qed.

Lemma first_available_none accounts :
  first_available accounts = Ok None ->
  Forall (fun a => eligible a = false) accounts.
Proof.
  induction accounts as [|a accounts IH]; [constructor|].
  cbn [first_available]. cbn [mbind result_bind rbind].
  destruct (Py.get a "refresh_token" JNull) as [rt|e] eqn:Hrt; [|discriminate].
  cbn. destruct (Py.falsy rt) eqn:Hf.
  - intros Hrest. constructor; [|now apply IH]. unfold eligible. rewrite Hrt.
    destruct (Py.get a "account_status" _); [|reflexivity]. now rewrite Hf.
  - destruct (Py.get a "account_status" (JStr "available")) as [st|e] eqn:Hst;
      [|discriminate].
    cbn. destruct (PyData.eq st (JStr "available")) eqn:Heq; [discriminate|].
    intros Hrest. constructor; [|now apply IH].
    unfold eligible. now rewrite Hrt, Hst, Hf, Heq.
Qed.

(** X16.  The selection is first match: an account that
    [get_current_account_from_file] returns is one of the loaded accounts,
    has a refresh token and the status [available], and no account before
    it in the file has both; the empty dict is returned only when no loaded
    account has both. *)
Theorem selection_is_first_match net file_path w account w' :
  run net (get_current_account_from_file file_path w) = (Ok account, w') ->
  let accounts := (load_result file_path w).1 in
  if Py.falsy account
  then Forall (fun a => eligible a = false) accounts
  else exists before after,
         accounts = (before ++ account :: after)%list
         /\ eligible account = true
         /\ Forall (fun a => eligible a = false) before.
Proof.
  unfold get_current_account_from_file. rewrite run_bind, run_load.
  destruct (load_result file_path w) as [accounts w1]. cbn [fst snd].
  destruct accounts as [|a accounts].
  - intros [= <- _]. cbn. constructor.
  - rewrite run_bind, run_lift.
    destruct (first_available (a :: accounts)) as [[found|]|e] eqn:Hfirst;
      [| |discriminate].
    + intros [= <- _]. cbn zeta.
      destruct (first_available_some _ _ Hfirst) as (before & after & Heq & He & Hb).
      assert (Hne : Py.falsy found = false).
      { unfold eligible in He. destruct found; try discriminate.
        destruct m; [discriminate | reflexivity]. }
      rewrite Hne. now exists before, after.
    + intros [= <- _]. cbn [Py.falsy]. now apply first_available_none.
Qed.

Lemma set_first_status_some accounts email status : forall accounts',
  set_first_status accounts email status = Ok (Some accounts') ->
  exists before m after,
    accounts = (before ++ JDict m :: after)%list
    /\ accounts' =
         (before ++ JDict (Py.assoc_set "account_status" status m) :: after)%list
    /\ (exists e, Py.get (JDict m) "email" JNull = Ok e /\ PyData.eq e email = true)
    /\ Forall (fun a => exists e, Py.get a "email" JNull = Ok e
                                  /\ PyData.eq e email = false) before.
Proof.
  induction accounts as [|a accounts IH]; intros accounts'; [discriminate|].
  cbn [set_first_status]. cbn [mbind result_bind rbind].
  destruct (Py.get a "email" JNull) as [e|x] eqn:He; [|discriminate].
  cbn. destruct (PyData.eq e email) eqn:Heq.
  - destruct a; try discriminate. cbn. intros [= <-].
    exists [], m, accounts. repeat split; eauto.
  - destruct (set_first_status accounts email status) as [[rest|]|x];
      try discriminate.
    cbn. intros [= <-].
    destruct (IH rest eq_refl) as (before & m & after & -> & -> & Hm & Hb).
    exists (a :: before), m, after. repeat split; eauto.
Qed.

(** X17.  A status update changes one account: when
    [update_account_status] returns [True], the file holds the loaded
    accounts with the status set in the first account whose email equals
    the given one, every account before it has another email, and all other
    accounts, and their order, are as they were. *)
Theorem status_update_is_local net file_path email status w w' :
  run net (update_account_status file_path email status w) = (Ok true, w') ->
  exists before m after,
    (load_result file_path w).1 = (before ++ JDict m :: after)%list
    /\ files w' !! file_path =
         Some (FJson (JList (before
                 ++ JDict (Py.assoc_set "account_status" status m) :: after)%list))
    /\ Py.assoc "account_status" (Py.assoc_set "account_status" status m)
       = Some status
    /\ (exists e, Py.get (JDict m) "email" JNull = Ok e /\ PyData.eq e email = true)
    /\ Forall (fun a => exists e, Py.get a "email" JNull = Ok e
                                  /\ PyData.eq e email = false) before.
Proof.
  unfold update_account_status. rewrite run_try, run_bind, run_load.
  destruct (load_result file_path w) as [accounts w1]. cbn [fst snd].
  destruct accounts as [|a accounts]; [discriminate|].
  rewrite run_bind, run_lift.
  destruct (set_first_status (a :: accounts) email status) as [[accounts'|]|e]
    eqn:Hset; try discriminate.
  rewrite run_save.
  destruct (negb (String.eqb (dirname file_path) "") && files_writable w1);
    [|discriminate].
  intros [= <-].
  destruct (set_first_status_some _ _ _ _ Hset)
    as (before & m & after & Heq & -> & Hm & Hb).
  exists before, m, after. split; [exact Heq|]. split; [apply lookup_insert_eq|].
  split; [apply assoc_set_lookup|]. split; assumption.
Qed.

Definition two_accounts : world :=
  saved "data/accounts.json"
    [ JDict [("email", JStr "a@example.com"); ("refresh_token", JStr "ra");
             ("account_status", JStr "quota_exhausted")];
      JDict [("email", JStr "b@example.com"); ("refresh_token", JStr "rb")] ]
    empty_world.

Lemma selection_is_first_match_witness :
  exists before after,
    (load_result "data/accounts.json" two_accounts).1
    = (before
       ++ JDict [("email", JStr "b@example.com"); ("refresh_token", JStr "rb");
                 ("account_status", JStr "available")] :: after)%list
    /\ eligible (JDict [("email", JStr "b@example.com"); ("refresh_token", JStr "rb");
                        ("account_status", JStr "available")]) = true
    /\ Forall (fun a => eligible a = false) before.
Proof.
  exact (selection_is_first_match offline "data/accounts.json"
           two_accounts
           (JDict [("email", JStr "b@example.com"); ("refresh_token", JStr "rb");
                   ("account_status", JStr "available")])
           _ eq_refl).
Defined.

Lemma status_update_is_local_witness :
  exists before m after,
    (load_result "data/accounts.json" two_accounts).1
    = (before ++ JDict m :: after)%list
    /\ files (run offline
                (update_account_status "data/accounts.json"
                   (JStr "b@example.com") (JStr "invalid_token") two_accounts)).2
       !! "data/accounts.json" =
         Some (FJson (JList (before
                 ++ JDict (Py.assoc_set "account_status" (JStr "invalid_token") m)
                 :: after)%list))
    /\ Py.assoc "account_status"
         (Py.assoc_set "account_status" (JStr "invalid_token") m)
       = Some (JStr "invalid_token")
    /\ (exists e, Py.get (JDict m) "email" JNull = Ok e
                  /\ PyData.eq e (JStr "b@example.com") = true)
    /\ Forall (fun a => exists e, Py.get a "email" JNull = Ok e
                                  /\ PyData.eq e (JStr "b@example.com") = false)
              before.
Proof.
  apply (status_update_is_local offline "data/accounts.json"
           (JStr "b@example.com") (JStr "invalid_token") two_accounts).
  reflexivity.
Defined.

Lemma bare_name_blocks_updates_witness :
  (run offline (load_accounts_from_file "accounts.json"
                  (saved "accounts.json" sample_accounts empty_world))).2
  = saved "accounts.json" sample_accounts empty_world
  /\ run offline (update_account_status "accounts.json" (JStr "a@example.com")
                    (JStr "quota_exhausted")
                    (saved "accounts.json" sample_accounts empty_world))
     = (Ok false, saved "accounts.json" sample_accounts empty_world)
  /\ run offline
       (get_current_account_from_file "accounts.json"
          (run offline (update_account_status "accounts.json"
                          (JStr "a@example.com") (JStr "quota_exhausted")
                          (saved "accounts.json" sample_accounts empty_world))).2)
     = run offline (get_current_account_from_file "accounts.json"
                      (saved "accounts.json" sample_accounts empty_world)).
Proof.
  apply (bare_name_blocks_updates offline "accounts.json" (JStr "a@example.com")
           (JStr "quota_exhausted")
           (saved "accounts.json" sample_accounts empty_world)).
  reflexivity.
Defined.

End RegistryMore.

(* ===================================================================== *)
(** * More on the credential lifecycle                                    *)
(* ===================================================================== *)

Module AuthMore.
Import Auth AuthFacts Callers.

(** The requests a coroutine makes, in order, when it runs alone against
    the upstream [net]. *)
Fixpoint requests {A} (net : request -> result response) (c : coro A)
  : list request :=
  match c with
  | Await req w k => req :: requests net (k (net req) w)
  | _ => []
  end.

Lemma requests_bind_coro {A B} net (c : coro A) (f : A -> task B) :
  requests net (bind_coro c f) =
    (requests net c ++
     match run net c with
     | (Ok a, w) => requests net (f a w)
     | (Raise _, _) => []
     end)%list.
Proof.
  induction c as [a w | e w | req w k IH]; cbn; [reflexivity .. |].
  now rewrite IH.
Qed.

Lemma requests_catch_coro {A} net (c : coro A) (handler : exn -> task A) :
  requests net (catch_coro c handler) =
    (requests net c ++
     match run net c with
     | (Ok _, _) => []
     | (Raise e, w) => requests net (handler e w)
     end)%list.
Proof.
  induction c as [a w | e w | req w k IH]; cbn; [reflexivity .. |].
  now rewrite IH.
Qed.

Lemma requests_bind {A B} net (m : task A) (f : A -> task B) w :
  requests net ((m ≫= f) w) =
    (requests net (m w) ++
     match run net (m w) with
     | (Ok a, w') => requests net (f a w')
     | (Raise _, _) => []
     end)%list.
Proof. apply requests_bind_coro. Qed.

Lemma requests_try {A} net (m : task A) handler w :
  requests net (try_ m handler w) =
    (requests net (m w) ++
     match run net (m w) with
     | (Ok _, _) => []
     | (Raise e, w') => requests net (handler e w')
     end)%list.
Proof. apply requests_catch_coro. Qed.

Lemma bind_return {A B} (m : task A) (f : A -> task B) w a w' :
  m w = Return a w' -> (m ≫= f) w = f a w'.
Proof. intros Hm. unfold mbind, task_bind. now rewrite Hm. Qed.

Lemma is_token_expired_return `{Platform} token buffer_minutes w b :
  is_token_expired_at (clock w) token buffer_minutes = Ok b ->
  is_token_expired token buffer_minutes w = Return b w.
Proof.
  intros Hb. unfold is_token_expired, gets, lift, mbind, task_bind.
  cbn [bind_coro]. now rewrite Hb.
Qed.

(** ** Refresh tokens that can be sent

    The body of the refresh request is encoded before the [try] of
    [refresh_jwt_token] opens, and a refresh token of the environment that
    does not encode raises there.  A token of ASCII characters always
    encodes. *)
Definition refresh_token_encodes (w : world) : bool :=
  match environ w !! "WARP_REFRESH_TOKEN" with
  | Some refresh_token => PyStr.isascii refresh_token
  | None => true
  end.

(** ** Sample sessions *)

(** A token whose payload is an object with [exp] 2000000000, and one
    with [exp] 1700000300. *)
Definition valid_token : string := "h.eyJleHAiOjIwMDAwMDAwMDB9.s".
Definition expiring_token : string := "h.eyJleHAiOjE3MDAwMDAzMDB9.s".

(** A process started at time 1700000000 with the token in [.env]. *)
Definition session (jwt : string) : world :=
  {| dotenv := <["WARP_JWT" := jwt]> ∅; dotenv_writable := true;
     environ := ∅; files := ∅; files_writable := true;
     clock := 1700000000 |}.


(** A process that holds a refresh token in its environment. *)
Definition signed_in : world :=
  with_environ (<["WARP_REFRESH_TOKEN" := "R0"]> ∅) (session valid_token).

(** An accounts file whose only account has used up its quota. *)
Definition exhausted : world :=
  saved "data/accounts.json"
    [JDict [("email", JStr "a@example.com"); ("refresh_token", JStr "ra");
            ("account_status", JStr "quota_exhausted")]]
    empty_world.

(** ** The coordinator and its callers *)

(** X21.  A token that has more than fifteen minutes left costs nothing:
    with such a token at hand once [.env] is loaded and the quota check
    disabled, an unforced [check_and_refresh_token] returns [True] at
    once; it makes no request and writes nothing, the reload of [.env]
    apart. *)
Theorem valid_token_no_traffic `{Platform} w jwt :
  environ (reloaded w) !! "WARP_JWT" = Some jwt ->
  jwt <> "" ->
  is_token_expired_at (clock w) (JStr jwt) 15 = Ok false ->
  QUOTA_REFRESH_THRESHOLD = 0 ->
  check_and_refresh_token false w = Return true (reloaded w).
Proof.
  intros Hjwt Hne Hexp Hq. unfold check_and_refresh_token.
  rewrite (bind_return _ _ w tt (reloaded w)) by reflexivity.
  rewrite (bind_return _ _ _ (Some jwt) (reloaded w))
    by (unfold getenv, gets; now rewrite Hjwt).
  assert (Hset : unset (Some jwt) = false) by now apply String.eqb_neq.
  rewrite Hset. cbn [or_empty].
  rewrite (bind_return _ _ _ false (reloaded w))
    by now apply is_token_expired_return.
  rewrite Hq.
  rewrite (bind_return _ _ _ false (reloaded w)) by reflexivity.
  reflexivity.
Qed.

Lemma valid_token_no_traffic_witness :
  @check_and_refresh_token Reference.platform false (session valid_token)
  = Return true (reloaded (session valid_token)).
Proof.
  apply (@valid_token_no_traffic Reference.platform (session valid_token)
           valid_token).
  - reflexivity.
  - discriminate.
  - reflexivity.
  - reflexivity.
Defined.


(** X26.  [get_valid_jwt] hands out a token that has more than two
    minutes left as it is: it returns the token that the reload of [.env]
    shows, without a request and without a call of the coordinator. *)
Theorem valid_token_is_returned `{Platform} w jwt :
  environ (reloaded w) !! "WARP_JWT" = Some jwt ->
  jwt <> "" ->
  is_token_expired_at (clock w) (JStr jwt) 2 = Ok false ->
  get_valid_jwt w = Return (Some jwt) (reloaded w).
Proof.
  intros Hjwt Hne Hexp. unfold get_valid_jwt.
  rewrite (bind_return _ _ w tt (reloaded w)) by reflexivity.
  rewrite (bind_return _ _ _ (Some jwt) (reloaded w))
    by (unfold getenv, gets; now rewrite Hjwt).
  assert (Hset : unset (Some jwt) = false) by now apply String.eqb_neq.
  rewrite Hset.
  rewrite (bind_return _ _ _ (Some jwt) (reloaded w)) by reflexivity.
  cbn [or_empty].
  rewrite (bind_return _ _ _ false (reloaded w))
    by now apply is_token_expired_return.
  reflexivity.
Qed.

Lemma valid_token_is_returned_witness :
  @get_valid_jwt Reference.platform (session valid_token)
  = Return (Some valid_token) (reloaded (session valid_token)).
Proof.
  apply (@valid_token_is_returned Reference.platform (session valid_token)
           valid_token).
  - reflexivity.
  - discriminate.
  - reflexivity.
Defined.

Lemma nonempty_with_error_dict key kind :
  key <> "error_type" -> nonempty_with key (error_dict kind) = Ok false.
Proof.
  intros Hne. unfold nonempty_with, error_dict. cbn.
  destruct (String.eqb_spec key "error_type"); [contradiction | reflexivity].
Qed.

(** X27.  Without a token, [get_valid_jwt] fails loudly: with no token
    at hand, no accounts file configured, a refresh token in the
    environment that is ASCII, or none, and an upstream that does not
    answer the refresh request with a 200, it raises the [RuntimeError]
    that says so, and has changed nothing but the environment reloaded
    from [.env]. *)
Theorem no_token_and_no_upstream `{Platform} net w :
  unset (environ (reloaded w) !! "WARP_JWT") = true ->
  unset (environ (reloaded w) !! "LOCAL_JWT_FILEPATH") = true ->
  refresh_token_encodes (reloaded w) = true ->
  match net (refresh_request (reloaded w)) with
  | Ok resp => status_code resp <> 200
  | Raise _ => True
  end ->
  run net (get_valid_jwt w)
  = (Raise (RuntimeError "WARP_JWT is not set and refresh failed"), reloaded w).
Proof.
  intros Hjwt Hfile _ Hnet. unfold get_valid_jwt.
  rewrite run_bind. cbn [load_dotenv modify run]. fold (reloaded w).
  rewrite run_bind, run_getenv. cbv beta iota. rewrite Hjwt.
  rewrite run_bind, run_bind.
  rewrite run_check_fresh_start by now rewrite reloaded_idem.
  rewrite reloaded_idem. cbv zeta.
  assert (Hret : exists kind,
             returned (net (refresh_request (reloaded w))) = error_dict kind
             /\ id_token_kept (net (refresh_request (reloaded w))) (reloaded w)
                = reloaded w).
  { unfold returned, id_token_kept.
    destruct (net (refresh_request (reloaded w))) as [resp|e]; [|eauto].
    apply Z.eqb_neq in Hnet. rewrite Hnet. eauto. }
  destruct Hret as (kind & -> & ->).
  rewrite nonempty_with_error_dict by discriminate.
  cbv beta iota. rewrite run_bind, run_ret. cbv beta iota. rewrite Hjwt.
  reflexivity.
Qed.

Lemma no_token_and_no_upstream_witness :
  run offline (@get_valid_jwt Reference.platform empty_world)
  = (Raise (RuntimeError "WARP_JWT is not set and refresh failed"),
     reloaded empty_world).
Proof.
  apply (@no_token_and_no_upstream Reference.platform offline empty_world).
  - reflexivity.
  - reflexivity.
  - reflexivity.
  - exact I.
Defined.


Lemma requests_update_env net key value w (update : json -> task bool) :
  (forall v, update v = try_ (_ ← set_key key v; mret true) (fun _ => mret false)) ->
  requests net (update value w) = [].
Proof.
  intros ->. unfold try_, set_key, mbind, task_bind.
  destruct value; try reflexivity. destruct (dotenv_writable w); reflexivity.
Qed.

Lemma requests_lift {A} net (r : result A) w : requests net (lift r w) = [].
Proof. destruct r; reflexivity. Qed.

Lemma requests_post net req w : requests net (post req w) = [req].
Proof. cbn. destruct (net req); reflexivity. Qed.

Lemma requests_ret {A} net (a : A) w : requests net ((mret a : task A) w) = [].
Proof. reflexivity. Qed.

Lemma requests_getenv net key w : requests net (getenv key w) = [].
Proof. reflexivity. Qed.

Lemma requests_raise {A} net e w : requests net (@raise A e w) = [].
Proof. reflexivity. Qed.

Lemma requests_setenv net key value w : requests net (setenv key value w) = [].
Proof. destruct value; reflexivity. Qed.

Lemma requests_is_token_expired `{Platform} net token buffer_minutes w :
  requests net (is_token_expired token buffer_minutes w) = [].
Proof.
  unfold is_token_expired, gets, lift, mbind, task_bind. cbn [bind_coro].
  destruct (is_token_expired_at _ _ _); reflexivity.
Qed.

Lemma requests_update_env_file net value w :
  requests net (update_env_file value w) = [].
Proof. now apply (requests_update_env net "WARP_JWT"). Qed.

Lemma requests_update_env_id_token net value w :
  requests net (update_env_id_token value w) = [].
Proof. now apply (requests_update_env net "WARP_ID_TOKEN"). Qed.

Lemma requests_update_env_refresh_token net value w :
  requests net (update_env_refresh_token value w) = [].
Proof. now apply (requests_update_env net "WARP_REFRESH_TOKEN"). Qed.

(** One step of a run that also lists its requests. *)
Ltac trace_step :=
  first [ rewrite requests_bind | rewrite requests_try | rewrite requests_post
        | rewrite requests_lift | rewrite requests_ret | rewrite requests_raise
        | rewrite requests_getenv | rewrite requests_setenv
        | rewrite requests_is_token_expired
        | rewrite requests_update_env_file
        | rewrite requests_update_env_id_token
        | rewrite requests_update_env_refresh_token
        | run_step ];
  cbv beta iota; cbn [app].

Ltac trace_case :=
  match goal with
  | |- context [match ?x with _ => _ end] =>
      lazymatch x with
      | context [run] => fail
      | context [requests] => fail
      | _ => destruct x eqn:?
      end
  end.

Ltac trace := repeat (first [ trace_step | trace_case ]).

Lemma requests_refresh_jwt_token `{Platform} net w :
  requests net (refresh_jwt_token w) = [refresh_request w].
Proof. unfold refresh_jwt_token, refresh_request. trace. all: reflexivity. Qed.

(** The same, with the refresh-token refresh taken as one step. *)
Ltac refresh_step :=
  first [ rewrite requests_refresh_jwt_token | rewrite run_refresh_jwt_token
        | trace_step ];
  cbv beta iota; cbn [app].

Ltac trace_refresh := repeat (first [ refresh_step | trace_case ]).

Lemma kept_files key value w : files (kept key value w) = files w.
Proof.
  unfold kept. destruct value; try reflexivity.
  destruct (dotenv_writable w); reflexivity.
Qed.

Lemma id_token_kept_files answer w : files (id_token_kept answer w) = files w.
Proof.
  unfold id_token_kept. destruct answer as [resp|e]; [|reflexivity].
  destruct (status_code resp =? 200); [|reflexivity].
  destruct (body resp) as [[| b | z | s | l | m]|e]; try reflexivity.
  unfold with_id_token. destruct (Py.assoc "id_token" m); [|reflexivity].
  apply kept_files.
Qed.

(** ** The three refresh strategies *)

(** X18.  A refresh-token refresh is one request and never an
    exception: with a refresh token in the environment that is ASCII, or
    none, [refresh_jwt_token] sends exactly the refresh request, built
    from that token, and returns a value whatever the answer; it leaves
    the environment and the files alone and writes no key of [.env] but
    the identity token; and when the request itself fails it returns the
    error [refresh_failed] and has changed nothing. *)
Theorem refresh_is_one_request `{Platform} net w :
  refresh_token_encodes w = true ->
  requests net (refresh_jwt_token w) = [refresh_request w]
  /\ exists token_data w',
       run net (refresh_jwt_token w) = (Ok token_data, w')
       /\ environ w' = environ w
       /\ files w' = files w
       /\ (forall key, key <> "WARP_ID_TOKEN" -> dotenv w' !! key = dotenv w !! key)
       /\ (forall e, net (refresh_request w) = Raise e ->
             token_data = error_dict "refresh_failed" /\ w' = w).
Proof.
  intros _. split.
  - apply requests_refresh_jwt_token.
  - rewrite run_refresh_jwt_token. eexists _, _. split; [reflexivity|].
    destruct (id_token_kept_frame (net (refresh_request w)) w) as (He & _ & Hd).
    split; [exact He|]. split; [apply id_token_kept_files|].
    split; [exact Hd|]. now intros e ->.
Qed.

Lemma refresh_is_one_request_witness :
  requests offline (@refresh_jwt_token Reference.platform signed_in)
  = [@refresh_request Reference.platform signed_in]
  /\ exists token_data w',
       run offline (@refresh_jwt_token Reference.platform signed_in)
       = (Ok token_data, w')
       /\ environ w' = environ signed_in
       /\ files w' = files signed_in
       /\ (forall key, key <> "WARP_ID_TOKEN" ->
           dotenv w' !! key = dotenv signed_in !! key)
       /\ (forall e,
             offline (@refresh_request Reference.platform signed_in)
             = Raise e ->
             token_data = error_dict "refresh_failed" /\ w' = signed_in).
Proof.
  apply (@refresh_is_one_request Reference.platform offline signed_in).
  reflexivity.
Defined.

Ltac acquisition_leaf :=
  split;
  [ first [ left; reflexivity | right; left; reflexivity
          | right; right; reflexivity ]
  | split;
    [ intros access Hok; first [ discriminate Hok | reflexivity ]
    | split;
      [ intros req Hin; cbn [removelast In] in Hin;
        repeat match goal with
          | Hor : _ \/ _ |- _ => destruct Hor as [<- | Hor]
          | Hf : False |- _ => destruct Hf
          end;
        eauto
      | intros req Hlast; cbn [last] in Hlast; injection Hlast as <-;
        match goal with
        | Hn : ?upstream ?r = _ |- context [match ?upstream ?r with _ => _ end] =>
            rewrite Hn
        end;
        first [ reflexivity
              | intros Hne; first [ contradiction | eexists; reflexivity ] ] ] ] ].

(** X19.  The anonymous acquisition is three requests in a fixed order,
    cut short at the first failure: it asks to create the user, then to
    sign in with the identity token, then for the access token with the
    refresh token, and makes no other request; a run that returns a token
    has made all three; every request but the last one made was answered
    with a 200; and when the last one made failed to connect or was
    answered with another status, the run raised that error or a
    [RuntimeError]. *)
Theorem anonymous_acquisition_steps net w :
  exists id_token refresh_token,
    let steps := [PostCreateAnonymousUser; PostSignIn id_token;
                  PostRefreshFor refresh_token] in
    let made := requests net (acquire_anonymous_access_token w) in
    let outcome := (run net (acquire_anonymous_access_token w)).1 in
    (made = take 1 steps \/ made = take 2 steps \/ made = steps)
    /\ (forall access, outcome = Ok access -> made = steps)
    /\ (forall req, In req (removelast made) ->
          exists resp, net req = Ok resp /\ status_code resp = 200)
    /\ (forall req, last made = Some req ->
          match net req with
          | Raise e => outcome = Raise e
          | Ok resp =>
              status_code resp <> 200 -> exists msg, outcome = Raise (RuntimeError msg)
          end).
Proof.
  cbv zeta.
  unfold acquire_anonymous_access_token, _create_anonymous_user,
    _exchange_id_token_for_refresh_token.
  trace.
  all: cbn [fst snd app].
  all: repeat match goal with
         | Hs : negb (_ =? _) = false |- _ => apply negb_false_iff, Z.eqb_eq in Hs
         | Hs : negb (_ =? _) = true |- _ => apply negb_true_iff, Z.eqb_neq in Hs
         end.
  all: first [ exists JNull, JNull; solve [acquisition_leaf]
             | eexists _, JNull; solve [acquisition_leaf]
             | eexists _, _; solve [acquisition_leaf] ].
Qed.

(** ** The quota oracle *)

(** X20.  The quota check errs on the side of no refresh:
    [should_refresh_for_quota] raises nothing, and it returns [True] only
    when the threshold is not 0 and the upstream answered the quota
    request with a 200 whose body holds the request-limit record and, in
    it, a limit and a usage whose difference is at most the threshold. *)
Theorem quota_low_needs_evidence `{Platform} net threshold w :
  exists low w',
    run net (should_refresh_for_quota threshold w) = (Ok low, w')
    /\ (low = true ->
        threshold <> 0
        /\ exists id_token resp data quota_info request_limit requests_used,
             net (PostRequestLimitInfo id_token) = Ok resp
             /\ status_code resp = 200
             /\ body resp = Ok data
             /\ (d ← Py.getitem data "data";
                 u ← Py.getitem d "user";
                 u ← Py.getitem u "user";
                 Py.getitem u "requestLimitInfo") = Ok quota_info
             /\ (v ← Py.get quota_info "requestLimit" (JInt 0); Py.as_int v)
                = Ok request_limit
             /\ (v ← Py.get quota_info "requestsUsedSinceLastRefresh" (JInt 0);
                 Py.as_int v) = Ok requests_used
             /\ request_limit - requests_used <= threshold).
Proof.
  unfold should_refresh_for_quota.
  destruct (Z.eqb_spec threshold 0) as [Hzero|Hzero];
    [eexists _, _; split; [reflexivity | discriminate]|].
  rewrite run_try, run_bind. unfold get_quota_info. rewrite run_bind.
  destruct (run net (get_valid_id_token w)) as [[id_token|e] w1];
    [|eexists _, _; split; [reflexivity | discriminate]].
  trace.
  all: eexists _, _; (split; [reflexivity|]); try discriminate.
  intros Hlow. split; [exact Hzero|].
  unfold mbind, result_bind in *.
  destruct (Py.getitem a0 "data") as [d|] eqn:Hd; [|discriminate Heqb1].
  cbn [rbind] in *.
  destruct (Py.getitem d "user") as [u|] eqn:Hu; [|discriminate Heqb1].
  cbn [rbind] in *.
  destruct (Py.getitem u "user") as [u0|] eqn:Hu0; [|discriminate Heqb1].
  cbn [rbind] in *.
  destruct (Py.getitem u0 "requestLimitInfo") as [quota_info|] eqn:Hq;
    [|discriminate Heqb1].
  cbn [rbind] in *.
  destruct (Py.getitem quota_info "requestLimit"); [|discriminate Heqb1].
  cbn [rbind] in *.
  destruct (Py.getitem quota_info "requestsUsedSinceLastRefresh");
    [|discriminate Heqb1].
  cbn [rbind except_] in *.
  exists id_token, a, a0, quota_info, a3, a4.
  rewrite Heqr1, Heqr2, Hd. cbn [rbind]. rewrite Hu. cbn [rbind].
  rewrite Hu0. cbn [rbind].
  repeat split; try assumption.
  - now apply Z.eqb_eq.
  - now apply Z.leb_le.
Qed.


(** ** The registry under the coordinator *)

Lemma requests_save net file_path accounts w :
  requests net (save_accounts_to_file file_path accounts w) = [].
Proof.
  unfold save_accounts_to_file, try_, makedirs, mbind, task_bind.
  destruct (String.eqb (dirname file_path) ""); [reflexivity|].
  destruct (files_writable w) eqn:Hw; [|reflexivity].
  cbn. now rewrite Hw.
Qed.

Lemma requests_load net file_path w :
  requests net (load_accounts_from_file file_path w) = [].
Proof.
  unfold load_accounts_from_file. rewrite requests_try, requests_bind, run_bind.
  cbn [gets run requests app].
  destruct (files w !! file_path) as [[v|]|]; try reflexivity.
  destruct v; try reflexivity.
  rewrite requests_bind, requests_lift, run_bind, run_lift. cbn [app].
  destruct (init_account_status l) as [[accounts updated]|e]; [|reflexivity].
  rewrite requests_bind, run_bind. cbn [fst snd].
  destruct updated; [|reflexivity].
  rewrite requests_save, run_save.
  destruct (negb _ && _); reflexivity.
Qed.

Lemma requests_get_current_account net file_path w :
  requests net (get_current_account_from_file file_path w) = [].
Proof.
  unfold get_current_account_from_file.
  rewrite requests_bind, requests_load, run_load. cbn [app].
  destruct (load_result file_path w) as [accounts w1]. cbn [fst snd].
  destruct accounts as [|a accounts]; [reflexivity|].
  rewrite requests_bind, requests_lift, run_lift. cbn [app].
  destruct (first_available (a :: accounts)) as [[account|]|e]; reflexivity.
Qed.

Lemma first_available_nothing accounts :
  Forall (fun a => is_record a = true /\ RegistryMore.eligible a = false) accounts ->
  first_available accounts = Ok None.
Proof.
  induction 1 as [|a accounts [Hrec Hel] _ IH]; [reflexivity|].
  destruct a as [| | | | |m]; try discriminate Hrec.
  cbn [first_available]. unfold RegistryMore.eligible in Hel.
  cbn [Py.get] in *. cbn [mbind result_bind rbind].
  destruct (Py.falsy _); [exact IH|]. cbn [negb andb] in Hel.
  now rewrite Hel.
Qed.

(** X24.  Without an account to use there is no traffic: when every
    loaded account is a record that lacks a refresh token or has a status
    other than [available], and so also when the file is missing,
    unreadable or empty, [refresh_from_file] returns [False] without a
    request, and leaves the world as the load left it. *)
Theorem no_account_no_traffic `{Platform} net file_path w accounts w1 :
  run net (load_accounts_from_file file_path w) = (Ok accounts, w1) ->
  Forall (fun a => is_record a = true /\ RegistryMore.eligible a = false) accounts ->
  requests net (refresh_from_file file_path w) = []
  /\ run net (refresh_from_file file_path w) = (Ok false, w1).
Proof.
  intros Hload Hnone. apply first_available_nothing in Hnone.
  assert (Hrun : run net (get_current_account_from_file file_path w)
                 = (Ok (JDict []), w1)).
  { unfold get_current_account_from_file. rewrite run_bind, Hload.
    destruct accounts as [|a accounts]; [reflexivity|].
    now rewrite run_bind, run_lift, Hnone. }
  unfold refresh_from_file.
  rewrite requests_bind, run_bind, requests_get_current_account, Hrun.
  cbn [app Py.falsy]. rewrite requests_bind, run_bind, run_ret, requests_ret.
  split; reflexivity.
Qed.

Lemma no_account_no_traffic_witness :
  requests offline
    (@refresh_from_file Reference.platform "data/accounts.json" exhausted) = []
  /\ run offline
       (@refresh_from_file Reference.platform "data/accounts.json" exhausted)
     = (Ok false, exhausted).
Proof.
  apply (@no_account_no_traffic Reference.platform offline "data/accounts.json"
           exhausted
           [JDict [("email", JStr "a@example.com"); ("refresh_token", JStr "ra");
                   ("account_status", JStr "quota_exhausted")]]
           exhausted).
  - reflexivity.
  - repeat constructor.
Defined.

Definition marked_exhausted (account : json) : Prop :=
  exists m, account = JDict m
            /\ Py.assoc "account_status" m = Some (JStr "quota_exhausted").

Lemma set_first_status_marks accounts email status : forall accounts',
  set_first_status accounts email status = Ok (Some accounts') ->
  Exists (fun a => exists m, a = JDict m
                             /\ Py.assoc "account_status" m = Some status)
         accounts'.
Proof.
  intros accounts' Hset.
  destruct (RegistryMore.set_first_status_some _ _ _ _ Hset)
    as (before & m & after & _ & -> & _).
  apply Exists_app. right. constructor. eexists. split; [reflexivity|].
  apply RegistryMore.assoc_set_lookup.
Qed.

Lemma update_account_status_written net file_path email status w w' :
  run net (update_account_status file_path email status w) = (Ok true, w') ->
  exists accounts,
    files w' !! file_path = Some (FJson (JList accounts))
    /\ Exists (fun a => exists m, a = JDict m
                                  /\ Py.assoc "account_status" m = Some status)
              accounts.
Proof.
  unfold update_account_status. rewrite run_try, run_bind, run_load.
  destruct (load_result file_path w) as [accounts w1]. cbn [fst snd].
  destruct accounts as [|a accounts]; [discriminate|].
  rewrite run_bind, run_lift.
  destruct (set_first_status (a :: accounts) email status) as [[accounts'|]|e]
    eqn:Hset; try discriminate.
  rewrite run_save.
  destruct (negb (String.eqb (dirname file_path) "") && files_writable w1);
    [|discriminate].
  intros [= <-]. exists accounts'. split; [apply lookup_insert_eq|].
  now apply set_first_status_marks in Hset.
Qed.

(** X25.  Marking the current account is safe to call anywhere: it
    raises nothing and leaves the environment, [.env] and the clock alone;
    with no accounts file configured or no refresh token in the
    environment it returns [False] and changes nothing; and when it
    returns [True] the configured file holds an account whose status is
    [quota_exhausted]. *)
Theorem marking_is_contained net w :
  exists marked w',
    run net (mark_current_account_quota_exhausted w) = (Ok marked, w')
    /\ env_part w' = env_part w
    /\ ((unset (environ w !! "LOCAL_JWT_FILEPATH")
         || unset (environ w !! "WARP_REFRESH_TOKEN")) = true ->
        marked = false /\ w' = w)
    /\ (marked = true ->
        exists file_path accounts,
          environ w !! "LOCAL_JWT_FILEPATH" = Some file_path
          /\ files w' !! file_path = Some (FJson (JList accounts))
          /\ Exists marked_exhausted accounts).
Proof.
  unfold mark_current_account_quota_exhausted.
  rewrite run_bind, run_getenv. cbv beta iota.
  destruct (environ w !! "LOCAL_JWT_FILEPATH") as [file_path|];
    [|eexists _, _; repeat split; try reflexivity; discriminate].
  cbn [unset]. destruct (String.eqb file_path "") eqn:Hpath;
    [eexists _, _; repeat split; try reflexivity; discriminate|].
  rewrite run_bind, run_getenv. cbv beta iota.
  destruct (environ w !! "WARP_REFRESH_TOKEN") as [current|];
    [|eexists _, _; repeat split; try reflexivity; discriminate].
  cbn [unset orb]. destruct (String.eqb current "") eqn:Hcur;
    [eexists _, _; repeat split; try reflexivity; discriminate|].
  rewrite run_try, run_bind, run_load.
  pose proof (load_frame file_path w) as Hload.
  destruct (load_result file_path w) as [accounts w1]. cbn [fst snd] in *.
  destruct accounts as [|a accounts];
    [eexists _, _; repeat split; try eassumption; discriminate|].
  rewrite run_bind, run_lift.
  destruct (find_by_refresh_token (a :: accounts) current) as [[email|]|e];
    try (eexists _, _; repeat split; try eassumption; discriminate).
  destruct (update_account_status_frame net file_path email
              (JStr "quota_exhausted") w1) as [[b Hb] Hframe].
  pose proof (update_account_status_written net file_path email
                (JStr "quota_exhausted") w1) as Hwritten.
  destruct (run net (update_account_status file_path email
                       (JStr "quota_exhausted") w1)) as [r w2].
  cbn [fst snd] in Hb, Hframe. subst r.
  exists b, w2. split; [reflexivity|]. split; [congruence|].
  split; [discriminate|]. intros ->.
  destruct (Hwritten w2 eq_refl) as (accounts' & Hfile & Hex).
  exists file_path, accounts'. repeat split; assumption.
Qed.

Lemma quota_check_disabled `{Platform} :
  QUOTA_REFRESH_THRESHOLD = 0 ->
  should_refresh_for_quota QUOTA_REFRESH_THRESHOLD = mret false.
Proof. intros ->. reflexivity. Qed.

(** X22.  An expiring token is renewed by the refresh token alone: with
    a token at hand that the expiry check reports as expiring within
    fifteen minutes, the quota check disabled and a refresh token in the
    environment that is ASCII, or none, an unforced
    [check_and_refresh_token] makes the one refresh-token request and
    nothing else, reads no accounts file, and returns what
    [plain_refresh] returns. *)
Theorem expiring_token_plain_refresh `{Platform} net w jwt :
  environ (reloaded w) !! "WARP_JWT" = Some jwt ->
  jwt <> "" ->
  is_token_expired_at (clock w) (JStr jwt) 15 = Ok true ->
  QUOTA_REFRESH_THRESHOLD = 0 ->
  refresh_token_encodes (reloaded w) = true ->
  requests net (check_and_refresh_token false w) = [refresh_request (reloaded w)]
  /\ run net (check_and_refresh_token false w)
     = run net (plain_refresh (reloaded w)).
Proof.
  intros Hjwt Hne Hexp Hq _. unfold check_and_refresh_token.
  assert (Hset : unset (Some jwt) = false) by now apply String.eqb_neq.
  rewrite requests_bind, run_bind. cbn [load_dotenv modify run requests app].
  fold (reloaded w).
  rewrite requests_bind, run_bind, run_getenv, requests_getenv, Hjwt, Hset.
  cbv beta iota. cbn [app or_empty].
  rewrite requests_bind, run_bind, run_is_token_expired,
    requests_is_token_expired.
  change (clock (reloaded w)) with (clock w). rewrite Hexp.
  cbv beta iota. cbn [app].
  rewrite requests_bind, run_bind, (quota_check_disabled Hq), run_ret,
    requests_ret.
  cbv beta iota. cbn [app andb orb negb].
  rewrite requests_bind, run_bind, run_ret, requests_ret.
  cbv beta iota. cbn [app]. split; [|reflexivity].
  unfold plain_refresh. trace_refresh. all: reflexivity.
Qed.

Lemma expiring_token_plain_refresh_witness :
  requests offline
    (@check_and_refresh_token Reference.platform false (session expiring_token))
  = [@refresh_request Reference.platform (reloaded (session expiring_token))].
Proof.
  exact (proj1 (@expiring_token_plain_refresh Reference.platform offline
                  (session expiring_token) expiring_token
                  eq_refl ltac:(discriminate) eq_refl eq_refl eq_refl)).
Defined.





End AuthMore.
